(** * AstroPulse: the multi-source risk scoring engine

    A shallow embedding of the heuristic scorers of the AstroPulse backend
    ([app/ml/solar_flare_predictor.py], [app/ml/radiation_predictor.py]),
    of the aggregator ([app/services/prediction_service.py]) and of the alert
    synthesizer ([app/api/routes/alerts.py]).

    Python floats are IEEE-754 binary64 numbers: they are modelled by Rocq's
    primitive floats, whose operations are the same correctly rounded
    binary64 operations.  Decimal literals such as [0.2] denote, as in
    Python, the nearest binary64 number.  Exceptions are explicit: a function
    that can raise returns a [result]. *)

From Stdlib Require Import ZArith String Ascii List Bool Lia Permutation Sorted.
From Stdlib Require Import Floats.
From Stdlib Require Uint63.
Import ListNotations.
Set Warnings "-inexact-float".

(** ** Exceptions *)

Inductive exn : Type :=
| ValueError
| TypeError
| OverflowError.

Inductive result (A : Type) : Type :=
| Ok (a : A)
| Raise (e : exn).

Arguments Ok {A} a.
Arguments Raise {A} e.

Definition bind {A B : Type} (r : result A) (k : A -> result B) : result B :=
  match r with
  | Ok a => k a
  | Raise e => Raise e
  end.

Notation "x <- c1 ;; c2" := (bind c1 (fun x => c2))
  (at level 61, c1 at next level, right associativity).

(** ** Python numbers *)

Module PyNum.

Local Open Scope float_scope.

(** [min(a, b)]: the first argument unless the second is strictly smaller. *)
Definition pymin (a b : float) : float := if b <? a then b else a.

(** [a >= b] and [a > b] on floats. *)
Definition ge (a b : float) : bool := b <=? a.
Definition gt (a b : float) : bool := b <? a.

(** The float of a length or of a counter.  A CPython sequence has fewer than
    [2^63] elements, so the conversion goes through a 63-bit integer. *)
Definition of_count (n : nat) : float := of_uint63 (Uint63.of_Z (Z.of_nat n)).

(** Truthiness of a float: zero (of either sign) is false, all else is true. *)
Definition truthy (x : float) : bool := negb (x =? 0).

(** [a / b] on integers rounded to the nearest integer, ties to even. *)
Definition div_half_even (a b : Z) : Z :=
  let q := (a / b)%Z in
  let r := (a mod b)%Z in
  match (2 * r ?= b)%Z with
  | Lt => q
  | Gt => (q + 1)%Z
  | Eq => if Z.even q then q else (q + 1)%Z
  end.

(** [round(x, ndigits)] of the built-in [float], for [ndigits >= 0].  CPython
    rounds the exact binary value of [x] to [ndigits] decimals (ties to even)
    and converts the decimal back, that is, it returns the binary64 number
    nearest to [n / 10^ndigits] for the rounded integer [n].  Infinities and
    NaN round to themselves, and so does every float with a nonnegative
    exponent, which is an integer. *)
Definition py_round (ndigits : nat) (x : float) : float :=
  match Prim2SF x with
  | S754_finite s m e =>
      if (0 <=? e)%Z then x
      else
        let scale := Z.to_pos (10 ^ Z.of_nat ndigits) in
        match div_half_even (Z.pos (m * scale)) (2 ^ (- e)) with
        | Z.pos n =>
            SF2Prim (SFdiv prec emax (S754_finite s n 0) (S754_finite false scale 0))
        | _ => SF2Prim (S754_zero s)
        end
  | _ => x
  end.

(** [rint]: the nearest integer, ties to even, as a float. *)
Definition rint (x : float) : float :=
  match Prim2SF x with
  | S754_finite s m e =>
      if (0 <=? e)%Z then x
      else
        let n := div_half_even (Z.pos m) (2 ^ (- e)) in
        SF2Prim (binary_normalize prec emax (if s then (- n)%Z else n) 0 s)
  | _ => x
  end.

(** [round(x, 1)] on a [numpy.float64]: numpy scales by ten, rounds to the
    nearest integer and divides again. *)
Definition np_round1 (x : float) : float := rint (x * 10) / 10.

(** [numpy.mean] of a sequence of fewer than eight floats: the running sum
    from the first element, divided by the length; NaN (with a warning) for
    the empty sequence. *)
Definition np_mean (xs : list float) : float :=
  match xs with
  | [] => nan
  | x :: tl => fold_left PrimFloat.add tl x / of_count (length xs)
  end.

End PyNum.

(** ** Python strings

    A Python [str] is modelled by its UTF-8 bytes.  [str.upper] moves only
    the ASCII letters here; no character outside ASCII has an upper case that
    is "X", "M" or "C", so the classifications below read the same result. *)

Module PyStr.

Local Open Scope string_scope.

Definition upper_ascii (c : ascii) : ascii :=
  let n := nat_of_ascii c in
  if andb (97 <=? n)%nat (n <=? 122)%nat then ascii_of_nat (n - 32) else c.

(** [s[0].upper()] on a non-empty string [String c rest]. *)
Definition first_upper (c : ascii) : string := String (upper_ascii c) "".

(** [s.startswith(p)]. *)
Definition startswith (p s : string) : bool := String.prefix p s.

(** [s.startswith((p1, p2, ...))]. *)
Definition startswith_any (ps : list string) (s : string) : bool :=
  existsb (fun p => startswith p s) ps.

(** [x in [s1, s2, ...]] on strings. *)
Definition mem (x : string) (l : list string) : bool :=
  existsb (String.eqb x) l.

(** [s.replace(old, new)] for a one-character [old]. *)
Fixpoint replace_char (old : ascii) (new s : string) : string :=
  match s with
  | "" => ""
  | String c rest =>
      if Ascii.eqb c old then new ++ replace_char old new rest
      else String c (replace_char old new rest)
  end.

End PyStr.

(** ** Upstream events

    The events of the DONKI feed are dictionaries read with [.get]; a field is
    [None] when the key is absent. *)

(** A solar flare (FLR) event. *)
Record flare : Type := {
  classType : option string;
  flrID : option string;
  peakTime : option string;
  beginTime : option string
}.

(** A coronal mass ejection (CME) event; [speed] is the number that
    [float()] reads from the field. *)
Record cme : Type := {
  speed : option float;
  activityID : option string;
  startTime : option string
}.

(** [d.get(key, default)]. *)
Definition get {A : Type} (field : option A) (default : A) : A :=
  match field with
  | Some v => v
  | None => default
  end.

(** A row of a NOAA time series: a timestamp followed by readings.  [Num f]
    is a cell that [float()] reads as [f] (a JSON number or a numeric
    string); [Txt s] is a string that [float()] rejects. *)
Inductive cell : Type :=
| Num (f : float)
| Txt (s : string).

Definition row : Type := list cell.

Definition float_of_cell (c : cell) : result float :=
  match c with
  | Num f => Ok f
  | Txt _ => Raise ValueError
  end.

(** ** Dates and times

    [datetime.fromisoformat] as CPython 3.7 to 3.10 define it, for the format
    [YYYY-MM-DD[*HH[:MM[:SS[.fff[fff]]]][+HH:MM[:SS[.ffffff]]]]], and the sum
    of a [datetime] and a [timedelta].  A [datetime] is kept as its proleptic
    Gregorian ordinal and the microsecond of its day; its rendering by
    [isoformat] is not modelled. *)

Module PyDatetime.

Local Open Scope Z_scope.

Record datetime : Type := {
  ordinal : Z;             (* day number, 1 is 0001-01-01 *)
  day_us : Z;              (* microseconds since midnight *)
  utcoffset : option Z     (* microseconds east of UTC, None when naive *)
}.

Definition MAXORDINAL : Z := 3652059.
Definition us_per_day : Z := 86400000000.
Definition us_per_hour : Z := 3600000000.

Definition is_leap (y : Z) : bool :=
  (y mod 4 =? 0) && (negb (y mod 100 =? 0) || (y mod 400 =? 0)).

Definition days_in_month (y m : Z) : Z :=
  if m =? 2 then (if is_leap y then 29 else 28)
  else if (m =? 4) || (m =? 6) || (m =? 9) || (m =? 11) then 30
  else 31.

Definition days_before_year (y : Z) : Z :=
  let y' := y - 1 in y' * 365 + y' / 4 - y' / 100 + y' / 400.

Fixpoint days_before_month_aux (y : Z) (m : nat) : Z :=
  match m with
  | O => 0
  | S m' => days_before_month_aux y m' + days_in_month y (Z.of_nat m)
  end.

Definition days_before_month (y m : Z) : Z :=
  days_before_month_aux y (Z.to_nat (m - 1)).

Definition ymd2ord (y m d : Z) : Z :=
  days_before_year y + days_before_month y m + d.

(** Decimal fields. *)
Definition digit (c : ascii) : option Z :=
  let n := Z.of_nat (nat_of_ascii c) in
  if (48 <=? n) && (n <=? 57) then Some (n - 48) else None.

Fixpoint digits_from (acc : Z) (s : string) : option Z :=
  match s with
  | EmptyString => Some acc
  | String c rest =>
      match digit c with
      | Some d => digits_from (acc * 10 + d) rest
      | None => None
      end
  end.

(** [int(s)] for a field of exactly [n] digits. *)
Definition field (n : nat) (s : string) : option Z :=
  if (String.length s =? n)%nat then digits_from 0 s else None.

Definition sub (start len : nat) (s : string) : string := String.substring start len s.
Definition from (start : nat) (s : string) : string :=
  String.substring start (String.length s - start) s.

(** [HH[:MM[:SS[.fff[fff]]]]]: hours, minutes, seconds, microseconds. *)
Definition parse_hh_mm_ss_ff (t : string) : option (Z * Z * Z * Z) :=
  let n := String.length t in
  match field 2 (sub 0 2 t) with
  | None => None
  | Some hh =>
      if (n =? 2)%nat then Some (hh, 0, 0, 0)
      else if negb (String.eqb (sub 2 1 t) ":") then None
      else
        match field 2 (sub 3 2 t) with
        | None => None
        | Some mm =>
            if (n =? 5)%nat then Some (hh, mm, 0, 0)
            else if negb (String.eqb (sub 5 1 t) ":") then None
            else
              match field 2 (sub 6 2 t) with
              | None => None
              | Some ss =>
                  if (n =? 8)%nat then Some (hh, mm, ss, 0)
                  else if negb (String.eqb (sub 8 1 t) ".") then None
                  else if (n =? 12)%nat then
                    option_map (fun f => (hh, mm, ss, f * 1000)) (field 3 (from 9 t))
                  else if (n =? 15)%nat then
                    option_map (fun f => (hh, mm, ss, f)) (field 6 (from 9 t))
                  else None
              end
        end
  end.

(** The position after the first "-", or else after the first "+". *)
Definition tz_pos (t : string) : option nat :=
  match String.index 0 "-" t with
  | Some i => Some (S i)
  | None =>
      match String.index 0 "+" t with
      | Some i => Some (S i)
      | None => None
      end
  end.

Definition in_range (lo hi x : Z) : bool := (lo <=? x) && (x <=? hi).

(** The time part: time of day in microseconds and the UTC offset. *)
Definition parse_isoformat_time (t : string) : option (Z * option Z) :=
  let timestr :=
    match tz_pos t with
    | Some p => sub 0 (p - 1) t
    | None => t
    end in
  match parse_hh_mm_ss_ff timestr with
  | None => None
  | Some (hh, mm, ss, ff) =>
      if negb (in_range 0 23 hh && in_range 0 59 mm && in_range 0 59 ss) then None
      else
        let us := ((hh * 60 + mm) * 60 + ss) * 1000000 + ff in
        match tz_pos t with
        | None => Some (us, None)
        | Some p =>
            let tzstr := from p t in
            let n := String.length tzstr in
            if negb ((n =? 5) || (n =? 8) || (n =? 15))%nat then None
            else
              match parse_hh_mm_ss_ff tzstr with
              | None => None
              | Some (h, m, s, f) =>
                  let off := ((h * 60 + m) * 60 + s) * 1000000 + f in
                  let sign := if String.eqb (sub (p - 1) 1 t) "-" then -1 else 1 in
                  if off <? us_per_day then Some (us, Some (sign * off)) else None
              end
        end
  end.

(** [datetime.fromisoformat(s)]; [None] stands for [ValueError]. *)
Definition fromisoformat (s : string) : option datetime :=
  let dstr := sub 0 10 s in
  let tstr := from 11 s in
  match field 4 (sub 0 4 dstr), field 2 (sub 5 2 dstr), field 2 (sub 8 2 dstr) with
  | Some y, Some m, Some d =>
      if negb (String.eqb (sub 4 1 dstr) "-" && String.eqb (sub 7 1 dstr) "-") then None
      else if negb (in_range 1 9999 y && in_range 1 12 m && in_range 1 (days_in_month y m) d)
      then None
      else
        if (String.length s <=? 10)%nat then
          Some {| ordinal := ymd2ord y m d; day_us := 0; utcoffset := None |}
        else
          match parse_isoformat_time tstr with
          | Some (us, tz) =>
              Some {| ordinal := ymd2ord y m d; day_us := us; utcoffset := tz |}
          | None => None
          end
  | _, _, _ => None
  end.

Local Open Scope float_scope.

(** C's [modf]: the integral part, as an integer, and the fractional part of
    a finite float. *)
Definition modf (x : float) : Z * float :=
  match Prim2SF x with
  | S754_finite s m e =>
      let sg := fun z : Z => if s then (- z)%Z else z in
      if (0 <=? e)%Z then (sg (Z.pos m * 2 ^ e)%Z, SF2Prim (S754_zero s))
      else
        let d := (2 ^ (- e))%Z in
        (sg (Z.pos m / d)%Z,
         SF2Prim (binary_normalize prec emax (sg (Z.pos m mod d)%Z) e s))
  | _ => (0%Z, x)
  end.

(** [timedelta(hours=h)] for a float [h], in microseconds: the whole hours
    exactly, the fraction of an hour through one float product, the remaining
    fraction of a microsecond rounded to nearest, ties to even. *)
Definition timedelta_hours (h : float) : result Z :=
  match Prim2SF h with
  | S754_nan => Raise ValueError
  | S754_infinity _ => Raise OverflowError
  | _ =>
      let '(intpart, fracpart) := modf h in
      let sum := (intpart * us_per_hour)%Z in
      let '(sum, leftover) :=
        if fracpart =? 0 then (sum, 0)
        else let '(i, f) := modf (3600000000 * fracpart) in ((sum + i)%Z, f) in
      let whole_us :=
        if PrimFloat.abs leftover <? 0.5 then 0%Z
        else if PrimFloat.abs leftover =? 0.5 then
          (if Z.odd sum then (if leftover <? 0 then (-1)%Z else 1%Z) else 0%Z)
        else (if leftover <? 0 then (-1)%Z else 1%Z) in
      let us := (sum + whole_us)%Z in
      if (Z.abs (us / us_per_day) <=? 999999999)%Z then Ok us else Raise OverflowError
  end.

(** [d + delta] for a [timedelta] of [delta] microseconds. *)
Definition add_timedelta (d : datetime) (delta : Z) : result datetime :=
  let total := (day_us d + delta)%Z in
  let day := (ordinal d + total / us_per_day)%Z in
  if ((1 <=? day) && (day <=? MAXORDINAL))%Z then
    Ok {| ordinal := day; day_us := (total mod us_per_day)%Z; utcoffset := utcoffset d |}
  else Raise OverflowError.

End PyDatetime.

(** ** The flare scorer ([SolarFlarePredictor]) *)

Module SolarFlarePredictor.

Import PyNum PyStr.
Local Open Scope string_scope.
Local Open Scope float_scope.

Definition model_version : string := "1.0.0".
Definition accuracy : float := 0.78.

(** The dictionary [{"X": 0, "M": 0, "C": 0}] of the counting loop. *)
Record flare_counts : Type := { count_X : nat; count_M : nat; count_C : nat }.

Definition count_flare (counts : flare_counts) (f : flare) : flare_counts :=
  match get (classType f) "" with
  | "" => counts
  | String c _ =>
      let first_char := first_upper c in
      if String.eqb first_char "X" then
        {| count_X := S (count_X counts); count_M := count_M counts; count_C := count_C counts |}
      else if String.eqb first_char "M" then
        {| count_X := count_X counts; count_M := S (count_M counts); count_C := count_C counts |}
      else if String.eqb first_char "C" then
        {| count_X := count_X counts; count_M := count_M counts; count_C := S (count_C counts) |}
      else counts
  end.

Definition count_flares (recent_flares : list flare) : flare_counts :=
  fold_left count_flare recent_flares {| count_X := 0; count_M := 0; count_C := 0 |}.

Definition _calculate_activity_score (recent_flares : list flare) : float :=
  match recent_flares with
  | [] => 0.2
  | _ =>
      let counts := count_flares recent_flares in
      let score :=
        (of_count (count_X counts) * 0.9 +
         of_count (count_M counts) * 0.6 +
         of_count (count_C counts) * 0.3) / 10 in
      pymin (score + 0.2) 0.9
  end.

Definition _analyze_solar_wind {A : Type} (solar_wind_data : list A) : float :=
  if (length solar_wind_data <? 5)%nat then 0.5
  else
    let data_quality := of_count (length solar_wind_data) / 100 in
    pymin (0.3 + data_quality * 0.4) 0.8.

(** [l[-n:]]: the last [n] elements, the whole list when it is shorter. *)
Definition last_n {A : Type} (n : nat) (l : list A) : list A :=
  skipn (length l - n) l.

Definition _analyze_xray_flux {A : Type} (xray_flux : list A) : float :=
  if (length xray_flux <? 5)%nat then 0.5
  else
    let recent_values :=
      if (10 <=? length xray_flux)%nat then last_n 10 xray_flux else xray_flux in
    let trend_score := 0.5 + of_count (length recent_values) / 100 in
    pymin trend_score 0.8.

Definition _calculate_risk_level (score : float) : string :=
  if ge score 0.7 then "HIGH"
  else if ge score 0.5 then "MODERATE"
  else if ge score 0.3 then "LOW"
  else "MINIMAL".

Definition _generate_recommendations (score : float) : list string :=
  if ge score 0.7 then
    [ "Satellite operators should prepare for possible disruptions";
      "Monitor communication systems closely";
      "GPS accuracy may be affected";
      "Power grid operators should be on alert";
      "Consider postponing sensitive space operations" ]
  else if ge score 0.5 then
    [ "Maintain awareness of space weather conditions";
      "Monitor alerts for any rapid changes";
      "Satellite operators should review contingency plans";
      "Aviation routes over polar regions may be affected" ]
  else if ge score 0.3 then
    [ "Normal operations expected";
      "Continue routine space weather monitoring";
      "Low risk of significant impacts" ]
  else
    [ "Minimal solar activity expected";
      "Excellent conditions for space operations";
      "Low probability of disturbances" ].

(** The weighted blend of the three scores. *)
Definition base_score {A B : Type} (recent_flares : list flare)
    (solar_wind_data : list A) (xray_flux : list B) : float :=
  _calculate_activity_score recent_flares * 0.5 +
  _analyze_solar_wind solar_wind_data * 0.3 +
  _analyze_xray_flux xray_flux * 0.2.

Record class_prediction : Type := {
  probability : float;
  description : string;
  severity : string
}.

(** The three entries of ["predictions"], as functions of the base score. *)
Definition C_class (base : float) : class_prediction :=
  {| probability := pymin (base * 1.2) 0.95;
     description := "Minor flares, little impact";
     severity := "low" |}.

Definition M_class (base : float) : class_prediction :=
  {| probability := pymin (base * 0.6) 0.75;
     description := "Moderate flares, possible radio blackouts";
     severity := "moderate" |}.

Definition X_class (base : float) : class_prediction :=
  {| probability := pymin (base * 0.3) 0.45;
     description := "Major flares, significant impacts possible";
     severity := "high" |}.

Record flare_prediction : Type := {
  timestamp : string;
  forecast_period : string;
  fp_model_version : string;
  confidence : float;
  pred_C_class : class_prediction;
  pred_M_class : class_prediction;
  pred_X_class : class_prediction;
  risk_level : string;
  recommendations : list string
}.

(** [utcnow] stands for [datetime.utcnow().isoformat()], read from the clock. *)
Definition predict_flare_probability {A B : Type} (utcnow : string)
    (recent_flares : list flare) (solar_wind_data : list A)
    (xray_flux : list B) : flare_prediction :=
  let base := base_score recent_flares solar_wind_data xray_flux in
  {| timestamp := utcnow;
     forecast_period := "24-48 hours";
     fp_model_version := model_version;
     confidence := accuracy;
     pred_C_class := C_class base;
     pred_M_class := M_class base;
     pred_X_class := X_class base;
     risk_level := _calculate_risk_level base;
     recommendations := _generate_recommendations base |}.

(** The two shapes of the dictionary [predict_cme_arrival] returns. *)
Record cme_arrival_estimate : Type := {
  detection_time : string;
  cme_speed : float;                       (* rendered as "<speed> km/s" *)
  estimated_arrival : PyDatetime.datetime; (* rendered by [isoformat] *)
  arrival_window : float * float;          (* rendered as "<lo> to <hi> hours" *)
  impact_probability : float;
  arrival_severity : string;
  warnings : list string
}.

Inductive cme_arrival : Type :=
| NotEarthDirected (arrival_time : option string) (impact_probability : float)
    (message : string)
| Arrival (estimate : cme_arrival_estimate).

Definition predict_cme_arrival (cme_speed : float) (detection_time : string)
    : result cme_arrival :=
  if negb (truthy cme_speed) || (cme_speed <? 200) then
    Ok (NotEarthDirected None 0 "CME not Earth-directed or too slow")
  else
    let distance_km := 150000000 in
    let travel_time_hours := distance_km / (cme_speed * 3600) in
    match PyDatetime.fromisoformat (replace_char "Z" "+00:00" detection_time) with
    | None => Raise ValueError
    | Some detection =>
        delta <- PyDatetime.timedelta_hours travel_time_hours ;;
        arrival <- PyDatetime.add_timedelta detection delta ;;
        let impact_prob := pymin ((cme_speed / 2000) * 0.8) 0.95 in
        Ok (Arrival
          {| detection_time := detection_time;
             cme_speed := cme_speed;
             estimated_arrival := arrival;
             arrival_window := (travel_time_hours - 6, travel_time_hours + 6);
             impact_probability := py_round 2 impact_prob;
             arrival_severity := if ge cme_speed 1000 then "high" else "moderate";
             warnings :=
               if ge cme_speed 1000 then
                 [ "Geomagnetic storm expected";
                   "Satellite operations may be affected";
                   "Aurora visible at lower latitudes" ]
               else
                 [ "Minor geomagnetic activity possible";
                   "Aurora may be visible at high latitudes" ] |})
    end.

(** The dictionary [predict_geomagnetic_storm] returns; the keys that the
    early return leaves out are [None] there, and [max_kp_predicted] is the
    key of the early return only. *)
Record geomag_prediction : Type := {
  gp_timestamp : option string;
  current_kp : option float;
  predicted_max_kp : option float;
  max_kp_predicted : option float;
  storm_probability : float;
  storm_level : string;
  gp_forecast_period : option string;
  impacts : option (list string)
}.

(** [[float(kp[1]) if len(kp) > 1 else 0 for kp in rows]]. *)
Fixpoint kp_values (rows : list row) : result (list float) :=
  match rows with
  | [] => Ok []
  | kp :: rest =>
      v <- (match kp with
            | _ :: c :: _ => float_of_cell c
            | _ => Ok 0
            end) ;;
      vs <- kp_values rest ;;
      Ok (v :: vs)
  end.

Definition predict_geomagnetic_storm (utcnow : string) (kp_history : list row)
    (cme_incoming : bool) : result geomag_prediction :=
  match kp_history with
  | [] =>
      Ok {| gp_timestamp := None; current_kp := None; predicted_max_kp := None;
            max_kp_predicted := Some 2;
            storm_probability := 0.1;
            storm_level := "None";
            gp_forecast_period := None; impacts := None |}
  | _ =>
      recent_kp <- kp_values (last_n 5 kp_history) ;;
      let avg_kp := np_mean recent_kp in
      let '(predicted_kp, storm_prob) :=
        if cme_incoming then (pymin (avg_kp + 3) 9, 0.85)
        else (pymin (avg_kp + 1) 7, if gt avg_kp 4 then 0.3 else 0.1) in
      let '(level, impacts) :=
        if ge predicted_kp 7 then
          ("Severe (G4-G5)",
           [ "Widespread power grid problems possible";
             "Spacecraft operations significantly affected";
             "HF radio blackouts in many areas";
             "GPS navigation errors likely" ])
        else if ge predicted_kp 5 then
          ("Moderate (G2-G3)",
           [ "Power systems may experience voltage alarms";
             "Spacecraft may need corrective actions";
             "HF radio propagation affected";
             "GPS accuracy reduced" ])
        else
          ("Minor (G1) or None",
           [ "Minimal impact expected";
             "Possible minor fluctuations in power grids";
             "Aurora visible at high latitudes" ]) in
      Ok {| gp_timestamp := Some utcnow;
            current_kp := Some (np_round1 avg_kp);
            predicted_max_kp := Some (np_round1 predicted_kp);
            max_kp_predicted := None;
            storm_probability := py_round 2 storm_prob;
            storm_level := level;
            gp_forecast_period := Some "24 hours";
            impacts := Some impacts |}
  end.

End SolarFlarePredictor.

(** ** The radiation scorer ([RadiationPredictor]) *)

Module RadiationPredictor.

Import PyNum PyStr.
Local Open Scope string_scope.
Local Open Scope float_scope.

(** [substr in s]. *)
Fixpoint contains (substr s : string) : bool :=
  String.prefix substr s ||
  match s with
  | "" => false
  | String _ rest => contains substr rest
  end.

Definition _get_radiation_impacts (s_scale : string) : list string :=
  if contains "S3" s_scale || contains "S4" s_scale then
    [ "Radiation hazard to astronauts on EVA";
      "Satellite operations degraded";
      "HF radio blackouts on sunlit side";
      "Navigation system errors";
      "Increased radiation dose to airline passengers" ]
  else if contains "S1" s_scale || contains "S2" s_scale then
    [ "Minor impacts to satellite operations";
      "Small effects on HF radio in polar regions";
      "Elevated radiation levels for astronauts";
      "Minimal impact to aviation" ]
  else
    [ "Normal background radiation levels";
      "No significant impacts expected" ].

Definition _get_affected_regions (s_scale : string) : list string :=
  if contains "S3" s_scale || contains "S4" s_scale then
    [ "Polar regions"; "High-latitude areas"; "Global HF communications" ]
  else if contains "S1" s_scale || contains "S2" s_scale then
    [ "Polar regions"; "High-latitude areas" ]
  else [ "None" ].

Definition _get_radiation_recommendations (s_scale : string) : list string :=
  if contains "S3" s_scale || contains "S4" s_scale then
    [ "Postpone spacewalks if possible";
      "Satellite operators: implement mitigation procedures";
      "Airlines: consider re-routing polar flights";
      "Increased monitoring of radiation levels" ]
  else if contains "S1" s_scale || contains "S2" s_scale then
    [ "Monitor radiation levels";
      "Limit EVA duration if possible";
      "Standard satellite protection adequate" ]
  else
    [ "Normal operations";
      "Standard radiation monitoring" ].

Record radiation_prediction : Type := {
  timestamp : string;
  forecast_period : string;
  radiation_storm_probability : float;
  predicted_scale : string;
  severity : string;
  confidence : float;
  impacts : list string;
  affected_regions : list string;
  recommendations : list string
}.

(** The flares whose class starts with "X" or "M". *)
Definition high_energy_flares (recent_flares : list flare) : list flare :=
  filter (fun f => startswith_any ["X"; "M"] (get (classType f) "")) recent_flares.

Definition predict_radiation_storm (utcnow : string) (recent_flares : list flare)
    : radiation_prediction :=
  let n := length (high_energy_flares recent_flares) in
  let base_prob := pymin (of_count n * 0.2) 0.9 in
  let '(s_scale, severity, prob) :=
    if (3 <=? n)%nat then ("S3-S4", "Strong", pymin (base_prob * 1.2) 0.85)
    else if (1 <=? n)%nat then ("S1-S2", "Moderate", base_prob)
    else ("Below S1", "Minor", 0.15) in
  {| timestamp := utcnow;
     forecast_period := "24-72 hours";
     radiation_storm_probability := py_round 2 prob;
     predicted_scale := s_scale;
     severity := severity;
     confidence := 0.72;
     impacts := _get_radiation_impacts s_scale;
     affected_regions := _get_affected_regions s_scale;
     recommendations := _get_radiation_recommendations s_scale |}.

(** The dictionary [predict_proton_flux] returns; the two fluxes are
    rendered with [:.2e]. *)
Record proton_prediction : Type := {
  proton_timestamp : string;
  current_flux : float;
  predicted_flux_6h : float;
  trend : string;
  alert_level : string
}.

Definition _get_proton_alert_level (flux : float) : string :=
  if ge flux 10000 then "S3 - Strong"
  else if ge flux 1000 then "S2 - Moderate"
  else if ge flux 10 then "S1 - Minor"
  else "Normal".

Definition predict_proton_flux (utcnow : string) (current_flux : float)
    : proton_prediction :=
  let '(predicted_flux, trend) :=
    if gt current_flux 1000 then (current_flux * 1.2, "increasing")
    else if gt current_flux 100 then (current_flux * 1.1, "stable")
    else (current_flux * 0.9, "decreasing") in
  {| proton_timestamp := utcnow;
     current_flux := current_flux;
     predicted_flux_6h := predicted_flux;
     trend := trend;
     alert_level := _get_proton_alert_level predicted_flux |}.

End RadiationPredictor.

(** ** The aggregator ([PredictionService]) *)

Module PredictionService.

Import PyNum PyStr.
Local Open Scope string_scope.
Local Open Scope float_scope.

Module F := SolarFlarePredictor.
Module R := RadiationPredictor.

Definition _risk_to_score (risk_level : string) : float :=
  if String.eqb risk_level "HIGH" then 0.85
  else if String.eqb risk_level "MODERATE" then 0.6
  else if String.eqb risk_level "LOW" then 0.3
  else if String.eqb risk_level "MINIMAL" then 0.1
  else 0.3.

Definition _get_primary_concerns (flare_pred : F.flare_prediction)
    (geomag_pred : F.geomag_prediction) (rad_pred : R.radiation_prediction)
    : list string :=
  let concerns : list string := [] in
  let concerns :=
    if mem (F.risk_level flare_pred) ["HIGH"; "MODERATE"]
    then (concerns ++ ["Solar flare activity"])%list else concerns in
  let concerns :=
    if gt (F.storm_probability geomag_pred) 0.5
    then (concerns ++ ["Geomagnetic disturbances"])%list else concerns in
  let concerns :=
    if gt (R.radiation_storm_probability rad_pred) 0.5
    then (concerns ++ ["Radiation hazards"])%list else concerns in
  match concerns with
  | [] => (concerns ++ ["No significant concerns"])%list
  | _ => concerns
  end.

Record overall_risk : Type := {
  risk_level : string;
  risk_score : float;
  color : string;
  message : string;
  primary_concerns : list string
}.

Definition _calculate_overall_risk (flare_pred : F.flare_prediction)
    (geomag_pred : F.geomag_prediction) (rad_pred : R.radiation_prediction)
    : overall_risk :=
  let flare_risk := _risk_to_score (F.risk_level flare_pred) in
  let geomag_risk := F.storm_probability geomag_pred in
  let rad_risk := R.radiation_storm_probability rad_pred in
  let overall_score := flare_risk * 0.4 + geomag_risk * 0.35 + rad_risk * 0.25 in
  let '(level, color, message) :=
    if ge overall_score 0.7 then
      ("HIGH", "red", "Significant space weather activity expected")
    else if ge overall_score 0.5 then
      ("ELEVATED", "orange", "Moderate space weather activity possible")
    else if ge overall_score 0.3 then
      ("MODERATE", "yellow", "Minor space weather activity possible")
    else
      ("LOW", "green", "Quiet space weather conditions expected") in
  {| risk_level := level;
     risk_score := py_round 2 overall_score;
     color := color;
     message := message;
     primary_concerns := _get_primary_concerns flare_pred geomag_pred rad_pred |}.

(** [cme.get("speed")] is true: the key is there and its value is not zero. *)
Definition has_speed (c : cme) : bool :=
  match speed c with
  | Some v => truthy v
  | None => false
  end.

(** [float(cme.get("speed", 0))]. *)
Definition speed_of (c : cme) : float := get (speed c) 0.

Record predictions : Type := {
  solar_flares : F.flare_prediction;
  geomagnetic_storm : F.geomag_prediction;
  radiation_storm : R.radiation_prediction;
  cme_arrival : option F.cme_arrival
}.

Record comprehensive : Type := {
  status : string;
  generated_at : string;
  all_predictions : predictions;
  overall_risk_assessment : overall_risk
}.

(** The three readings of the clock, one per scorer. *)
Record clock : Type := { now_flare : string; now_geomag : string; now_radiation : string }.

Definition get_comprehensive_predictions {A B : Type} (now : clock)
    (recent_flares : list flare) (cme_events : list cme)
    (solar_wind : list A) (xray_flux : list B) (kp_index : list row)
    : result comprehensive :=
  let flare_predictions :=
    F.predict_flare_probability (now_flare now) recent_flares solar_wind xray_flux in
  let has_fast_cme :=
    existsb (fun c => gt (speed_of c) 1000) (filter has_speed cme_events) in
  geomag_predictions <-
    F.predict_geomagnetic_storm (now_geomag now) kp_index has_fast_cme ;;
  let radiation_predictions :=
    R.predict_radiation_storm (now_radiation now) recent_flares in
  cme_arrival <-
    (let fast_cmes :=
       filter (fun c => has_speed c && gt (speed_of c) 500) cme_events in
     match rev fast_cmes with
     | [] => Ok None
     | latest_cme :: _ =>
         a <- F.predict_cme_arrival (speed_of latest_cme)
                (get (startTime latest_cme) "") ;;
         Ok (Some a)
     end) ;;
  Ok {| status := "success";
        generated_at := F.timestamp flare_predictions;
        all_predictions :=
          {| solar_flares := flare_predictions;
             geomagnetic_storm := geomag_predictions;
             radiation_storm := radiation_predictions;
             cme_arrival := cme_arrival |};
        overall_risk_assessment :=
          _calculate_overall_risk flare_predictions geomag_predictions
            radiation_predictions |}.

End PredictionService.

(** ** The alert synthesizer ([app/api/routes/alerts.py]) *)

Module Alerts.

Import PyNum PyStr.
Local Open Scope string_scope.
Local Open Scope float_scope.

Definition classify_flare_severity (class_type : string) : string :=
  match class_type with
  | "" => "unknown"
  | String c _ =>
      let first_char := first_upper c in
      if mem first_char ["X"] then "extreme"
      else if mem first_char ["M"] then "high"
      else if mem first_char ["C"] then "moderate"
      else "low"
  end.

Definition classify_cme_severity (speed : float) : string :=
  if ge speed 2000 then "extreme"
  else if ge speed 1000 then "high"
  else if ge speed 500 then "moderate"
  else "low".

Record kp_entry : Type := { kpIndex : option float }.

Record storm : Type := {
  allKpIndex : option (list kp_entry);
  gstID : option string;
  storm_startTime : option string
}.

Record radiation_event : Type := {
  rbeID : option string;
  eventTime : option string
}.

(** A formatted string: literal text and floats rendered by [str]. *)
Inductive piece : Type :=
| Str (s : string)
| Flt (x : float).

Record alert : Type := {
  id : option string;
  type : string;
  severity : string;
  title : list piece;
  description : list piece;
  timestamp : option string;
  source : string
}.

Definition flare_alert (f : flare) (severity : string) : alert :=
  {| id := flrID f;
     type := "solar_flare";
     severity := severity;
     title := [Str "Solar Flare "; Str (get (classType f) "Unknown"); Str " detected"];
     description := [Str "Peak time: "; Str (get (peakTime f) "N/A")];
     timestamp := beginTime f;
     source := "NASA DONKI" |}.

Definition cme_alert (c : cme) (speed : float) (severity : string) : alert :=
  {| id := activityID c;
     type := "cme";
     severity := severity;
     title := [Str "Coronal Mass Ejection detected"];
     description := [Str "Speed: "; Flt speed; Str " km/s"];
     timestamp := startTime c;
     source := "NASA DONKI" |}.

Definition storm_alert (s : storm) (kp_index : float) (severity : string) : alert :=
  {| id := gstID s;
     type := "geomagnetic_storm";
     severity := severity;
     title := [Str "Geomagnetic Storm (Kp "; Flt kp_index; Str ")"];
     description := [Str "Start time: "; Str (get (storm_startTime s) "N/A")];
     timestamp := storm_startTime s;
     source := "NASA DONKI" |}.

Definition radiation_alert (r : radiation_event) : alert :=
  {| id := rbeID r;
     type := "radiation";
     severity := "moderate";
     title := [Str "Radiation Belt Enhancement"];
     description := [Str "Event time: "; Str (get (eventTime r) "N/A")];
     timestamp := eventTime r;
     source := "NASA DONKI" |}.

(** The four loops, each appending to [alerts]. *)
Definition flare_alerts (flares : list flare) : list alert :=
  flat_map (fun f =>
    let severity := classify_flare_severity (get (classType f) "") in
    if mem severity ["high"; "extreme"] then [flare_alert f severity] else []) flares.

Definition cme_alerts (cme_events : list cme) : list alert :=
  flat_map (fun c =>
    let speed := if PredictionService.has_speed c then get (speed c) 0 else 0 in
    let severity := classify_cme_severity speed in
    if mem severity ["high"; "extreme"] then [cme_alert c speed severity] else []) cme_events.

Definition storm_kp (s : storm) : float :=
  match allKpIndex s with
  | Some (first :: _) => get (kpIndex first) 0
  | _ => 0
  end.

Definition storm_alerts (storms : list storm) : list alert :=
  flat_map (fun s =>
    let kp_index := storm_kp s in
    let severity :=
      if ge kp_index 7 then "high" else if ge kp_index 5 then "moderate" else "low" in
    if mem severity ["high"; "extreme"] then [storm_alert s kp_index severity] else []) storms.

Definition radiation_alerts (radiation : list radiation_event) : list alert :=
  map radiation_alert radiation.

Definition collect_alerts (flares : list flare) (cme_events : list cme)
    (storms : list storm) (radiation : list radiation_event) : list alert :=
  (flare_alerts flares ++ cme_alerts cme_events ++ storm_alerts storms ++
   radiation_alerts radiation)%list.

(** [alerts.sort(key=lambda x: x.get("timestamp", ""), reverse=True)].  The
    key ["timestamp"] is always in the dictionary, so an event without a time
    has the key [None]; a sort of two or more elements compares every key
    with another one, and comparing [None] raises [TypeError].  Strings
    compare by code point, which is the order of their UTF-8 bytes.  The sort
    is stable. *)
Definition key_geb (a b : alert) : bool :=
  match timestamp a, timestamp b with
  | Some x, Some y => String.leb y x
  | _, _ => true
  end.

Fixpoint insert_desc (x : alert) (sorted : list alert) : list alert :=
  match sorted with
  | [] => [x]
  | y :: rest =>
      if key_geb x y then x :: y :: rest else y :: insert_desc x rest
  end.

Definition sort_desc (alerts : list alert) : list alert :=
  fold_right insert_desc [] alerts.

Definition has_no_key (a : alert) : bool :=
  match timestamp a with
  | None => true
  | Some _ => false
  end.

Definition sort_alerts (alerts : list alert) : result (list alert) :=
  if (2 <=? length alerts)%nat && existsb has_no_key alerts then Raise TypeError
  else Ok (sort_desc alerts).

Record active_alerts : Type := {
  status : string;
  count : nat;
  alerts : list alert
}.

(** [get_active_alerts], on the four lists the NASA service returned. *)
Definition get_active_alerts (flares : list flare) (cme_events : list cme)
    (storms : list storm) (radiation : list radiation_event) : result active_alerts :=
  sorted <- sort_alerts (collect_alerts flares cme_events storms radiation) ;;
  Ok {| status := "success"; count := length sorted; alerts := sorted |}.

(** The dictionary ["summary"] of [get_alerts_summary]. *)
Record alerts_summary : Type := {
  total : nat;
  extreme : nat;
  high : nat;
  moderate : nat;
  low : nat
}.

(** [len([a for a in alerts if a["severity"] == s])]. *)
Definition count_severity (s : string) (alerts : list alert) : nat :=
  length (filter (fun a => String.eqb (severity a) s) alerts).

(** [get_alerts_summary], on the four lists the NASA service returned to
    [get_active_alerts]. *)
Definition get_alerts_summary (flares : list flare) (cme_events : list cme)
    (storms : list storm) (radiation : list radiation_event) : result alerts_summary :=
  alerts_data <- get_active_alerts flares cme_events storms radiation ;;
  let alerts := alerts alerts_data in
  Ok {| total := length alerts;
        extreme := count_severity "extreme" alerts;
        high := count_severity "high" alerts;
        moderate := count_severity "moderate" alerts;
        low := count_severity "low" alerts |}.

End Alerts.

(** ** The prediction routes ([app/api/routes/predictions.py])

    Each route on the lists its upstream fetches returned. *)

Module PredictionRoutes.

Import PyNum PyStr.
Local Open Scope string_scope.
Local Open Scope float_scope.

Module F := SolarFlarePredictor.
Module P := PredictionService.

(** The ["data"] of [get_cme_arrival_predictions]: a message and no
    prediction when no CME is fast, a count and the predictions otherwise. *)
Record cme_arrival_data : Type := {
  message : option string;
  count : option nat;
  predictions : list F.cme_arrival
}.

(** [[predict_cme_arrival(...) for cme in cmes]], stopping at the first
    exception. *)
Fixpoint predict_each (cmes : list cme) : result (list F.cme_arrival) :=
  match cmes with
  | [] => Ok []
  | c :: rest =>
      prediction <- F.predict_cme_arrival (P.speed_of c) (get (startTime c) "") ;;
      predictions <- predict_each rest ;;
      Ok (prediction :: predictions)
  end.

Definition get_cme_arrival_predictions (cme_events : list cme)
    : result cme_arrival_data :=
  let fast_cmes :=
    filter (fun c => P.has_speed c && gt (P.speed_of c) 500) cme_events in
  match fast_cmes with
  | [] =>
      Ok {| message := Some "No Earth-directed CMEs detected recently";
            count := None;
            predictions := [] |}
  | _ =>
      predictions <- predict_each (F.last_n 3 fast_cmes) ;;
      Ok {| message := None;
            count := Some (length predictions);
            predictions := predictions |}
  end.

Definition get_geomagnetic_storm_predictions (utcnow : string)
    (kp_index : list row) (cme_events : list cme) : result F.geomag_prediction :=
  let has_fast_cme :=
    existsb (fun c => gt (P.speed_of c) 1000) (filter P.has_speed cme_events) in
  F.predict_geomagnetic_storm utcnow kp_index has_fast_cme.

End PredictionRoutes.

(** ** The data quality of the ML prediction service ([MLPredictionService]) *)

Module MLPredictionService.

Import PyNum.
Local Open Scope string_scope.
Local Open Scope float_scope.

(** The dictionary [_assess_data_quality] returns; [data_points] holds the
    three lengths. *)
Record data_quality : Type := {
  score : float;
  rating : string;
  data_points : nat * nat * nat
}.

(** The score starts as the integer 0 and becomes a float with the first
    increment; as a number the integer 0 is the float 0, also under
    [round]. *)
Definition _assess_data_quality {A B C : Type} (flares : list A) (wind : list B)
    (xray : list C) : data_quality :=
  let quality_score := 0 in
  let quality_score :=
    if (5 <=? length flares)%nat then quality_score + 0.4
    else if (2 <=? length flares)%nat then quality_score + 0.2
    else quality_score in
  let quality_score :=
    if (10 <=? length wind)%nat then quality_score + 0.3
    else if (5 <=? length wind)%nat then quality_score + 0.15
    else quality_score in
  let quality_score :=
    if (10 <=? length xray)%nat then quality_score + 0.3
    else if (5 <=? length xray)%nat then quality_score + 0.15
    else quality_score in
  let quality :=
    if ge quality_score 0.8 then "Excellent"
    else if ge quality_score 0.6 then "Good"
    else if ge quality_score 0.4 then "Fair"
    else "Limited" in
  {| score := py_round 2 quality_score;
     rating := quality;
     data_points := (length flares, length wind, length xray) |}.

End MLPredictionService.

(** * Properties *)

Module F := SolarFlarePredictor.
Module R := RadiationPredictor.
Module P := PredictionService.

Local Open Scope string_scope.

(** ** Definitions used in the statements *)

(** Two floats whose binary64 encodings differ are different. *)
Ltac float_discriminate H :=
  apply (f_equal Prim2SF) in H; vm_compute in H; discriminate H.

Definition kp_345 (t1 t2 t3 : string) : list row :=
  [ [Txt t1; Num 3]; [Txt t2; Num 4]; [Txt t3; Num 5] ].

(** The arrival time for a detection [d] and a speed: [d] plus the travel
    time, when both the [timedelta] and the sum are representable. *)
Definition arrival_of (d : PyDatetime.datetime) (cme_speed : float)
    : result PyDatetime.datetime :=
  delta <- PyDatetime.timedelta_hours (150000000 / (cme_speed * 3600))%float ;;
  PyDatetime.add_timedelta d delta.

(** A CME faster than 500 km/s whose record has no start time. *)
Definition cme_without_start : cme :=
  {| speed := Some 600%float; activityID := Some "2025-11-04T12:00:00-CME-001";
     startTime := None |}.

(** The same CME with a start time that is not an ISO-8601 timestamp. *)
Definition cme_bad_start : cme :=
  {| speed := Some 600%float; activityID := Some "2025-11-04T12:00:00-CME-001";
     startTime := Some "yesterday" |}.

(** The three conditions of [_get_primary_concerns]. *)
Definition flare_concern (fp : F.flare_prediction) : bool :=
  PyStr.mem (F.risk_level fp) ["HIGH"; "MODERATE"].
Definition geomag_concern (gp : F.geomag_prediction) : bool :=
  PyNum.gt (F.storm_probability gp) 0.5.
Definition radiation_concern (rp : R.radiation_prediction) : bool :=
  PyNum.gt (R.radiation_storm_probability rp) 0.5.

Definition when (b : bool) (s : string) : list string := if b then [s] else [].

(** The class of the flare starts with the letter [c]. *)
Definition class_starts_with (c : ascii) (f : flare) : Prop :=
  exists rest, classType f = Some (String c rest).

(** A flare whose class starts with a lower-case "x" or "m". *)
Definition lowercase_class (f : flare) : Prop :=
  class_starts_with "x" f \/ class_starts_with "m" f.

(** Sample inputs. *)
Definition sample_flare (class : string) : flare :=
  {| classType := Some class;
     flrID := Some "2025-11-01T10:00:00-FLR-001";
     peakTime := Some "2025-11-01T10:12Z";
     beginTime := Some "2025-11-01T10:00Z" |}.

Definition sample_radiation_event : Alerts.radiation_event :=
  {| Alerts.rbeID := Some "2025-11-02T00:00:00-RBE-001";
     Alerts.eventTime := Some "2025-11-02T00:00Z" |}.

Definition sample_wind : list row :=
  [ [Txt "2025-11-05 00:00:00.000"; Num 5; Num 3; Num (-2); Num 420; Num 5];
    [Txt "2025-11-05 00:01:00.000"; Num 6; Num 4; Num (-1); Num 415; Num 6];
    [Txt "2025-11-05 00:02:00.000"; Num 6; Num 4; Num (-1); Num 414; Num 6];
    [Txt "2025-11-05 00:03:00.000"; Num 5; Num 4; Num (-2); Num 416; Num 5];
    [Txt "2025-11-05 00:04:00.000"; Num 5; Num 3; Num (-2); Num 418; Num 5] ].

(** A flare prediction of tier MINIMAL: no flare, five wind points. *)
Definition quiet_flare_prediction : F.flare_prediction :=
  F.predict_flare_probability "2025-11-05T00:05:00" [] sample_wind (@nil row).

(** The geomagnetic prediction for an empty Kp history, of probability 0.1. *)
Definition quiet_geomag_prediction : F.geomag_prediction :=
  {| F.gp_timestamp := None; F.current_kp := None; F.predicted_max_kp := None;
     F.max_kp_predicted := Some 2%float;
     F.storm_probability := 0.1%float;
     F.storm_level := "None";
     F.gp_forecast_period := None; F.impacts := None |}.

(** A radiation prediction of probability 0.1. *)
Definition quiet_radiation_prediction : R.radiation_prediction :=
  {| R.timestamp := "2025-11-05T00:05:00";
     R.forecast_period := "24-72 hours";
     R.radiation_storm_probability := 0.1%float;
     R.predicted_scale := "Below S1";
     R.severity := "Minor";
     R.confidence := 0.72%float;
     R.impacts := R._get_radiation_impacts "Below S1";
     R.affected_regions := R._get_affected_regions "Below S1";
     R.recommendations := R._get_radiation_recommendations "Below S1" |}.

(** The order of the flare risk tiers. *)
Definition tier_rank (tier : string) : nat :=
  if String.eqb tier "HIGH" then 3
  else if String.eqb tier "MODERATE" then 2
  else if String.eqb tier "LOW" then 1
  else 0.

(** The order of the data quality ratings. *)
Definition rating_rank (rating : string) : nat :=
  if String.eqb rating "Excellent" then 3
  else if String.eqb rating "Good" then 2
  else if String.eqb rating "Fair" then 1
  else 0.

(** The order of the CME severities of the alert synthesizer. *)
Definition severity_rank (severity : string) : nat :=
  if String.eqb severity "extreme" then 3
  else if String.eqb severity "high" then 2
  else if String.eqb severity "moderate" then 1
  else 0.

(** The order of the proton alert levels. *)
Definition alert_rank (level : string) : nat :=
  if String.eqb level "S3 - Strong" then 3
  else if String.eqb level "S2 - Moderate" then 2
  else if String.eqb level "S1 - Minor" then 1
  else 0.

(** The CMEs that [cme.get("speed") and float(cme.get("speed", 0)) > limit]
    keeps. *)
Definition faster_than (limit : float) (c : cme) : bool :=
  P.has_speed c && PyNum.gt (P.speed_of c) limit.

(** The timestamps of a list of alerts are in descending order. *)
Definition timestamp_geb (a b : Alerts.alert) : Prop := Alerts.key_geb a b = true.

(** The events that the loops of the alert synthesizer keep: a flare whose
    class starts with "X" or "M" in either case, a CME with a non-zero speed
    of 1000 km/s or more, a storm whose first Kp index is 7 or more. *)
Definition alerting_flare (f : flare) : bool :=
  match get (classType f) "" with
  | String c _ =>
      Ascii.eqb (PyStr.upper_ascii c) "X" || Ascii.eqb (PyStr.upper_ascii c) "M"
  | EmptyString => false
  end.

Definition alerting_cme (c : cme) : bool :=
  P.has_speed c && PyNum.ge (P.speed_of c) 1000.

Definition alerting_storm (s : Alerts.storm) : bool :=
  PyNum.ge (Alerts.storm_kp s) 7.

(** The radiation storm probability and scale for [n] flares whose class
    starts with "X" or "M". *)
Definition probability_by_count (n : nat) : float :=
  match n with
  | 0%nat => 0.15
  | 1%nat => 0.2
  | 2%nat => 0.4
  | 3%nat => 0.72
  | _ => 0.85
  end%float.

Definition scale_by_count (n : nat) : string :=
  if (3 <=? n)%nat then "S3-S4" else if (1 <=? n)%nat then "S1-S2" else "Below S1".

(** The values that the aggregator reads from the three predictions. *)
Definition flare_levels : list string := ["HIGH"; "MODERATE"; "LOW"; "MINIMAL"].
Definition storm_probabilities : list float := [0.1; 0.3; 0.85]%float.
Definition radiation_probabilities : list float := [0.15; 0.2; 0.4; 0.72; 0.85]%float.

(** The impact probability of either result of the arrival estimator. *)
Definition impact_probability_of (a : F.cme_arrival) : float :=
  match a with
  | F.NotEarthDirected _ p _ => p
  | F.Arrival e => F.impact_probability e
  end.

(** The prediction is an arrival estimate for the CME. *)
Definition estimate_of (c : cme) (a : F.cme_arrival) : Prop :=
  exists e, a = F.Arrival e /\ F.cme_speed e = P.speed_of c /\
            F.detection_time e = get (startTime c) "".

(** Binary64 rounding, as [binary_round_aux] of the specification of
    primitive floats computes it. *)

Module Rounding.

Local Open Scope Z_scope.

(** Rounding to nearest even of a shifted mantissa. *)
Definition rne (r : shr_record) : Z :=
  round_nearest_even (shr_m r) (loc_of_shr_record r).

(** The result of [binary_round_aux] from its final mantissa and exponent. *)
Definition pack (s : bool) (m e : Z) : spec_float :=
  match m with
  | 0 => S754_zero s
  | Z.pos p => if e <=? emax - prec then S754_finite s p e else S754_infinity s
  | Z.neg _ => S754_nan
  end.

(** The second step of [binary_round_aux]: the rounded mantissa is shifted
    once more when rounding carried it past the precision. *)
Definition renorm (m e : Z) : Z * Z :=
  let k := Z.max 0 (fexp prec emax (Zdigits2 m + e) - e) in
  (m / 2 ^ k, e + k).

(** The first step: the mantissa shifted by [n] and rounded. *)
Definition round_shift (m n : Z) : Z :=
  rne (Nat.iter (Z.to_nat n) shr_1 (shr_record_of_loc m loc_Exact)).

(** A float that is zero, positive or plus infinity. *)
Definition sf_nonneg (x : spec_float) : bool :=
  match x with
  | S754_zero _ => true
  | S754_infinity s => negb s
  | S754_nan => false
  | S754_finite s _ _ => negb s
  end.

(** The hundredths from 0.01 to 0.85, as [round] returns them. *)
Definition hundredth (n : positive) : float :=
  SF2Prim (SFdiv prec emax (S754_finite false n 0) (S754_finite false 100 0)).

(** The hundredths from 0.01 to [k]/100 lie between 0 and [cap]. *)
Definition hundredths_within (cap : float) (k : nat) : bool :=
  forallb (fun n => (0 <=? hundredth n)%float && (hundredth n <=? cap)%float)
          (map Pos.of_nat (seq 1 k)).

(** [m * 2^e <= M * 2^E], over the integers. *)
Definition scaled_le (m e M E : Z) : Prop :=
  m * 2 ^ (e - Z.min e E) <= M * 2 ^ (E - Z.min e E).

Definition scaled_leb (m e M E : Z) : bool :=
  m * 2 ^ (e - Z.min e E) <=? M * 2 ^ (E - Z.min e E).

(** The exact product of the positive floats [a] and [c] is at least the
    positive float [t], whose mantissa is full. *)
Definition product_above (t a c : float) : bool :=
  match Prim2SF t, Prim2SF a, Prim2SF c with
  | S754_finite false Mt Et, S754_finite false Ma Ea, S754_finite false mc ec =>
      (2 ^ 52 <=? Z.pos Mt) && scaled_leb (Z.pos Mt) Et (Z.pos Ma * Z.pos mc) (Ea + ec)
  | _, _, _ => false
  end.

(** The exact product of the positive floats [a] and [c], of full
    mantissas, is at most the positive float [t], of full mantissa. *)
Definition product_below (t a c : float) : bool :=
  match Prim2SF t, Prim2SF a, Prim2SF c with
  | S754_finite false Mt Et, S754_finite false Ma Ea, S754_finite false mc ec =>
      (2 ^ 52 <=? Z.pos Mt) && (2 ^ 52 <=? Z.pos Ma) && (2 ^ 52 <=? Z.pos mc) &&
      scaled_leb (Z.pos Ma * Z.pos mc) (Ea + ec) (Z.pos Mt) Et
  | _, _, _ => false
  end.

(** The positive float [t], of full mantissa, is at most the integer [n]. *)
Definition count_above (t : float) (n : Z) : bool :=
  match Prim2SF t with
  | S754_finite false Mt Et => (2 ^ 52 <=? Z.pos Mt) && scaled_leb (Z.pos Mt) Et n 0
  | _ => false
  end.

(** A positive float with a full mantissa. *)
Definition positive_normal (a : float) : bool :=
  match Prim2SF a with
  | S754_finite false Ma Ea => SpecFloat.emin prec emax <? Ea
  | _ => false
  end.

(** A positive float that is at least one, and one that is at most one. *)
Definition at_least_one (c : float) : bool :=
  match Prim2SF c with
  | S754_finite false mc ec => scaled_leb 1 0 (Z.pos mc) ec
  | _ => false
  end.

Definition at_most_one (c : float) : bool :=
  match Prim2SF c with
  | S754_finite false mc ec => (2 ^ 52 <=? Z.pos mc) && scaled_leb (Z.pos mc) ec 1 0
  | _ => false
  end.

End Rounding.

(** ** Facts on binary64 arithmetic

    The comparisons and the product of primitive floats, through their
    specification over [spec_float]. *)

Module FloatFacts.

Import Rounding.
Local Open Scope Z_scope.

(** Iteration. *)
Lemma iter_pos_nat :
  forall (A : Type) (f : A -> A) (p : positive) (x : A),
    iter_pos f p x = Nat.iter (Pos.to_nat p) f x.
Proof.
  intros A f. induction p as [ p IH | p IH | ]; intros x; cbn [iter_pos].
  - rewrite !IH, Pos2Nat.inj_xI.
    replace (S (2 * Pos.to_nat p)) with (Pos.to_nat p + (Pos.to_nat p + 1))%nat by lia.
    rewrite !Nat.iter_add. cbn [Nat.iter nat_rect]. reflexivity.
  - rewrite !IH, Pos2Nat.inj_xO.
    replace (2 * Pos.to_nat p)%nat with (Pos.to_nat p + Pos.to_nat p)%nat by lia.
    rewrite Nat.iter_add. reflexivity.
  - reflexivity.
Qed.

(** [shr_1] halves the mantissa. *)
Lemma shr_m_shr_1 :
  forall r : shr_record, 0 <= shr_m r -> shr_m (shr_1 r) = shr_m r / 2.
Proof.
  intros [m rb sb] Hm. cbn [shr_m] in Hm.
  destruct m as [ | [ p | p | ] | p ]; cbn [shr_1 shr_m]; try lia.
  - reflexivity.
  - change (Z.pos p~1) with (2 * Z.pos p + 1).
    apply Z.div_unique with 1; lia.
  - change (Z.pos p~0) with (2 * Z.pos p).
    apply Z.div_unique with 0; lia.
  - reflexivity.
Qed.

Lemma shr_m_iter :
  forall (n : nat) (r : shr_record),
    0 <= shr_m r -> shr_m (Nat.iter n shr_1 r) = shr_m r / 2 ^ Z.of_nat n.
Proof.
  induction n as [ | n IH ]; intros r Hm.
  - cbn. rewrite Z.div_1_r. reflexivity.
  - cbn [Nat.iter nat_rect].
    assert (H0 : 0 <= shr_m (Nat.iter n shr_1 r)).
    { rewrite IH by exact Hm. apply Z.div_pos; lia. }
    unfold Nat.iter in *. rewrite shr_m_shr_1 by exact H0.
    rewrite IH by exact Hm.
    rewrite Nat2Z.inj_succ, Z.pow_succ_r by lia.
    rewrite Z.div_div by lia. f_equal. lia.
Qed.

(** [shr] as an iteration, also when the shift is not positive. *)
Lemma shr_iter :
  forall (r : shr_record) (e n : Z),
    shr r e n = (Nat.iter (Z.to_nat n) shr_1 r, e + Z.max 0 n).
Proof.
  intros r e [ | p | p ]; cbn [shr Z.to_nat].
  - rewrite Z.add_0_r. reflexivity.
  - rewrite iter_pos_nat. f_equal.
  - rewrite Z.add_0_r. reflexivity.
Qed.

Lemma rne_bounds :
  forall r : shr_record, shr_m r <= rne r <= shr_m r + 1.
Proof.
  intros [m [ | ] [ | ]]; unfold rne; cbn; try destruct (Z.even m); lia.
Qed.

Lemma rne_exact :
  forall r : shr_record, shr_r r = false -> rne r = shr_m r.
Proof.
  intros [m rb [ | ]] Hr; cbn in Hr; subst rb; reflexivity.
Qed.

Lemma rne_shr_1 :
  forall r : shr_record, 0 <= shr_m r -> rne (shr_1 r) <= rne r.
Proof.
  intros r Hm. pose proof (rne_bounds r) as Hr.
  pose proof (rne_bounds (shr_1 r)) as H1.
  destruct r as [m rb sb]. cbn [shr_m] in Hm, Hr.
  destruct m as [ | [ p | p | ] | p ]; try lia; cbn [shr_1 shr_m] in H1 |- *.
  - rewrite rne_exact by reflexivity. cbn [shr_m]. lia.
  - lia.
  - rewrite rne_exact by reflexivity. cbn [shr_m]. lia.
  - lia.
Qed.

(** The number of binary digits. *)
Lemma digits2_pos_bounds :
  forall p : positive,
    2 ^ (Z.pos (digits2_pos p) - 1) <= Z.pos p < 2 ^ Z.pos (digits2_pos p).
Proof.
  induction p as [ p IH | p IH | ]; cbn [digits2_pos].
  - rewrite Pos2Z.inj_succ.
    replace (Z.succ (Z.pos (digits2_pos p)) - 1) with (Z.succ (Z.pos (digits2_pos p) - 1)) by lia.
    rewrite !Z.pow_succ_r by lia.
    change (Z.pos p~1) with (2 * Z.pos p + 1). lia.
  - rewrite Pos2Z.inj_succ.
    replace (Z.succ (Z.pos (digits2_pos p)) - 1) with (Z.succ (Z.pos (digits2_pos p) - 1)) by lia.
    rewrite !Z.pow_succ_r by lia.
    change (Z.pos p~0) with (2 * Z.pos p). lia.
  - cbn. lia.
Qed.

Lemma Zdigits2_bounds :
  forall m : Z, 0 < m -> 2 ^ (Zdigits2 m - 1) <= m < 2 ^ Zdigits2 m.
Proof.
  intros [ | p | p ] Hm; try lia. apply digits2_pos_bounds.
Qed.

Lemma Zdigits2_nonneg : forall m : Z, 0 <= Zdigits2 m.
Proof. intros [ | p | p ]; cbn; lia. Qed.

Lemma Zdigits2_mono :
  forall m1 m2 : Z, 0 <= m1 <= m2 -> Zdigits2 m1 <= Zdigits2 m2.
Proof.
  intros m1 m2 [H1 H2].
  destruct (Z.eq_dec m1 0) as [-> | Hne]; [ apply Zdigits2_nonneg | ].
  pose proof (Zdigits2_bounds m1 ltac:(lia)) as B1.
  pose proof (Zdigits2_bounds m2 ltac:(lia)) as B2.
  destruct (Z_lt_le_dec (Zdigits2 m2) (Zdigits2 m1)) as [Hlt | Hle]; [ exfalso | exact Hle ].
  assert (2 ^ Zdigits2 m2 <= 2 ^ (Zdigits2 m1 - 1)) by (apply Z.pow_le_mono_r; lia).
  lia.
Qed.

Lemma iter_shr_nonneg :
  forall (n : nat) (r : shr_record), 0 <= shr_m r -> 0 <= shr_m (Nat.iter n shr_1 r).
Proof.
  intros n r Hm. rewrite shr_m_iter by exact Hm. apply Z.div_pos; lia.
Qed.

Lemma round_shift_nonneg :
  forall m n : Z, 0 <= m -> 0 <= round_shift m n.
Proof.
  intros m n Hm. unfold round_shift.
  pose proof (rne_bounds (Nat.iter (Z.to_nat n) shr_1 (shr_record_of_loc m loc_Exact))) as Hb.
  pose proof (iter_shr_nonneg (Z.to_nat n) (shr_record_of_loc m loc_Exact) Hm). lia.
Qed.

Lemma binary_round_aux_eq :
  forall (s : bool) (m e : Z),
    0 <= m ->
    binary_round_aux prec emax s m e loc_Exact =
      let n := fexp prec emax (Zdigits2 m + e) - e in
      let '(m', e') := renorm (round_shift m n) (e + Z.max 0 n) in
      pack s m' e'.
Proof.
  intros s m e Hm. unfold binary_round_aux, shr_fexp.
  rewrite shr_iter.
  fold (rne (Nat.iter (Z.to_nat (fexp prec emax (Zdigits2 m + e) - e)) shr_1
               (shr_record_of_loc m loc_Exact))).
  fold (round_shift m (fexp prec emax (Zdigits2 m + e) - e)).
  rewrite shr_iter. cbv zeta. unfold renorm.
  rewrite shr_m_iter by (apply round_shift_nonneg; exact Hm).
  match goal with
  | |- context [Z.of_nat (Z.to_nat ?x)] =>
      replace (Z.of_nat (Z.to_nat x)) with (Z.max 0 x) by lia
  end.
  reflexivity.
Qed.

(** The order of two packed results, read off mantissas and exponents. *)
Lemma pack_le :
  forall m1 e1 m2 e2 : Z,
    0 <= m1 -> 0 <= m2 ->
    (m1 = 0 \/ (0 < m2 /\ (e1 < e2 \/ (e1 = e2 /\ m1 <= m2)))) ->
    SFleb (pack false m1 e1) (pack false m2 e2) = true.
Proof.
  intros m1 e1 m2 e2 H1 H2 H.
  destruct m1 as [ | p1 | p1 ]; try lia.
  - destruct m2 as [ | p2 | p2 ]; try lia; cbn [pack].
    + reflexivity.
    + destruct (e2 <=? emax - prec); reflexivity.
  - destruct H as [H | [Hpos H]]; [ discriminate H | ].
    destruct m2 as [ | p2 | p2 ]; try lia. cbn [pack].
    destruct (Z.leb_spec e1 (emax - prec)); destruct (Z.leb_spec e2 (emax - prec));
      unfold SFleb, SFcompare; try reflexivity.
    + destruct H as [Hlt | [-> Hle]].
      * rewrite (proj2 (Z.compare_lt_iff e1 e2) Hlt). reflexivity.
      * rewrite Z.compare_refl.
        change (PosDef.Pos.compare_cont Eq p1 p2) with (Pos.compare p1 p2).
        destruct (Pos.compare_spec p1 p2); try reflexivity. lia.
    + lia.
Qed.

Lemma renorm_fst_nonneg :
  forall m e : Z, 0 <= m -> 0 <= fst (renorm m e).
Proof.
  intros m e Hm. unfold renorm. cbn [fst]. apply Z.div_pos; lia.
Qed.

(** Above the smallest exponent the second step does not depend on the
    exponent. *)
Lemma renorm_above_emin :
  forall m e : Z,
    SpecFloat.emin prec emax <= e ->
    renorm m e = (m / 2 ^ Z.max 0 (Zdigits2 m - prec), e + Z.max 0 (Zdigits2 m - prec)).
Proof.
  intros m e He. unfold renorm.
  replace (Z.max 0 (fexp prec emax (Zdigits2 m + e) - e))
    with (Z.max 0 (Zdigits2 m - prec)); [ reflexivity | ].
  unfold fexp, SpecFloat.emin, prec, emax in *. lia.
Qed.

(** Rounding the same mantissa under an exponent larger by one gives a
    float that is not smaller. *)
Lemma binary_round_aux_exponent_mono :
  forall (m : positive) (e : Z),
    SFleb (binary_round_aux prec emax false (Z.pos m) e loc_Exact)
          (binary_round_aux prec emax false (Z.pos m) (e + 1) loc_Exact) = true.
Proof.
  intros m e.
  rewrite !binary_round_aux_eq by lia. cbv zeta.
  set (d := Zdigits2 (Z.pos m)).
  assert (Hd : 0 < d) by (unfold d; cbn; lia).
  destruct (Z_le_gt_dec (SpecFloat.emin prec emax) (d + e - prec)) as [Hnorm | Hsub].
  - (* the shift is the same and the results differ by their exponent *)
    replace (fexp prec emax (d + (e + 1)) - (e + 1)) with (d - prec)
      by (unfold fexp, SpecFloat.emin, prec, emax in *; lia).
    replace (fexp prec emax (d + e) - e) with (d - prec)
      by (unfold fexp, SpecFloat.emin, prec, emax in *; lia).
    set (M := round_shift (Z.pos m) (d - prec)).
    assert (HM : 0 <= M) by (apply round_shift_nonneg; lia).
    rewrite !renorm_above_emin by (unfold SpecFloat.emin, prec, emax in *; lia).
    apply pack_le; try (apply Z.div_pos; lia).
    destruct (Z.eq_dec (M / 2 ^ Z.max 0 (Zdigits2 M - prec)) 0) as [-> | Hne];
      [ left; reflexivity | right ].
    assert (0 <= M / 2 ^ Z.max 0 (Zdigits2 M - prec)) by (apply Z.div_pos; lia).
    split; [ lia | left; lia ].
  - (* both results are rounded at the smallest exponent *)
    replace (fexp prec emax (d + (e + 1)) - (e + 1)) with (SpecFloat.emin prec emax - e - 1)
      by (unfold fexp, SpecFloat.emin, prec, emax in *; lia).
    replace (fexp prec emax (d + e) - e) with (SpecFloat.emin prec emax - e)
      by (unfold fexp, SpecFloat.emin, prec, emax in *; lia).
    destruct (Z_le_gt_dec (SpecFloat.emin prec emax - e) 0) as [Hno | Hshift].
    + (* no shift at all *)
      unfold round_shift.
      replace (Z.to_nat (SpecFloat.emin prec emax - e)) with 0%nat by lia.
      replace (Z.to_nat (SpecFloat.emin prec emax - e - 1)) with 0%nat by lia.
      cbn [Nat.iter nat_rect].
      change (rne (shr_record_of_loc (Z.pos m) loc_Exact)) with (Z.pos m).
      rewrite !renorm_above_emin by lia.
      apply pack_le; try (apply Z.div_pos; lia).
      destruct (Z.eq_dec (Z.pos m / 2 ^ Z.max 0 (Zdigits2 (Z.pos m) - prec)) 0)
        as [-> | Hne]; [ left; reflexivity | right ].
      assert (0 <= Z.pos m / 2 ^ Z.max 0 (Zdigits2 (Z.pos m) - prec))
        by (apply Z.div_pos; lia).
      split; [ lia | left; lia ].
    + (* one more shift on the left *)
      set (Mb := round_shift (Z.pos m) (SpecFloat.emin prec emax - e - 1)).
      set (Ma := round_shift (Z.pos m) (SpecFloat.emin prec emax - e)).
      assert (HMb : 0 <= Mb) by (apply round_shift_nonneg; lia).
      assert (HMa : 0 <= Ma) by (apply round_shift_nonneg; lia).
      assert (Hle : Ma <= Mb).
      { unfold Ma, Mb, round_shift.
        replace (Z.to_nat (SpecFloat.emin prec emax - e))
          with (S (Z.to_nat (SpecFloat.emin prec emax - e - 1))) by lia.
        cbn [Nat.iter nat_rect]. apply rne_shr_1.
        apply iter_shr_nonneg. cbn. lia. }
      replace (e + Z.max 0 (SpecFloat.emin prec emax - e)) with (SpecFloat.emin prec emax) by lia.
      replace (e + 1 + Z.max 0 (SpecFloat.emin prec emax - e - 1)) with (SpecFloat.emin prec emax) by lia.
      rewrite !renorm_above_emin by lia.
      pose proof (Zdigits2_mono Ma Mb ltac:(lia)) as Hdig.
      pose proof (Zdigits2_nonneg Ma) as Hda.
      set (ka := Z.max 0 (Zdigits2 Ma - prec)).
      set (kb := Z.max 0 (Zdigits2 Mb - prec)).
      assert (Hk : ka <= kb) by (unfold ka, kb; lia).
      assert (Hka : 0 <= ka) by (unfold ka; lia).
      apply pack_le; try (apply Z.div_pos; lia).
      destruct (Z.eq_dec (Ma / 2 ^ ka) 0) as [-> | Hne]; [ left; reflexivity | right ].
      assert (Hqa : 0 < Ma / 2 ^ ka).
      { assert (0 <= Ma / 2 ^ ka) by (apply Z.div_pos; lia). lia. }
      assert (HMa' : 0 < Ma).
      { destruct (Z.eq_dec Ma 0) as [H0 | H0]; [ | lia ].
        rewrite H0, Z.div_0_l in Hqa by lia. lia. }
      destruct (Z.eq_dec ka kb) as [Heq | Hneq].
      * rewrite <- Heq. split; [ | right; split; [ reflexivity | ] ].
        -- apply Z.lt_le_trans with (Ma / 2 ^ ka); [ exact Hqa | ].
           apply Z.div_le_mono; lia.
        -- apply Z.div_le_mono; lia.
      * split; [ | left; lia ].
        assert (Hkb : kb = Zdigits2 Mb - prec) by (unfold kb in *; lia).
        pose proof (Zdigits2_bounds Mb ltac:(lia)) as [Hlow _].
        apply Z.div_str_pos. split; [ lia | ].
        apply Z.le_trans with (2 ^ (Zdigits2 Mb - 1)); [ | exact Hlow ].
        apply Z.pow_le_mono_r; unfold prec in *; lia.
Qed.

(** ** The order of floats *)

Ltac sf_compare_cases :=
  unfold SFleb, SFltb, SFcompare;
  repeat match goal with
         | |- context [PosDef.Pos.compare_cont Eq ?a ?b] =>
             change (PosDef.Pos.compare_cont Eq a b) with (Pos.compare a b)
         end;
  repeat match goal with
         | |- context [(?a ?= ?b)%Z] => destruct (Z.compare_spec a b)
         | |- context [(?a ?= ?b)%positive] => destruct (Pos.compare_spec a b)
         end;
  cbn [CompOpp]; intros; subst;
  try reflexivity; try discriminate; try lia.

Lemma SFleb_trans :
  forall x y z : spec_float,
    SFleb x y = true -> SFleb y z = true -> SFleb x z = true.
Proof.
  intros [ sx | [ | ] | | [ | ] mx ex ] [ sy | [ | ] | | [ | ] my ey ]
         [ sz | [ | ] | | [ | ] mz ez ]; sf_compare_cases.
Qed.

Lemma SFltb_leb :
  forall x y : spec_float, SFltb x y = true -> SFleb x y = true.
Proof.
  intros x y. unfold SFltb, SFleb.
  destruct (SFcompare x y) as [ [ | | ] | ]; intros H; try reflexivity; discriminate H.
Qed.

(** Two floats that are not NaN are comparable. *)
Lemma SFleb_total :
  forall x y : spec_float,
    SFleb x x = true -> SFleb y y = true -> SFltb y x = false -> SFleb x y = true.
Proof.
  intros [ sx | [ | ] | | [ | ] mx ex ] [ sy | [ | ] | | [ | ] my ey ];
    sf_compare_cases.
Qed.

Lemma SFleb_refl_l :
  forall x y : spec_float, SFleb x y = true -> SFleb x x = true.
Proof.
  intros [ sx | [ | ] | | [ | ] mx ex ] [ sy | [ | ] | | [ | ] my ey ];
    sf_compare_cases.
Qed.

Lemma SFleb_refl_r :
  forall x y : spec_float, SFleb x y = true -> SFleb y y = true.
Proof.
  intros [ sx | [ | ] | | [ | ] mx ex ] [ sy | [ | ] | | [ | ] my ey ];
    sf_compare_cases.
Qed.

Lemma pack_nonneg :
  forall m e : Z, 0 <= m -> sf_nonneg (pack false m e) = true.
Proof.
  intros [ | p | p ] e Hm; try lia; cbn [pack].
  - reflexivity.
  - destruct (e <=? emax - prec); reflexivity.
Qed.

Lemma binary_round_aux_nonneg :
  forall m e : Z,
    0 <= m -> sf_nonneg (binary_round_aux prec emax false m e loc_Exact) = true.
Proof.
  intros m e Hm. rewrite binary_round_aux_eq by exact Hm. cbv zeta.
  unfold renorm. apply pack_nonneg. apply Z.div_pos; [ | lia ].
  apply round_shift_nonneg. exact Hm.
Qed.

Lemma SFmul_nonneg :
  forall (x : spec_float) (m : positive) (e : Z),
    sf_nonneg x = true ->
    sf_nonneg (SFmul prec emax x (S754_finite false m e)) = true.
Proof.
  intros [ sx | [ | ] | | [ | ] mx ex ] m e Hx; try discriminate Hx; cbn [SFmul xorb].
  - reflexivity.
  - reflexivity.
  - apply binary_round_aux_nonneg. lia.
Qed.

(** Doubling the second factor does not make a product smaller. *)
Lemma SFmul_exponent_mono :
  forall (x : spec_float) (m : positive) (e : Z),
    sf_nonneg x = true ->
    SFleb (SFmul prec emax x (S754_finite false m e))
          (SFmul prec emax x (S754_finite false m (e + 1))) = true.
Proof.
  intros [ sx | [ | ] | | [ | ] mx ex ] m e Hx; try discriminate Hx; cbn [SFmul xorb].
  - reflexivity.
  - reflexivity.
  - replace (ex + (e + 1)) with (ex + e + 1) by lia.
    apply binary_round_aux_exponent_mono.
Qed.

Lemma sf_nonneg_zero_le :
  forall x : spec_float, sf_nonneg x = true <-> SFleb (S754_zero false) x = true.
Proof.
  intros [ sx | [ | ] | | [ | ] mx ex ]; cbn; split; intros H;
    try reflexivity; discriminate H.
Qed.

Local Open Scope float_scope.

(** The same facts on primitive floats. *)
Lemma leb_trans :
  forall x y z : float, (x <=? y) = true -> (y <=? z) = true -> (x <=? z) = true.
Proof.
  intros x y z. rewrite !leb_spec. apply SFleb_trans.
Qed.

Lemma ltb_leb :
  forall x y : float, (x <? y) = true -> (x <=? y) = true.
Proof.
  intros x y. rewrite ltb_spec, leb_spec. apply SFltb_leb.
Qed.

Lemma leb_total :
  forall x y : float,
    (x <=? x) = true -> (y <=? y) = true -> (y <? x) = false -> (x <=? y) = true.
Proof.
  intros x y. rewrite !leb_spec, ltb_spec. apply SFleb_total.
Qed.

Lemma leb_refl_l :
  forall x y : float, (x <=? y) = true -> (x <=? x) = true.
Proof.
  intros x y. rewrite !leb_spec. apply SFleb_refl_l.
Qed.

Lemma leb_refl_r :
  forall x y : float, (x <=? y) = true -> (y <=? y) = true.
Proof.
  intros x y. rewrite !leb_spec. apply SFleb_refl_r.
Qed.

Lemma leb_zero_nonneg :
  forall x : float, (0 <=? x) = true <-> sf_nonneg (Prim2SF x) = true.
Proof.
  intros x. rewrite leb_spec, sf_nonneg_zero_le. reflexivity.
Qed.

Lemma mul_nonneg :
  forall (x c : float) (m : positive) (e : Z),
    Prim2SF c = S754_finite false m e ->
    (0 <=? x) = true -> (0 <=? x * c) = true.
Proof.
  intros x c m e Hc Hx. apply leb_zero_nonneg in Hx. apply leb_zero_nonneg.
  rewrite mul_spec, Hc. apply SFmul_nonneg. exact Hx.
Qed.

Lemma mul_double_mono :
  forall (x c c' : float) (m : positive) (e : Z),
    Prim2SF c = S754_finite false m e ->
    Prim2SF c' = S754_finite false m (e + 1) ->
    (0 <=? x) = true -> (x * c <=? x * c') = true.
Proof.
  intros x c c' m e Hc Hc' Hx. apply leb_zero_nonneg in Hx.
  rewrite leb_spec, !mul_spec, Hc, Hc'. apply SFmul_exponent_mono. exact Hx.
Qed.

(** [min(x, cap)] is at most [cap] when [x] is not NaN. *)
Lemma pymin_le_cap :
  forall x cap : float,
    (x <=? x) = true -> (cap <=? cap) = true ->
    (PyNum.pymin x cap <=? cap) = true.
Proof.
  intros x cap Hx Hcap. unfold PyNum.pymin.
  destruct (cap <? x) eqn:Hlt; [ exact Hcap | ].
  apply leb_total; assumption.
Qed.

(** [min] is monotone in both arguments. *)
Lemma pymin_mono :
  forall x y capx capy : float,
    (x <=? y) = true -> (capx <=? capy) = true ->
    (PyNum.pymin x capx <=? PyNum.pymin y capy) = true.
Proof.
  intros x y capx capy Hxy Hcap. unfold PyNum.pymin.
  pose proof (leb_refl_l _ _ Hxy) as Hx. pose proof (leb_refl_r _ _ Hxy) as Hy.
  pose proof (leb_refl_l _ _ Hcap) as Hcx. pose proof (leb_refl_r _ _ Hcap) as Hcy.
  destruct (capx <? x) eqn:Hx'; destruct (capy <? y) eqn:Hy'.
  - exact Hcap.
  - apply leb_trans with x; [ apply ltb_leb; exact Hx' | exact Hxy ].
  - apply leb_trans with capx; [ apply leb_total; assumption | exact Hcap ].
  - exact Hxy.
Qed.

Lemma pymin_nonneg :
  forall x cap : float,
    (0 <=? x) = true -> (0 <=? cap) = true -> (0 <=? PyNum.pymin x cap) = true.
Proof.
  intros x cap Hx Hcap. unfold PyNum.pymin. destruct (cap <? x); assumption.
Qed.

(** The float of a count is not negative. *)
Lemma of_count_nonneg :
  forall n : nat, (0 <=? PyNum.of_count n) = true.
Proof.
  intros n. apply leb_zero_nonneg. unfold PyNum.of_count.
  rewrite of_uint63_spec.
  pose proof (Uint63.to_Z_bounded (Uint63.of_Z (Z.of_nat n))) as [Hpos _].
  destruct (Uint63Axioms.to_Z (Uint63.of_Z (Z.of_nat n))) as [ | p | p ];
    [ reflexivity | | exfalso; apply Hpos; reflexivity ].
  unfold binary_normalize, binary_round.
  destruct (shl_align p 0 (fexp prec emax (Z.pos (digits2_pos p) + 0))) as [mz ez].
  apply binary_round_aux_nonneg. apply Pos2Z.is_nonneg.
Qed.

Local Open Scope Z_scope.

(** The mantissa of a float has at most 53 bits. *)
Lemma valid_mantissa_bound :
  forall (s : bool) (m : positive) (e : Z),
    valid_binary (S754_finite s m e) = true -> Z.pos m < 2 ^ 53.
Proof.
  intros s m e Hv. cbn [SpecFloat.valid_binary] in Hv.
  unfold bounded, canonical_mantissa in Hv.
  apply andb_prop in Hv. destruct Hv as [Hc _].
  apply Z.eqb_eq in Hc.
  pose proof (digits2_pos_bounds m) as [_ Hup].
  apply Z.lt_le_trans with (2 ^ Z.pos (digits2_pos m)); [ exact Hup | ].
  apply Z.pow_le_mono_r; [ lia | ].
  unfold fexp, SpecFloat.emin, prec, emax in Hc. lia.
Qed.

Lemma div_half_even_bounds :
  forall a b k : Z,
    0 <= a -> 0 < b -> a < k * b -> 0 <= PyNum.div_half_even a b <= k.
Proof.
  intros a b k Ha Hb Hlt. unfold PyNum.div_half_even.
  assert (Hq : 0 <= a / b) by (apply Z.div_pos; lia).
  assert (Hq' : a / b < k) by (apply Z.div_lt_upper_bound; lia).
  destruct (2 * (a mod b) ?= b); try destruct (Z.even (a / b)); lia.
Qed.

Lemma hundredths_le_085 :
  forall n : positive,
    (n <= 85)%positive -> (hundredth n <=? 0.85)%float = true.
Proof.
  assert (Htable :
    forallb (fun n => (hundredth n <=? 0.85)%float)
            (map Pos.of_nat (seq 1 85)) = true) by (vm_compute; reflexivity).
  intros n Hn. rewrite forallb_forall in Htable. apply Htable.
  apply in_map_iff. exists (Pos.to_nat n). split; [ apply Pos2Nat.id | ].
  apply in_seq. lia.
Qed.

Lemma SFleb_finite_inv :
  forall (m m' : positive) (e e' : Z),
    SFleb (S754_finite false m e) (S754_finite false m' e') = true ->
    e < e' \/ (e = e' /\ Z.pos m <= Z.pos m').
Proof.
  intros m m' e e'. unfold SFleb, SFcompare.
  change (PosDef.Pos.compare_cont Eq m m') with (Pos.compare m m').
  destruct (Z.compare_spec e e'); [ | left; lia | discriminate ].
  destruct (Pos.compare_spec m m'); intros; try discriminate; right; split; lia.
Qed.

(** Rounding to two decimals keeps a float between 0 and 0.85 at most 0.85. *)
Lemma py_round2_le_085 :
  forall x : float,
    (0 <=? x)%float = true -> (x <=? 0.85)%float = true ->
    (PyNum.py_round 2 x <=? 0.85)%float = true.
Proof.
  intros x H0 H85. pose proof (Prim2SF_valid x) as Hvalid.
  pose proof H85 as Hx85.
  apply leb_zero_nonneg in H0. rewrite leb_spec in H85.
  change (Prim2SF 0.85) with (S754_finite false 7656119366529843 (-53)) in H85.
  unfold PyNum.py_round.
  destruct (Prim2SF x) as [ s | s | | s m e ] eqn:Hx; try exact Hx85.
  destruct s; [ discriminate H0 | ].
  pose proof (valid_mantissa_bound _ _ _ Hvalid) as Hm.
  apply SFleb_finite_inv in H85. rename H85 into He.
  destruct (Z.leb_spec 0 e) as [Hge | Hneg]; [ lia | ].
  change (Z.to_pos (10 ^ Z.of_nat 2)) with 100%positive.
  assert (Hn : 0 <= PyNum.div_half_even (Z.pos (m * 100)) (2 ^ (- e)) <= 85).
  { apply div_half_even_bounds; [ lia | apply Z.pow_pos_nonneg; lia | ].
    rewrite Pos2Z.inj_mul.
    destruct He as [He | [-> Hle]].
    - assert (2 ^ 54 <= 2 ^ (- e)) by (apply Z.pow_le_mono_r; lia).
      change (2 ^ 53) with 9007199254740992 in Hm.
      change (2 ^ 54) with 18014398509481984 in H. lia.
    - change (2 ^ (- -53)) with 9007199254740992. lia. }
  destruct (PyNum.div_half_even (Z.pos (m * 100)) (2 ^ (- e))) as [ | n | n ].
  - vm_compute. reflexivity.
  - apply hundredths_le_085. lia.
  - vm_compute. reflexivity.
Qed.

End FloatFacts.

(** ** The Python model on known values *)

Example py_round_known_values :
  PyNum.py_round 2 2.675 = 2.67%float /\
  PyNum.py_round 2 0.125 = 0.12%float /\
  PyNum.py_round 2 0.375 = 0.38%float /\
  PyNum.py_round 2 0.15 = 0.15%float /\
  PyNum.py_round 2 0.7200000000000001 = 0.72%float /\
  PyNum.py_round 2 1234.5678 = 1234.57%float /\
  PyNum.py_round 1 0.25 = 0.2%float.
Proof.
  repeat apply conj; vm_compute; reflexivity.
Qed.

Example np_round1_known_values :
  PyNum.np_round1 4.35 = 4.4%float /\
  PyNum.np_round1 0.25 = 0.2%float /\
  PyNum.np_round1 5 = 5%float /\
  PyNum.np_mean [3; 4; 5]%float = 4%float.
Proof.
  repeat apply conj; vm_compute; reflexivity.
Qed.

Example of_count_times_fifth :
  (PyNum.of_count 3 * 0.2 = 0.6000000000000001)%float.
Proof.
  vm_compute. reflexivity.
Qed.

Example fromisoformat_known_values :
  PyDatetime.fromisoformat "2024-05-10T06:27+00:00" =
    Some {| PyDatetime.ordinal := 739016; PyDatetime.day_us := 23220000000;
            PyDatetime.utcoffset := Some 0%Z |} /\
  PyDatetime.fromisoformat "2024-02-29" =
    Some {| PyDatetime.ordinal := 738945; PyDatetime.day_us := 0;
            PyDatetime.utcoffset := None |} /\
  PyDatetime.fromisoformat "2024-02-30" = None /\
  PyDatetime.fromisoformat "2024-05-10T06:27Z" = None /\
  PyDatetime.fromisoformat "" = None.
Proof.
  repeat apply conj; vm_compute; reflexivity.
Qed.

Example timedelta_hours_known_values :
  PyDatetime.timedelta_hours 1.5 = Ok 5400000000%Z /\
  PyDatetime.timedelta_hours 20.833333333333332 = Ok 75000000000%Z /\
  PyDatetime.timedelta_hours 4.166666666666667e-10 = Ok 2%Z /\
  PyDatetime.timedelta_hours nan = Raise ValueError.
Proof.
  repeat apply conj; vm_compute; reflexivity.
Qed.

(** The three class entries of a flare prediction are the class functions
    at the blended score. *)
Lemma predict_flare_probability_classes :
  forall (A B : Type) (utcnow : string) (recent_flares : list flare)
         (solar_wind_data : list A) (xray_flux : list B),
    let p := F.predict_flare_probability utcnow recent_flares solar_wind_data xray_flux in
    let base := F.base_score recent_flares solar_wind_data xray_flux in
    F.pred_C_class p = F.C_class base /\
    F.pred_M_class p = F.M_class base /\
    F.pred_X_class p = F.X_class base /\
    F.risk_level p = F._calculate_risk_level base.
Proof.
  intros. repeat apply conj; reflexivity.
Qed.

(** ** C1: the flare scorer on empty inputs *)

(** C1, as the code has it: with no flare, no solar-wind point and no X-ray
    point the activity score is 0.2, the wind and X-ray scores are 0.5, the
    blended base score is 0.35 (0.2*0.5 + 0.5*0.3 + 0.5*0.2), and the risk
    level is "LOW". *)
Theorem flare_scorer_empty_inputs :
  forall (A B : Type) (utcnow : string),
    F._calculate_activity_score [] = 0.2%float /\
    F._analyze_solar_wind (@nil A) = 0.5%float /\
    F._analyze_xray_flux (@nil B) = 0.5%float /\
    F.base_score [] (@nil A) (@nil B) = 0.35%float /\
    F.risk_level (F.predict_flare_probability utcnow [] (@nil A) (@nil B)) = "LOW".
Proof.
  intros A B utcnow.
  repeat split; vm_compute; reflexivity.
Qed.

(** The base score on empty inputs is not the 0.37 of the specification. *)
Lemma flare_scorer_empty_base_not_037 :
  F.base_score [] (@nil row) (@nil row) <> 0.37%float.
Proof.
  intro H. float_discriminate H.
Qed.

(** ** C2: the geomagnetic scorer on the Kp history 3, 4, 5 *)

(** C2, as the code has it: on the Kp history 3, 4, 5 (average 4) without an
    incoming CME the storm probability is 0.1 and the predicted maximum Kp is
    5.0, and 5.0 reaches the threshold [>= 5], so the storm level is
    "Moderate (G2-G3)". *)
Theorem geomagnetic_storm_kp_345 :
  forall utcnow t1 t2 t3 : string,
    exists p,
      F.predict_geomagnetic_storm utcnow (kp_345 t1 t2 t3) false = Ok p /\
      F.current_kp p = Some 4%float /\
      F.storm_probability p = 0.1%float /\
      F.predicted_max_kp p = Some 5%float /\
      F.storm_level p = "Moderate (G2-G3)".
Proof.
  intros utcnow t1 t2 t3.
  eexists. split.
  - unfold F.predict_geomagnetic_storm, kp_345. cbn [F.last_n length Nat.sub skipn F.kp_values float_of_cell bind].
    reflexivity.
  - repeat split; vm_compute; reflexivity.
Qed.

(** On that history the storm level is not the "Minor (G1) or None" of the
    specification. *)
Lemma geomagnetic_storm_kp_345_not_minor :
  ~ (exists p,
       F.predict_geomagnetic_storm "2025-11-05T00:00:00"
         (kp_345 "2025-11-04 00:00:00" "2025-11-04 03:00:00" "2025-11-04 06:00:00")
         false = Ok p /\
       F.storm_probability p = 0.1%float /\
       F.predicted_max_kp p = Some 5%float /\
       F.storm_level p = "Minor (G1) or None").
Proof.
  intros [p [Hp [_ [_ Hlevel]]]].
  vm_compute in Hp. injection Hp as <-. cbn in Hlevel. discriminate Hlevel.
Qed.

(** ** C3: the CME arrival estimator at 2000 km/s *)

(** C3, as the code has it: at 2000 km/s, for a detection time that parses
    and whose arrival time is representable, the impact probability is
    [min((2000/2000)*0.8, 0.95)], which is 0.8: the cap 0.95 is not reached. *)
Theorem cme_arrival_2000_impact :
  forall (t : string) (d a : PyDatetime.datetime),
    PyDatetime.fromisoformat (PyStr.replace_char "Z" "+00:00" t) = Some d ->
    arrival_of d 2000 = Ok a ->
    exists e,
      F.predict_cme_arrival 2000 t = Ok (F.Arrival e) /\
      F.estimated_arrival e = a /\
      F.impact_probability e = 0.8%float /\
      F.impact_probability e <> 0.95%float /\
      F.arrival_severity e = "high".
Proof.
  intros t d a Hparse Harr.
  unfold F.predict_cme_arrival.
  change (negb (PyNum.truthy 2000) || (2000 <? 200)%float) with false.
  cbv iota. rewrite Hparse.
  unfold arrival_of in Harr.
  destruct (PyDatetime.timedelta_hours (150000000 / (2000 * 3600))%float)
    as [delta | ex] eqn:Hdelta; cbn [bind] in Harr |- *; [ | discriminate Harr ].
  eexists. split; [ rewrite Harr; cbn [bind]; reflexivity | ].
  cbn [F.estimated_arrival F.impact_probability F.arrival_severity].
  split; [ reflexivity | ].
  split; [ vm_compute; reflexivity | ].
  split; [ | vm_compute; reflexivity ].
  intro H. float_discriminate H.
Qed.

Lemma cme_arrival_2000_impact_witness :
  exists e,
    F.predict_cme_arrival 2000 "2024-05-10T06:27Z" = Ok (F.Arrival e) /\
    F.estimated_arrival e =
      {| PyDatetime.ordinal := 739017; PyDatetime.day_us := 11820000000;
         PyDatetime.utcoffset := Some 0%Z |} /\
    F.impact_probability e = 0.8%float /\
    F.impact_probability e <> 0.95%float /\
    F.arrival_severity e = "high".
Proof.
  apply (cme_arrival_2000_impact "2024-05-10T06:27Z"
           {| PyDatetime.ordinal := 739016; PyDatetime.day_us := 23220000000;
              PyDatetime.utcoffset := Some 0%Z |}).
  - vm_compute. reflexivity.
  - vm_compute. reflexivity.
Defined.

(** At 2000 km/s the impact probability is not the cap 0.95. *)
Lemma cme_arrival_2000_not_clamped :
  ~ (exists e,
       F.predict_cme_arrival 2000 "2024-05-10T06:27Z" = Ok (F.Arrival e) /\
       F.impact_probability e = 0.95%float).
Proof.
  intros [e [He Himpact]].
  vm_compute in He. injection He as <-. cbn in Himpact.
  float_discriminate Himpact.
Qed.

(** ** C4: a malformed CME record in the comprehensive prediction *)

(** The only exception the Kp conversion raises is [ValueError]. *)
Lemma kp_values_raises :
  forall (rows : list row) (ex : exn),
    F.kp_values rows = Raise ex -> ex = ValueError.
Proof.
  induction rows as [ | r rs IH ]; intros ex Hvs; cbn in Hvs; [ discriminate | ].
  destruct r as [ | c0 [ | [ f | s ] r' ] ]; cbn in Hvs;
    try (destruct (F.kp_values rs); cbn in Hvs; [ discriminate | ];
         injection Hvs as <-; apply IH; reflexivity).
  injection Hvs as <-. reflexivity.
Qed.

(** The geomagnetic scorer returns a prediction or raises [ValueError]. *)
Lemma predict_geomagnetic_storm_cases :
  forall (utcnow : string) (kp_history : list row) (cme_incoming : bool),
    F.predict_geomagnetic_storm utcnow kp_history cme_incoming = Raise ValueError \/
    exists p, F.predict_geomagnetic_storm utcnow kp_history cme_incoming = Ok p.
Proof.
  intros utcnow kp_history cme_incoming.
  unfold F.predict_geomagnetic_storm.
  destruct kp_history as [ | k ks ]; [ right; eexists; reflexivity | ].
  destruct (F.kp_values (F.last_n 5 (k :: ks))) as [ vs | ex ] eqn:Hvs; cbn [bind].
  - right.
    destruct cme_incoming;
      repeat match goal with
             | |- context [if ?b then _ else _] => destruct b
             end; eexists; reflexivity.
  - left. f_equal. apply (kp_values_raises _ _ Hvs).
Qed.

(** C4 does not hold of the code: a fast CME whose start time is absent or
    unparsable makes [datetime.fromisoformat] raise [ValueError] inside
    [predict_cme_arrival]; nothing catches it, and the comprehensive
    prediction raises instead of returning, whatever the other inputs are. *)
Theorem comprehensive_predictions_malformed_cme_raises :
  forall (A B : Type) (now : P.clock) (recent_flares : list flare)
         (solar_wind : list A) (xray_flux : list B) (kp_index : list row),
    P.get_comprehensive_predictions now recent_flares [cme_without_start]
      solar_wind xray_flux kp_index = Raise ValueError /\
    P.get_comprehensive_predictions now recent_flares [cme_bad_start]
      solar_wind xray_flux kp_index = Raise ValueError.
Proof.
  intros A B now recent_flares solar_wind xray_flux kp_index.
  split; unfold P.get_comprehensive_predictions;
    match goal with
    | |- context [F.predict_geomagnetic_storm ?u kp_index ?c] =>
        destruct (predict_geomagnetic_storm_cases u kp_index c) as [ -> | [p ->] ]
    end; cbn [bind]; reflexivity.
Qed.

(** ** C5: the per-class probabilities of the flare scorer *)

(** C5: for every base score that is not negative the per-class
    probabilities decrease with the class, P(C) >= P(M) >= P(X), and each
    is at most its cap: 0.95, 0.75 and 0.45. *)
Theorem flare_class_probabilities_ordered :
  forall base : float,
    (0 <=? base)%float = true ->
    (F.probability (F.M_class base) <=? F.probability (F.C_class base))%float = true /\
    (F.probability (F.X_class base) <=? F.probability (F.M_class base))%float = true /\
    (F.probability (F.C_class base) <=? 0.95)%float = true /\
    (F.probability (F.M_class base) <=? 0.75)%float = true /\
    (F.probability (F.X_class base) <=? 0.45)%float = true.
Proof.
  intros base Hbase. cbn [F.probability F.C_class F.M_class F.X_class].
  assert (H36 : (base * 0.3 <=? base * 0.6)%float = true).
  { apply (FloatFacts.mul_double_mono base 0.3 0.6 5404319552844595 (-54));
      [ vm_compute; reflexivity | vm_compute; reflexivity | exact Hbase ]. }
  assert (H612 : (base * 0.6 <=? base * 1.2)%float = true).
  { apply (FloatFacts.mul_double_mono base 0.6 1.2 5404319552844595 (-53));
      [ vm_compute; reflexivity | vm_compute; reflexivity | exact Hbase ]. }
  repeat apply conj.
  - apply FloatFacts.pymin_mono; [ exact H612 | vm_compute; reflexivity ].
  - apply FloatFacts.pymin_mono; [ exact H36 | vm_compute; reflexivity ].
  - apply FloatFacts.pymin_le_cap;
      [ apply (FloatFacts.leb_refl_r _ _ H612) | vm_compute; reflexivity ].
  - apply FloatFacts.pymin_le_cap;
      [ apply (FloatFacts.leb_refl_r _ _ H36) | vm_compute; reflexivity ].
  - apply FloatFacts.pymin_le_cap;
      [ apply (FloatFacts.leb_refl_l _ _ H36) | vm_compute; reflexivity ].
Qed.

Lemma flare_class_probabilities_ordered_witness :
  (F.probability (F.M_class 0.35) <=? F.probability (F.C_class 0.35))%float = true /\
  (F.probability (F.X_class 0.35) <=? F.probability (F.M_class 0.35))%float = true /\
  (F.probability (F.C_class 0.35) <=? 0.95)%float = true /\
  (F.probability (F.M_class 0.35) <=? 0.75)%float = true /\
  (F.probability (F.X_class 0.35) <=? 0.45)%float = true.
Proof.
  apply (flare_class_probabilities_ordered 0.35). vm_compute. reflexivity.
Defined.

(** ** C6: the probability of the radiation scorer *)

(** The probability and the scale of the branch for no high-energy flare. *)
Lemma radiation_storm_none :
  forall (utcnow : string) (recent_flares : list flare),
    length (R.high_energy_flares recent_flares) = 0%nat ->
    R.radiation_storm_probability (R.predict_radiation_storm utcnow recent_flares)
      = 0.15%float /\
    R.predicted_scale (R.predict_radiation_storm utcnow recent_flares) = "Below S1" /\
    R.severity (R.predict_radiation_storm utcnow recent_flares) = "Minor".
Proof.
  intros utcnow recent_flares Hn.
  unfold R.predict_radiation_storm. rewrite Hn.
  repeat apply conj; vm_compute; reflexivity.
Qed.

(** C6: when no flare class starts with "X" or "M" the radiation storm
    probability is 0.15, whatever else the flares hold; when three or more
    do, the probability is at most 0.85. *)
Theorem radiation_storm_probability_bounds :
  forall (utcnow : string) (recent_flares : list flare),
    (length (R.high_energy_flares recent_flares) = 0%nat ->
     R.radiation_storm_probability (R.predict_radiation_storm utcnow recent_flares)
       = 0.15%float) /\
    ((3 <= length (R.high_energy_flares recent_flares))%nat ->
     (R.radiation_storm_probability (R.predict_radiation_storm utcnow recent_flares)
        <=? 0.85)%float = true).
Proof.
  intros utcnow recent_flares. split.
  - intros Hn. apply (radiation_storm_none utcnow recent_flares Hn).
  - intros Hn. unfold R.predict_radiation_storm.
    apply Nat.leb_le in Hn. rewrite Hn.
    cbn [R.radiation_storm_probability].
    set (n := length (R.high_energy_flares recent_flares)).
    assert (Hbase : (0 <=? PyNum.pymin (PyNum.of_count n * 0.2) 0.9)%float = true).
    { apply FloatFacts.pymin_nonneg; [ | vm_compute; reflexivity ].
      apply (FloatFacts.mul_nonneg _ 0.2 7205759403792794 (-55));
        [ vm_compute; reflexivity | apply FloatFacts.of_count_nonneg ]. }
    assert (Hprod :
      (0 <=? PyNum.pymin (PyNum.of_count n * 0.2) 0.9 * 1.2)%float = true).
    { apply (FloatFacts.mul_nonneg _ 1.2 5404319552844595 (-52));
        [ vm_compute; reflexivity | exact Hbase ]. }
    apply FloatFacts.py_round2_le_085.
    + apply FloatFacts.pymin_nonneg; [ exact Hprod | vm_compute; reflexivity ].
    + apply FloatFacts.pymin_le_cap;
        [ apply (FloatFacts.leb_refl_r _ _ Hprod) | vm_compute; reflexivity ].
Qed.

Lemma radiation_storm_probability_bounds_witness :
  R.radiation_storm_probability
    (R.predict_radiation_storm "2025-11-05T00:05:00"
       [sample_flare "C1.0"; sample_flare "B7.2"]) = 0.15%float /\
  (R.radiation_storm_probability
     (R.predict_radiation_storm "2025-11-05T00:05:00"
        [sample_flare "X1.0"; sample_flare "M5.2"; sample_flare "X9.3";
         sample_flare "M1.1"; sample_flare "C1.0"]) <=? 0.85)%float = true.
Proof.
  split.
  - apply (radiation_storm_probability_bounds "2025-11-05T00:05:00"
             [sample_flare "C1.0"; sample_flare "B7.2"]).
    reflexivity.
  - apply (radiation_storm_probability_bounds "2025-11-05T00:05:00"
             [sample_flare "X1.0"; sample_flare "M5.2"; sample_flare "X9.3";
              sample_flare "M1.1"; sample_flare "C1.0"]).
    apply Nat.leb_le. reflexivity.
Defined.

(** ** C7: the primary concerns of the aggregator *)

(** C7: the concerns are the flare, geomagnetic and radiation concerns, in
    that order, each present exactly when its condition holds; the list is
    the single entry "No significant concerns" exactly when no condition
    holds; a MINIMAL flare tier with probabilities 0.1 and 0.1 yields the
    fallback alone. *)
Theorem primary_concerns_ordered :
  forall (fp : F.flare_prediction) (gp : F.geomag_prediction)
         (rp : R.radiation_prediction),
    (flare_concern fp || geomag_concern gp || radiation_concern rp = true ->
     P._get_primary_concerns fp gp rp =
       when (flare_concern fp) "Solar flare activity" ++
       when (geomag_concern gp) "Geomagnetic disturbances" ++
       when (radiation_concern rp) "Radiation hazards")%list /\
    (P._get_primary_concerns fp gp rp = ["No significant concerns"] <->
     flare_concern fp || geomag_concern gp || radiation_concern rp = false) /\
    (F.risk_level fp = "MINIMAL" ->
     F.storm_probability gp = 0.1%float ->
     R.radiation_storm_probability rp = 0.1%float ->
     P._get_primary_concerns fp gp rp = ["No significant concerns"]).
Proof.
  intros fp gp rp.
  assert (Hshape :
    P._get_primary_concerns fp gp rp =
      if flare_concern fp || geomag_concern gp || radiation_concern rp
      then (when (flare_concern fp) "Solar flare activity" ++
            when (geomag_concern gp) "Geomagnetic disturbances" ++
            when (radiation_concern rp) "Radiation hazards")%list
      else ["No significant concerns"]).
  { unfold P._get_primary_concerns, flare_concern, geomag_concern, radiation_concern.
    destruct (PyStr.mem (F.risk_level fp) ["HIGH"; "MODERATE"]);
      destruct (PyNum.gt (F.storm_probability gp) 0.5);
      destruct (PyNum.gt (R.radiation_storm_probability rp) 0.5); reflexivity. }
  split; [ | split ].
  - intros Hsome. rewrite Hshape, Hsome. reflexivity.
  - rewrite Hshape.
    destruct (flare_concern fp); destruct (geomag_concern gp);
      destruct (radiation_concern rp); cbn; split; intros H;
      try reflexivity; discriminate H.
  - intros Hrisk Hgeo Hrad. rewrite Hshape.
    unfold flare_concern, geomag_concern, radiation_concern.
    rewrite Hrisk, Hgeo, Hrad. vm_compute. reflexivity.
Qed.

Lemma primary_concerns_ordered_witness :
  P._get_primary_concerns quiet_flare_prediction quiet_geomag_prediction
    quiet_radiation_prediction = ["No significant concerns"].
Proof.
  apply (primary_concerns_ordered quiet_flare_prediction quiet_geomag_prediction
           quiet_radiation_prediction).
  - vm_compute. reflexivity.
  - reflexivity.
  - reflexivity.
Defined.

(** ** C8: the flare severity classifier *)

(** C8: [classify_flare_severity] returns one of five tiers on every string;
    on a non-empty string the tier is read off the upper case of the first
    character alone (X extreme, M high, C moderate, anything else low); the
    empty string, which is also what an absent [classType] is read as, gives
    "unknown", which is not "low" and is given for no other input. *)
Theorem classify_flare_severity_first_char :
  (forall s, In (Alerts.classify_flare_severity s)
               ["extreme"; "high"; "moderate"; "low"; "unknown"]) /\
  (forall c rest,
     Alerts.classify_flare_severity (String c rest) =
       if Ascii.eqb (PyStr.upper_ascii c) "X" then "extreme"
       else if Ascii.eqb (PyStr.upper_ascii c) "M" then "high"
       else if Ascii.eqb (PyStr.upper_ascii c) "C" then "moderate"
       else "low") /\
  (forall c c' rest rest',
     PyStr.upper_ascii c = PyStr.upper_ascii c' ->
     Alerts.classify_flare_severity (String c rest) =
     Alerts.classify_flare_severity (String c' rest')) /\
  Alerts.classify_flare_severity "" = "unknown" /\
  Alerts.classify_flare_severity (get None "") = "unknown" /\
  "unknown" <> "low" /\
  (forall c rest, Alerts.classify_flare_severity (String c rest) <> "unknown").
Proof.
  assert (Hmap : forall c rest,
     Alerts.classify_flare_severity (String c rest) =
       if Ascii.eqb (PyStr.upper_ascii c) "X" then "extreme"
       else if Ascii.eqb (PyStr.upper_ascii c) "M" then "high"
       else if Ascii.eqb (PyStr.upper_ascii c) "C" then "moderate"
       else "low").
  { intros c rest. unfold Alerts.classify_flare_severity, PyStr.first_upper, PyStr.mem.
    cbn [existsb String.eqb].
    destruct (Ascii.eqb (PyStr.upper_ascii c) "X");
      destruct (Ascii.eqb (PyStr.upper_ascii c) "M");
      destruct (Ascii.eqb (PyStr.upper_ascii c) "C"); reflexivity. }
  repeat apply conj.
  - intros [ | c rest ]; [ cbn; tauto | ].
    rewrite Hmap.
    destruct (Ascii.eqb (PyStr.upper_ascii c) "X");
      destruct (Ascii.eqb (PyStr.upper_ascii c) "M");
      destruct (Ascii.eqb (PyStr.upper_ascii c) "C"); cbn; tauto.
  - exact Hmap.
  - intros c c' rest rest' Hup. rewrite !Hmap, Hup. reflexivity.
  - reflexivity.
  - reflexivity.
  - discriminate.
  - intros c rest. rewrite Hmap.
    destruct (Ascii.eqb (PyStr.upper_ascii c) "X");
      destruct (Ascii.eqb (PyStr.upper_ascii c) "M");
      destruct (Ascii.eqb (PyStr.upper_ascii c) "C"); discriminate.
Qed.

(** ** C9: the alert synthesizer *)

Lemma insert_desc_perm :
  forall (x : Alerts.alert) (l : list Alerts.alert),
    Permutation (Alerts.insert_desc x l) (x :: l).
Proof.
  intros x l. induction l as [ | y rest IH ]; cbn.
  - apply Permutation_refl.
  - destruct (Alerts.key_geb x y).
    + apply Permutation_refl.
    + eapply Permutation_trans; [ apply perm_skip, IH | apply perm_swap ].
Qed.

Lemma sort_desc_perm :
  forall l : list Alerts.alert, Permutation (Alerts.sort_desc l) l.
Proof.
  induction l as [ | x rest IH ]; cbn.
  - apply Permutation_refl.
  - eapply Permutation_trans; [ apply insert_desc_perm | apply perm_skip, IH ].
Qed.

(** The alerts of a response are the collected alerts, reordered. *)
Lemma get_active_alerts_perm :
  forall flares cme_events storms radiation out,
    Alerts.get_active_alerts flares cme_events storms radiation = Ok out ->
    Permutation (Alerts.alerts out)
      (Alerts.collect_alerts flares cme_events storms radiation).
Proof.
  intros flares cme_events storms radiation out.
  unfold Alerts.get_active_alerts, Alerts.sort_alerts.
  destruct ((2 <=? length (Alerts.collect_alerts flares cme_events storms radiation))%nat
            && existsb Alerts.has_no_key
                 (Alerts.collect_alerts flares cme_events storms radiation));
    cbn [bind]; intros H; [ discriminate H | ].
  injection H as <-. cbn [Alerts.alerts]. apply sort_desc_perm.
Qed.

(** The synthesizer responds whenever every collected alert has a time. *)
Lemma get_active_alerts_responds :
  forall flares cme_events storms radiation,
    existsb Alerts.has_no_key
      (Alerts.collect_alerts flares cme_events storms radiation) = false ->
    exists out, Alerts.get_active_alerts flares cme_events storms radiation = Ok out.
Proof.
  intros flares cme_events storms radiation Hkeys.
  unfold Alerts.get_active_alerts, Alerts.sort_alerts.
  rewrite Hkeys, andb_false_r. cbn [bind]. eexists. reflexivity.
Qed.

(** Every flare alert carries the class of a flare that passed the filter. *)
Lemma flare_alerts_severity :
  forall flares a,
    In a (Alerts.flare_alerts flares) ->
    exists f, In f flares /\
      a = Alerts.flare_alert f (Alerts.classify_flare_severity (get (classType f) "")) /\
      PyStr.mem (Alerts.classify_flare_severity (get (classType f) ""))
        ["high"; "extreme"] = true.
Proof.
  intros flares a Ha. unfold Alerts.flare_alerts in Ha.
  apply in_flat_map in Ha. destruct Ha as [f [Hf Ha]].
  exists f. split; [ exact Hf | ].
  destruct (PyStr.mem (Alerts.classify_flare_severity (get (classType f) ""))
              ["high"; "extreme"]) eqn:Hsev; cbn in Ha.
  - destruct Ha as [<- | []]. split; reflexivity.
  - destruct Ha.
Qed.

Lemma collected_alert_type :
  forall flares cme_events storms radiation a,
    In a (Alerts.collect_alerts flares cme_events storms radiation) ->
    Alerts.type a = "solar_flare" ->
    In a (Alerts.flare_alerts flares).
Proof.
  intros flares cme_events storms radiation a Ha Htype.
  unfold Alerts.collect_alerts in Ha.
  apply in_app_or in Ha. destruct Ha as [Ha | Ha]; [ exact Ha | exfalso ].
  apply in_app_or in Ha. destruct Ha as [Ha | Ha].
  - unfold Alerts.cme_alerts in Ha. apply in_flat_map in Ha.
    destruct Ha as [c [_ Ha]].
    destruct (PyStr.mem _ _) in Ha; cbn in Ha; [ | destruct Ha ].
    destruct Ha as [<- | []]. discriminate Htype.
  - apply in_app_or in Ha. destruct Ha as [Ha | Ha].
    + unfold Alerts.storm_alerts in Ha. apply in_flat_map in Ha.
      destruct Ha as [s [_ Ha]].
      destruct (PyStr.mem _ _) in Ha; cbn in Ha; [ | destruct Ha ].
      destruct Ha as [<- | []]. discriminate Htype.
    + unfold Alerts.radiation_alerts in Ha. apply in_map_iff in Ha.
      destruct Ha as [r [<- _]]. discriminate Htype.
Qed.

(** The loop over the radiation events appends an alert for each of them. *)
Lemma radiation_alert_collected :
  forall flares cme_events storms radiation r,
    In r radiation ->
    In (Alerts.radiation_alert r)
       (Alerts.collect_alerts flares cme_events storms radiation).
Proof.
  intros flares cme_events storms radiation r Hr.
  unfold Alerts.collect_alerts.
  apply in_or_app; right. apply in_or_app; right. apply in_or_app; right.
  unfold Alerts.radiation_alerts. apply in_map. exact Hr.
Qed.

(** No collected alert is the alert of a flare of class "C1.0". *)
Lemma c_class_flare_not_collected :
  forall flares cme_events storms radiation f sev,
    classType f = Some "C1.0" ->
    ~ In (Alerts.flare_alert f sev)
         (Alerts.collect_alerts flares cme_events storms radiation).
Proof.
  intros flares cme_events storms radiation f sev Hclass Hin.
  apply collected_alert_type in Hin; [ | reflexivity ].
  apply flare_alerts_severity in Hin.
  destruct Hin as [g [_ [Heq Hsev]]].
  assert (Hg : get (classType g) "Unknown" = "C1.0").
  { apply (f_equal Alerts.title) in Heq. cbn in Heq.
    rewrite Hclass in Heq. cbn in Heq. injection Heq as Heq. symmetry. exact Heq. }
  destruct (classType g) as [ cls | ] eqn:Hcls; cbn in Hg.
  - subst cls. cbn in Hsev. discriminate Hsev.
  - discriminate Hg.
Qed.

(** C9: every radiation event has its alert, of severity "moderate", among
    the alerts the synthesizer collects and among the alerts of its
    response, whatever its fields and whatever the other events are; the
    alert of a flare of class "C1.0", whose severity "moderate" the
    high/extreme filter rejects, is among neither; the response is the
    collected alerts sorted, and the synthesizer responds whenever the
    collected alerts all have a time. *)
Theorem alert_synthesizer_radiation_and_c_class :
  forall (flares : list flare) (cme_events : list cme)
         (storms : list Alerts.storm) (radiation : list Alerts.radiation_event),
    (forall r, Alerts.severity (Alerts.radiation_alert r) = "moderate") /\
    Alerts.classify_flare_severity "C1.0" = "moderate" /\
    PyStr.mem "moderate" ["high"; "extreme"] = false /\
    (forall r, In r radiation ->
       In (Alerts.radiation_alert r)
          (Alerts.collect_alerts flares cme_events storms radiation)) /\
    (forall f sev, classType f = Some "C1.0" ->
       ~ In (Alerts.flare_alert f sev)
            (Alerts.collect_alerts flares cme_events storms radiation)) /\
    (forall out,
       Alerts.get_active_alerts flares cme_events storms radiation = Ok out ->
       (forall r, In r radiation -> In (Alerts.radiation_alert r) (Alerts.alerts out)) /\
       (forall f sev, classType f = Some "C1.0" ->
          ~ In (Alerts.flare_alert f sev) (Alerts.alerts out))) /\
    (existsb Alerts.has_no_key
       (Alerts.collect_alerts flares cme_events storms radiation) = false ->
     exists out, Alerts.get_active_alerts flares cme_events storms radiation = Ok out).
Proof.
  intros flares cme_events storms radiation.
  split; [ reflexivity | ].
  split; [ reflexivity | ].
  split; [ reflexivity | ].
  split; [ intros r; apply radiation_alert_collected | ].
  split; [ intros f sev; apply c_class_flare_not_collected | ].
  split; [ | apply get_active_alerts_responds ].
  intros out Hout.
  pose proof (get_active_alerts_perm _ _ _ _ _ Hout) as Hperm.
  split.
  - intros r Hr.
    apply (Permutation_in _ (Permutation_sym Hperm)).
    apply radiation_alert_collected. exact Hr.
  - intros f sev Hclass Hin.
    apply (Permutation_in _ Hperm) in Hin.
    exact (c_class_flare_not_collected _ _ _ _ _ _ Hclass Hin).
Qed.

Lemma alert_synthesizer_radiation_and_c_class_witness :
  exists out,
    Alerts.get_active_alerts [sample_flare "C1.0"; sample_flare "X2.1"] [] []
      [sample_radiation_event] = Ok out /\
    In (Alerts.radiation_alert sample_radiation_event) (Alerts.alerts out) /\
    ~ In (Alerts.flare_alert (sample_flare "C1.0") "moderate") (Alerts.alerts out).
Proof.
  destruct (alert_synthesizer_radiation_and_c_class
              [sample_flare "C1.0"; sample_flare "X2.1"] [] []
              [sample_radiation_event]) as [_ [_ [_ [_ [_ [Hout Hresponds]]]]]].
  destruct (Hresponds eq_refl) as [out Hok].
  exists out. split; [ exact Hok | ].
  destruct (Hout out Hok) as [Hrad Hflare]. split.
  - apply Hrad. left. reflexivity.
  - apply Hflare. reflexivity.
Defined.

(** ** C10: the radiation scorer counts upper-case classes only *)

Lemma startswith_X_or_M :
  forall f : flare,
    PyStr.startswith_any ["X"; "M"] (get (classType f) "") = true <->
    class_starts_with "X" f \/ class_starts_with "M" f.
Proof.
  intros f. unfold class_starts_with, PyStr.startswith_any, PyStr.startswith.
  destruct (classType f) as [ [ | c rest ] | ]; cbn [get existsb String.prefix].
  - split; [ discriminate | intros [[r H] | [r H]]; discriminate H ].
  - destruct (ascii_dec "X" c) as [<- | HX].
    + split; [ intros _; left; eexists; reflexivity | ].
      intros _. destruct rest; reflexivity.
    + destruct (ascii_dec "M" c) as [<- | HM].
      * split; [ intros _; right; eexists; reflexivity | ].
        intros _. destruct rest; reflexivity.
      * split; [ discriminate | ].
        intros [[r H] | [r H]]; injection H as H _; congruence.
  - split; [ discriminate | intros [[r H] | [r H]]; discriminate H ].
Qed.

Lemma lowercase_not_high_energy :
  forall flares : list flare,
    (forall f, In f flares -> lowercase_class f) ->
    R.high_energy_flares flares = [].
Proof.
  intros flares Hlow. unfold R.high_energy_flares.
  induction flares as [ | f rest IH ]; [ reflexivity | ].
  cbn [filter].
  destruct (PyStr.startswith_any ["X"; "M"] (get (classType f) "")) eqn:Hf.
  - exfalso. apply startswith_X_or_M in Hf.
    destruct (Hlow f (or_introl eq_refl)) as [[r Hr] | [r Hr]];
      destruct Hf as [[r' Hf] | [r' Hf]]; rewrite Hr in Hf; discriminate Hf.
  - apply IH. intros g Hg. apply Hlow. right. exact Hg.
Qed.

Lemma count_flares_lowercase :
  forall (flares : list flare) (acc : F.flare_counts),
    (forall f, In f flares -> lowercase_class f) ->
    (F.count_X (fold_left F.count_flare flares acc) +
     F.count_M (fold_left F.count_flare flares acc) =
     F.count_X acc + F.count_M acc + length flares)%nat.
Proof.
  induction flares as [ | f rest IH ]; intros acc Hlow; cbn [fold_left length].
  - lia.
  - rewrite IH by (intros g Hg; apply Hlow; right; exact Hg).
    destruct (Hlow f (or_introl eq_refl)) as [[r Hr] | [r Hr]].
    + replace (F.count_flare acc f)
        with {| F.count_X := S (F.count_X acc); F.count_M := F.count_M acc;
                F.count_C := F.count_C acc |}
        by (unfold F.count_flare; rewrite Hr; reflexivity).
      cbn [F.count_X F.count_M]. lia.
    + replace (F.count_flare acc f)
        with {| F.count_X := F.count_X acc; F.count_M := S (F.count_M acc);
                F.count_C := F.count_C acc |}
        by (unfold F.count_flare; rewrite Hr; reflexivity).
      cbn [F.count_X F.count_M]. lia.
Qed.

(** C10: the radiation scorer counts exactly the flares whose class starts
    with an upper-case "X" or "M"; on a list of flares whose classes all
    start with a lower-case "x" or "m" it counts none and takes the branch of
    probability 0.15 and scale "Below S1", while the activity count of the
    flare scorer, which upper-cases the first character, counts every one of
    them. *)
Theorem radiation_count_case_sensitive :
  forall (utcnow : string) (recent_flares : list flare),
    (forall f, In f (R.high_energy_flares recent_flares) <->
               In f recent_flares /\
               (class_starts_with "X" f \/ class_starts_with "M" f)) /\
    ((forall f, In f recent_flares -> lowercase_class f) ->
     length (R.high_energy_flares recent_flares) = 0%nat /\
     R.radiation_storm_probability (R.predict_radiation_storm utcnow recent_flares)
       = 0.15%float /\
     R.predicted_scale (R.predict_radiation_storm utcnow recent_flares) = "Below S1" /\
     (F.count_X (F.count_flares recent_flares) +
      F.count_M (F.count_flares recent_flares) = length recent_flares)%nat).
Proof.
  intros utcnow recent_flares. split.
  - intros f. unfold R.high_energy_flares. rewrite filter_In, startswith_X_or_M.
    reflexivity.
  - intros Hlow.
    assert (Hn : length (R.high_energy_flares recent_flares) = 0%nat)
      by (rewrite lowercase_not_high_energy by exact Hlow; reflexivity).
    split; [ exact Hn | ].
    destruct (radiation_storm_none utcnow recent_flares Hn) as [Hp [Hs _]].
    split; [ exact Hp | ]. split; [ exact Hs | ].
    unfold F.count_flares. rewrite count_flares_lowercase by exact Hlow.
    reflexivity.
Qed.

Lemma radiation_count_case_sensitive_witness :
  length (R.high_energy_flares [sample_flare "x1.0"; sample_flare "m5.2"]) = 0%nat /\
  R.radiation_storm_probability
    (R.predict_radiation_storm "2025-11-05T00:05:00"
       [sample_flare "x1.0"; sample_flare "m5.2"]) = 0.15%float /\
  R.predicted_scale
    (R.predict_radiation_storm "2025-11-05T00:05:00"
       [sample_flare "x1.0"; sample_flare "m5.2"]) = "Below S1" /\
  (F.count_X (F.count_flares [sample_flare "x1.0"; sample_flare "m5.2"]) +
   F.count_M (F.count_flares [sample_flare "x1.0"; sample_flare "m5.2"]) =
   length [sample_flare "x1.0"; sample_flare "m5.2"])%nat.
Proof.
  apply (radiation_count_case_sensitive "2025-11-05T00:05:00"
           [sample_flare "x1.0"; sample_flare "m5.2"]).
  intros f [<- | [<- | []]]; [ left | right ]; eexists; reflexivity.
Defined.

(** * Further properties of the scorers *)

(** ** The risk tiers of the flare scorer *)

(** X1: the risk tier does not decrease when the score grows. *)
Theorem risk_level_monotone :
  forall s1 s2 : float,
    (s1 <=? s2)%float = true ->
    (tier_rank (F._calculate_risk_level s1) <= tier_rank (F._calculate_risk_level s2))%nat.
Proof.
  intros s1 s2 Hle. unfold F._calculate_risk_level, PyNum.ge.
  assert (Hup : forall c : float, (c <=? s1)%float = true -> (c <=? s2)%float = true)
    by (intros c Hc; apply (FloatFacts.leb_trans c s1 s2); assumption).
  destruct (0.7 <=? s1)%float eqn:H7; [ rewrite (Hup _ H7); apply le_n | ].
  destruct (0.5 <=? s1)%float eqn:H5.
  { rewrite (Hup _ H5). destruct (0.7 <=? s2)%float; cbn; lia. }
  destruct (0.3 <=? s1)%float eqn:H3.
  { rewrite (Hup _ H3). destruct (0.7 <=? s2)%float; destruct (0.5 <=? s2)%float; cbn; lia. }
  cbn. lia.
Qed.

Lemma risk_level_monotone_witness :
  (tier_rank (F._calculate_risk_level 0.35) <= tier_rank (F._calculate_risk_level 0.81))%nat.
Proof.
  apply (risk_level_monotone 0.35 0.81). vm_compute. reflexivity.
Defined.

(** X2: the recommendations are decided by the risk tier: two scores have
    the same recommendations exactly when they have the same tier (a NaN
    score has the tier MINIMAL and its recommendations). *)
Theorem recommendations_follow_risk_level :
  forall s1 s2 : float,
    F._generate_recommendations s1 = F._generate_recommendations s2 <->
    F._calculate_risk_level s1 = F._calculate_risk_level s2.
Proof.
  intros s1 s2. unfold F._generate_recommendations, F._calculate_risk_level.
  destruct (PyNum.ge s1 0.7); destruct (PyNum.ge s1 0.5); destruct (PyNum.ge s1 0.3);
    destruct (PyNum.ge s2 0.7); destruct (PyNum.ge s2 0.5); destruct (PyNum.ge s2 0.3);
    split; intros H; try reflexivity; discriminate H.
Qed.

(** ** The X-ray score *)

Lemma last_n_length :
  forall (A : Type) (n : nat) (l : list A),
    length (F.last_n n l) = Nat.min n (length l).
Proof.
  intros A n l. unfold F.last_n. rewrite length_skipn. lia.
Qed.

(** X3: the X-ray score reads the number of samples only and never reaches
    its cap 0.8: it is 0.5 for fewer than five samples, 0.6 for ten samples
    or more, and between 0.5 and 0.6 in all cases. *)
Theorem xray_score_range :
  forall (A : Type) (xray_flux : list A),
    ((length xray_flux < 5)%nat -> F._analyze_xray_flux xray_flux = 0.5%float) /\
    ((10 <= length xray_flux)%nat -> F._analyze_xray_flux xray_flux = 0.6%float) /\
    (0.5 <=? F._analyze_xray_flux xray_flux)%float = true /\
    (F._analyze_xray_flux xray_flux <=? 0.6)%float = true.
Proof.
  intros A xray_flux. unfold F._analyze_xray_flux.
  destruct (Nat.leb_spec 10 (length xray_flux)) as [Hten | Hfew].
  - replace (length xray_flux <? 5)%nat with false
      by (symmetry; apply Nat.ltb_ge; lia).
    rewrite last_n_length, Nat.min_l by exact Hten.
    repeat apply conj; try (intros; lia); try (intros _); vm_compute; reflexivity.
  - remember (length xray_flux) as n eqn:Hn. clear Hn.
    do 10 (destruct n as [ | n ];
           [ repeat apply conj; try (intros; lia); try (intros _);
             vm_compute; reflexivity | ]).
    lia.
Qed.

(** ** The window of the geomagnetic scorer *)

Lemma last_n_app :
  forall (A : Type) (prefix window : list A),
    F.last_n (length window) (prefix ++ window) = window.
Proof.
  intros A prefix window. unfold F.last_n.
  rewrite length_app.
  replace (length prefix + length window - length window)%nat with (length prefix) by lia.
  rewrite skipn_app, skipn_all, Nat.sub_diag. reflexivity.
Qed.

(** X4: the geomagnetic scorer reads the last five rows of the Kp history
    only: rows before them change neither the prediction nor whether the
    scorer raises. *)
Theorem geomagnetic_storm_last_five :
  forall (utcnow : string) (prefix window : list row) (cme_incoming : bool),
    length window = 5%nat ->
    F.predict_geomagnetic_storm utcnow (prefix ++ window) cme_incoming =
    F.predict_geomagnetic_storm utcnow window cme_incoming.
Proof.
  intros utcnow prefix window cme_incoming Hlen.
  unfold F.predict_geomagnetic_storm.
  pose proof (last_n_app _ prefix window) as Hw. rewrite Hlen in Hw. rewrite Hw.
  pose proof (last_n_app _ [] window) as Hw'. rewrite Hlen in Hw'.
  cbn [app] in Hw'. rewrite Hw'.
  destruct window as [ | r rest ]; [ discriminate Hlen | ].
  destruct (prefix ++ r :: rest)%list as [ | r' rest' ] eqn:Happ;
    [ destruct prefix; discriminate Happ | reflexivity ].
Qed.

Lemma geomagnetic_storm_last_five_witness :
  F.predict_geomagnetic_storm "2025-11-05T00:05:00"
    ([ [Txt "2025-11-03 21:00:00"; Txt "n/a"]; [Txt "2025-11-04 00:00:00"; Num 9] ] ++
     [ [Txt "2025-11-04 03:00:00"; Num 2]; [Txt "2025-11-04 06:00:00"; Num 3];
       [Txt "2025-11-04 09:00:00"; Num 3]; [Txt "2025-11-04 12:00:00"; Num 4];
       [Txt "2025-11-04 15:00:00"; Num 2] ]) false =
  F.predict_geomagnetic_storm "2025-11-05T00:05:00"
    [ [Txt "2025-11-04 03:00:00"; Num 2]; [Txt "2025-11-04 06:00:00"; Num 3];
      [Txt "2025-11-04 09:00:00"; Num 3]; [Txt "2025-11-04 12:00:00"; Num 4];
      [Txt "2025-11-04 15:00:00"; Num 2] ] false.
Proof.
  apply geomagnetic_storm_last_five. reflexivity.
Defined.

(** ** The storm probability of the geomagnetic scorer *)

Lemma storm_probability_cases :
  forall (utcnow : string) (kp_history : list row) (cme_incoming : bool)
         (p : F.geomag_prediction),
    F.predict_geomagnetic_storm utcnow kp_history cme_incoming = Ok p ->
    (kp_history = [] ->
       F.storm_probability p = 0.1%float /\ F.storm_level p = "None" /\
       F.max_kp_predicted p = Some 2%float /\ F.predicted_max_kp p = None) /\
    (kp_history <> [] -> cme_incoming = true ->
       F.storm_probability p = 0.85%float) /\
    (kp_history <> [] -> cme_incoming = false ->
       F.storm_probability p = 0.1%float \/ F.storm_probability p = 0.3%float) /\
    (kp_history <> [] ->
       In (F.storm_level p) ["Severe (G4-G5)"; "Moderate (G2-G3)"; "Minor (G1) or None"]).
Proof.
  intros utcnow kp_history cme_incoming p Hp.
  unfold F.predict_geomagnetic_storm in Hp.
  destruct kp_history as [ | r rest ].
  - injection Hp as <-.
    split; [ intros _; repeat apply conj; reflexivity | ].
    repeat apply conj; intros H; exfalso; apply H; reflexivity.
  - destruct (F.kp_values (F.last_n 5 (r :: rest))) as [ vs | ex ];
      cbn [bind] in Hp; [ | discriminate Hp ].
    split; [ intros H; discriminate H | ].
    destruct cme_incoming.
    + destruct (PyNum.ge (PyNum.pymin (PyNum.np_mean vs + 3) 9) 7);
        [ | destruct (PyNum.ge (PyNum.pymin (PyNum.np_mean vs + 3) 9) 5) ];
        injection Hp as <-; cbn [F.storm_probability F.storm_level];
        (split; [ intros _ _; vm_compute; reflexivity | ]);
        (split; [ intros _ H; discriminate H | ]);
        intros _; cbn; tauto.
    + destruct (PyNum.gt (PyNum.np_mean vs) 4);
        (destruct (PyNum.ge (PyNum.pymin (PyNum.np_mean vs + 1) 7) 7);
         [ | destruct (PyNum.ge (PyNum.pymin (PyNum.np_mean vs + 1) 7) 5) ]);
        injection Hp as <-; cbn [F.storm_probability F.storm_level];
        (split; [ intros _ H; discriminate H | ]);
        (split; [ intros _ _; first [ left; vm_compute; reflexivity
                                    | right; vm_compute; reflexivity ] | ]);
        intros _; cbn; tauto.
Qed.

(** X5: a geomagnetic prediction has one of three storm probabilities.  On
    an empty Kp history it is 0.1 with the level "None", also when a CME is
    incoming; on a non-empty history it is 0.85 with an incoming CME, and
    0.1 or 0.3 without one. *)
Theorem geomagnetic_storm_probabilities :
  forall (utcnow : string) (kp_history : list row) (cme_incoming : bool)
         (p : F.geomag_prediction),
    F.predict_geomagnetic_storm utcnow kp_history cme_incoming = Ok p ->
    (kp_history = [] ->
       F.storm_probability p = 0.1%float /\ F.storm_level p = "None" /\
       F.max_kp_predicted p = Some 2%float /\ F.predicted_max_kp p = None) /\
    (kp_history <> [] -> cme_incoming = true ->
       F.storm_probability p = 0.85%float) /\
    (kp_history <> [] -> cme_incoming = false ->
       F.storm_probability p = 0.1%float \/ F.storm_probability p = 0.3%float) /\
    (kp_history <> [] ->
       In (F.storm_level p) ["Severe (G4-G5)"; "Moderate (G2-G3)"; "Minor (G1) or None"]).
Proof.
  exact storm_probability_cases.
Qed.

Lemma geomagnetic_storm_probabilities_witness :
  F.storm_probability
    {| F.gp_timestamp := None; F.current_kp := None; F.predicted_max_kp := None;
       F.max_kp_predicted := Some 2%float; F.storm_probability := 0.1%float;
       F.storm_level := "None"; F.gp_forecast_period := None; F.impacts := None |}
    = 0.1%float.
Proof.
  apply (geomagnetic_storm_probabilities "2025-11-05T00:05:00" [] true _ eq_refl).
  reflexivity.
Defined.

(** ** The lookup rows of the radiation scorer *)

(** X6: the impacts, regions and recommendations of a radiation prediction
    are those of the strong row for three or more high-energy flares and
    those of the moderate row otherwise.  This holds for no high-energy
    flare at all: the scale "Below S1" contains "S1", so the prediction of
    severity "Minor" carries the moderate row, and the row for normal
    conditions is never returned. *)
Theorem radiation_rows :
  forall (utcnow : string) (recent_flares : list flare),
    let p := R.predict_radiation_storm utcnow recent_flares in
    let n := length (R.high_energy_flares recent_flares) in
    ((3 <= n)%nat ->
       R.predicted_scale p = "S3-S4" /\ R.severity p = "Strong" /\
       R.impacts p = R._get_radiation_impacts "S3-S4" /\
       R.affected_regions p =
         ["Polar regions"; "High-latitude areas"; "Global HF communications"]) /\
    ((n < 3)%nat ->
       R.impacts p = R._get_radiation_impacts "S1-S2" /\
       R.affected_regions p = ["Polar regions"; "High-latitude areas"] /\
       R.recommendations p = R._get_radiation_recommendations "S1-S2") /\
    (n = 0%nat ->
       R.predicted_scale p = "Below S1" /\ R.severity p = "Minor" /\
       R.impacts p =
         ["Minor impacts to satellite operations";
          "Small effects on HF radio in polar regions";
          "Elevated radiation levels for astronauts";
          "Minimal impact to aviation"]) /\
    R.impacts p <> ["Normal background radiation levels";
                    "No significant impacts expected"] /\
    R.affected_regions p <> ["None"] /\
    R.recommendations p <> ["Normal operations"; "Standard radiation monitoring"].
Proof.
  intros utcnow recent_flares. cbv zeta.
  unfold R.predict_radiation_storm.
  destruct (length (R.high_energy_flares recent_flares)) as [ | [ | [ | n ] ] ];
    cbn [Nat.leb R.impacts R.affected_regions R.recommendations R.predicted_scale
         R.severity];
    (split; [ intros H; first [ exfalso; lia | repeat apply conj; reflexivity ] | ]);
    (split; [ intros H; first [ exfalso; lia | repeat apply conj; reflexivity ] | ]);
    (split; [ intros H; first [ exfalso; lia | repeat apply conj; reflexivity ] | ]);
    repeat apply conj; discriminate.
Qed.

(** ** More on the order of floats *)

Module FloatOrder.

Import Rounding.
Local Open Scope Z_scope.

Lemma SFltb_leb_trans :
  forall x y z : spec_float,
    SFltb x y = true -> SFleb y z = true -> SFltb x z = true.
Proof.
  intros [ sx | [ | ] | | [ | ] mx ex ] [ sy | [ | ] | | [ | ] my ey ]
         [ sz | [ | ] | | [ | ] mz ez ]; FloatFacts.sf_compare_cases.
Qed.

Lemma SFleb_ltb_trans :
  forall x y z : spec_float,
    SFleb x y = true -> SFltb y z = true -> SFltb x z = true.
Proof.
  intros [ sx | [ | ] | | [ | ] mx ex ] [ sy | [ | ] | | [ | ] my ey ]
         [ sz | [ | ] | | [ | ] mz ez ]; FloatFacts.sf_compare_cases.
Qed.

Lemma SFltb_irrefl : forall x : spec_float, SFltb x x = false.
Proof.
  intros [ sx | [ | ] | | [ | ] mx ex ]; FloatFacts.sf_compare_cases.
Qed.

(** A float equal to zero is not above a float that is not negative. *)
Lemma SFeqb_zero_not_above :
  forall x a : spec_float,
    SFeqb x (S754_zero false) = true -> sf_nonneg a = true -> SFltb a x = false.
Proof.
  intros [ sx | [ | ] | | [ | ] mx ex ] [ sa | [ | ] | | [ | ] ma ea ];
    unfold SFeqb; FloatFacts.sf_compare_cases.
Qed.

Local Open Scope float_scope.

Lemma ltb_leb_trans :
  forall x y z : float, (x <? y) = true -> (y <=? z) = true -> (x <? z) = true.
Proof.
  intros x y z. rewrite !ltb_spec, leb_spec. apply SFltb_leb_trans.
Qed.

Lemma leb_ltb_trans :
  forall x y z : float, (x <=? y) = true -> (y <? z) = true -> (x <? z) = true.
Proof.
  intros x y z. rewrite !ltb_spec, leb_spec. apply SFleb_ltb_trans.
Qed.

Lemma ltb_irrefl : forall x : float, (x <? x) = false.
Proof.
  intros x. rewrite ltb_spec. apply SFltb_irrefl.
Qed.

(** [a < x] excludes [x < b] when [b <= a]. *)
Lemma above_not_below :
  forall a b x : float,
    (b <=? a) = true -> (a <? x) = true -> (x <? b) = false.
Proof.
  intros a b x Hba Hax.
  destruct (x <? b) eqn:Hxb; [ exfalso | reflexivity ].
  pose proof (ltb_leb_trans _ _ _ Hxb Hba) as Hxa.
  pose proof (leb_ltb_trans _ _ _ (FloatFacts.ltb_leb _ _ Hxa) Hax) as Hxx.
  rewrite ltb_irrefl in Hxx. discriminate Hxx.
Qed.

(** A float above a float that is not negative is true in a condition. *)
Lemma above_truthy :
  forall a x : float,
    (0 <=? a) = true -> (a <? x) = true -> PyNum.truthy x = true.
Proof.
  intros a x Ha Hax. unfold PyNum.truthy.
  destruct (x =? 0) eqn:Hx0; [ exfalso | reflexivity ].
  rewrite eqb_spec in Hx0. apply FloatFacts.leb_zero_nonneg in Ha.
  rewrite ltb_spec in Hax.
  change (Prim2SF 0) with (S754_zero false) in Hx0.
  rewrite (SFeqb_zero_not_above _ _ Hx0 Ha) in Hax. discriminate Hax.
Qed.

End FloatOrder.

(** ** The guard of the CME arrival estimator *)

(** The guard [not cme_speed or cme_speed < 200]. *)
Lemma predict_cme_arrival_guarded :
  forall (cme_speed : float) (detection_time : string),
    negb (PyNum.truthy cme_speed) || (cme_speed <? 200)%float = true ->
    F.predict_cme_arrival cme_speed detection_time =
      Ok (F.NotEarthDirected None 0 "CME not Earth-directed or too slow").
Proof.
  intros cme_speed detection_time Hguard.
  unfold F.predict_cme_arrival. rewrite Hguard. reflexivity.
Qed.

(** Past the guard the estimator returns an estimate or raises. *)
Lemma predict_cme_arrival_unguarded :
  forall (cme_speed : float) (detection_time : string) (a : F.cme_arrival),
    negb (PyNum.truthy cme_speed) || (cme_speed <? 200)%float = false ->
    F.predict_cme_arrival cme_speed detection_time = Ok a ->
    exists d arrival,
      PyDatetime.fromisoformat (PyStr.replace_char "Z" "+00:00" detection_time) = Some d /\
      arrival_of d cme_speed = Ok arrival /\
      a = F.Arrival
            {| F.detection_time := detection_time;
               F.cme_speed := cme_speed;
               F.estimated_arrival := arrival;
               F.arrival_window :=
                 ((150000000 / (cme_speed * 3600) - 6)%float,
                  (150000000 / (cme_speed * 3600) + 6)%float);
               F.impact_probability :=
                 PyNum.py_round 2 (PyNum.pymin ((cme_speed / 2000) * 0.8) 0.95)%float;
               F.arrival_severity :=
                 if PyNum.ge cme_speed 1000 then "high" else "moderate";
               F.warnings :=
                 if PyNum.ge cme_speed 1000 then
                   [ "Geomagnetic storm expected";
                     "Satellite operations may be affected";
                     "Aurora visible at lower latitudes" ]
                 else
                   [ "Minor geomagnetic activity possible";
                     "Aurora may be visible at high latitudes" ] |}.
Proof.
  intros cme_speed detection_time a Hguard Ha.
  unfold F.predict_cme_arrival in Ha. rewrite Hguard in Ha.
  destruct (PyDatetime.fromisoformat (PyStr.replace_char "Z" "+00:00" detection_time))
    as [ d | ]; [ | discriminate Ha ].
  destruct (PyDatetime.timedelta_hours (150000000 / (cme_speed * 3600))%float)
    as [ delta | ex ] eqn:Hdelta; cbn [bind] in Ha; [ | discriminate Ha ].
  destruct (PyDatetime.add_timedelta d delta) as [ arrival | ex ] eqn:Hadd;
    cbn [bind] in Ha; [ | discriminate Ha ].
  injection Ha as <-. exists d, arrival.
  split; [ reflexivity | ]. split; [ | reflexivity ].
  unfold arrival_of. rewrite Hdelta. cbn [bind]. exact Hadd.
Qed.

(** A speed above 500 km/s passes the guard. *)
Lemma fast_passes_guard :
  forall s : float,
    (500 <? s)%float = true ->
    negb (PyNum.truthy s) || (s <? 200)%float = false.
Proof.
  intros s Hs.
  rewrite (FloatOrder.above_truthy 500 s) by (try exact Hs; vm_compute; reflexivity).
  rewrite (FloatOrder.above_not_below 500 200 s) by (try exact Hs; vm_compute; reflexivity).
  reflexivity.
Qed.

(** X7: the estimator returns the result "not Earth-directed", of impact
    probability 0, exactly for a speed that is zero or below 200 km/s, and
    then whatever the detection time is, parseable or not; for any other
    speed it returns an estimate that keeps the speed and the detection
    time, or raises. *)
Theorem cme_arrival_guard :
  forall (cme_speed : float) (detection_time : string),
    (negb (PyNum.truthy cme_speed) || (cme_speed <? 200)%float = true ->
     F.predict_cme_arrival cme_speed detection_time =
       Ok (F.NotEarthDirected None 0 "CME not Earth-directed or too slow")) /\
    (negb (PyNum.truthy cme_speed) || (cme_speed <? 200)%float = false ->
     forall a, F.predict_cme_arrival cme_speed detection_time = Ok a ->
       exists e, a = F.Arrival e /\ F.cme_speed e = cme_speed /\
                 F.detection_time e = detection_time /\
                 PyDatetime.fromisoformat
                   (PyStr.replace_char "Z" "+00:00" detection_time) <> None).
Proof.
  intros cme_speed detection_time. split.
  - apply predict_cme_arrival_guarded.
  - intros Hguard a Ha.
    destruct (predict_cme_arrival_unguarded _ _ _ Hguard Ha) as [d [arr [Hd [_ ->]]]].
    eexists. repeat apply conj; try reflexivity.
    rewrite Hd. discriminate.
Qed.

Lemma cme_arrival_guard_witness :
  F.predict_cme_arrival 150 "not a timestamp" =
    Ok (F.NotEarthDirected None 0 "CME not Earth-directed or too slow").
Proof.
  apply (cme_arrival_guard 150 "not a timestamp"). vm_compute. reflexivity.
Defined.

(** ** The CME arrival in the comprehensive prediction *)

Lemma fast_cme_filter :
  forall cme_events : list cme,
    existsb (fun c => PyNum.gt (P.speed_of c) 1000) (filter P.has_speed cme_events) =
    existsb (faster_than 1000) cme_events.
Proof.
  induction cme_events as [ | c rest IH ]; [ reflexivity | ].
  cbn [filter existsb]. unfold faster_than at 1.
  destruct (P.has_speed c); cbn [existsb andb orb]; rewrite IH; reflexivity.
Qed.

Lemma comprehensive_arrival_cases :
  forall (A B : Type) (now : P.clock) (recent_flares : list flare)
         (cme_events : list cme) (solar_wind : list A) (xray_flux : list B)
         (kp_index : list row) (c : P.comprehensive),
    P.get_comprehensive_predictions now recent_flares cme_events solar_wind
      xray_flux kp_index = Ok c ->
    match P.cme_arrival (P.all_predictions c) with
    | None => filter (faster_than 500) cme_events = []
    | Some (F.Arrival e) =>
        exists earlier latest,
          filter (faster_than 500) cme_events = (earlier ++ [latest])%list /\
          F.cme_speed e = P.speed_of latest /\
          F.detection_time e = get (startTime latest) ""
    | Some (F.NotEarthDirected _ _ _) => False
    end.
Proof.
  intros A B now recent_flares cme_events solar_wind xray_flux kp_index c Hc.
  unfold P.get_comprehensive_predictions in Hc.
  destruct (F.predict_geomagnetic_storm _ _ _) as [ g | ex ];
    cbn [bind] in Hc; [ | discriminate Hc ].
  fold (faster_than 500) in Hc.
  destruct (rev (filter (faster_than 500) cme_events)) as [ | latest others ] eqn:Hrev.
  - cbn [bind] in Hc. injection Hc as <-. cbn [P.cme_arrival P.all_predictions].
    apply (f_equal (@rev cme)) in Hrev. rewrite rev_involutive in Hrev. exact Hrev.
  - destruct (F.predict_cme_arrival (P.speed_of latest) (get (startTime latest) ""))
      as [ a | ex ] eqn:Ha; cbn [bind] in Hc; [ | discriminate Hc ].
    injection Hc as <-. cbn [P.cme_arrival P.all_predictions].
    assert (Hlist : filter (faster_than 500) cme_events = (rev others ++ [latest])%list).
    { apply (f_equal (@rev cme)) in Hrev. rewrite rev_involutive in Hrev. exact Hrev. }
    assert (Hfast : faster_than 500 latest = true).
    { assert (Hin : In latest (filter (faster_than 500) cme_events))
        by (rewrite Hlist; apply in_or_app; right; left; reflexivity).
      apply filter_In in Hin. apply Hin. }
    unfold faster_than in Hfast. apply andb_prop in Hfast. destruct Hfast as [_ Hgt].
    destruct (predict_cme_arrival_unguarded _ _ _ (fast_passes_guard _ Hgt) Ha)
      as [d [arr [_ [_ ->]]]].
    exists (rev others), latest. repeat apply conj; try reflexivity. exact Hlist.
Qed.

(** X8: in a comprehensive prediction the CME arrival is absent exactly
    when no CME has a speed above 500 km/s; otherwise it is an estimate for
    the last such CME of the feed, never the result "not Earth-directed":
    the guard of the estimator is unreachable from the aggregator. *)
Theorem comprehensive_cme_arrival :
  forall (A B : Type) (now : P.clock) (recent_flares : list flare)
         (cme_events : list cme) (solar_wind : list A) (xray_flux : list B)
         (kp_index : list row) (c : P.comprehensive),
    P.get_comprehensive_predictions now recent_flares cme_events solar_wind
      xray_flux kp_index = Ok c ->
    match P.cme_arrival (P.all_predictions c) with
    | None => filter (faster_than 500) cme_events = []
    | Some (F.Arrival e) =>
        exists earlier latest,
          filter (faster_than 500) cme_events = (earlier ++ [latest])%list /\
          F.cme_speed e = P.speed_of latest /\
          F.detection_time e = get (startTime latest) ""
    | Some (F.NotEarthDirected _ _ _) => False
    end.
Proof.
  exact comprehensive_arrival_cases.
Qed.

Lemma comprehensive_cme_arrival_witness :
  filter (faster_than 500)
    [ {| speed := Some 450%float; activityID := None;
         startTime := Some "2025-11-04T12:00Z" |} ] = [].
Proof.
  exact (comprehensive_cme_arrival row row
    {| P.now_flare := "2025-11-05T00:05:00"; P.now_geomag := "2025-11-05T00:05:01";
       P.now_radiation := "2025-11-05T00:05:02" |}
    [] [ {| speed := Some 450%float; activityID := None;
            startTime := Some "2025-11-04T12:00Z" |} ]
    sample_wind [] [] _ eq_refl).
Defined.

(** X9: in a comprehensive prediction over a non-empty Kp history the storm
    probability is 0.85 exactly when some CME of the feed has a speed above
    1000 km/s, and such a CME always comes with a CME arrival estimate. *)
Theorem comprehensive_fast_cme :
  forall (A B : Type) (now : P.clock) (recent_flares : list flare)
         (cme_events : list cme) (solar_wind : list A) (xray_flux : list B)
         (kp_index : list row) (c : P.comprehensive),
    P.get_comprehensive_predictions now recent_flares cme_events solar_wind
      xray_flux kp_index = Ok c ->
    kp_index <> [] ->
    (F.storm_probability (P.geomagnetic_storm (P.all_predictions c)) = 0.85%float <->
     existsb (faster_than 1000) cme_events = true) /\
    (existsb (faster_than 1000) cme_events = true ->
     P.cme_arrival (P.all_predictions c) <> None).
Proof.
  intros A B now recent_flares cme_events solar_wind xray_flux kp_index c Hc Hkp.
  pose proof (comprehensive_arrival_cases _ _ _ _ _ _ _ _ _ Hc) as Harrival.
  unfold P.get_comprehensive_predictions in Hc.
  rewrite fast_cme_filter in Hc.
  destruct (F.predict_geomagnetic_storm (P.now_geomag now) kp_index
              (existsb (faster_than 1000) cme_events)) as [ g | ex ] eqn:Hg;
    cbn [bind] in Hc; [ | discriminate Hc ].
  destruct (storm_probability_cases _ _ _ _ Hg) as [_ [Hcme [Hquiet _]]].
  assert (Hgc : P.geomagnetic_storm (P.all_predictions c) = g).
  { destruct (match rev (filter _ cme_events) with [] => _ | _ :: _ => _ end)
      as [ a | ex ]; cbn [bind] in Hc; [ | discriminate Hc ].
    injection Hc as <-. reflexivity. }
  rewrite Hgc. split.
  - destruct (existsb (faster_than 1000) cme_events) eqn:Hfast.
    + split; [ reflexivity | intros _; apply Hcme; [ exact Hkp | reflexivity ] ].
    + split; [ | discriminate ].
      intros H85. exfalso.
      destruct (Hquiet Hkp eq_refl) as [H | H]; rewrite H in H85;
        float_discriminate H85.
  - intros Hfast Hnone. rewrite Hnone in Harrival.
    apply existsb_exists in Hfast. destruct Hfast as [x [Hin Hx]].
    assert (Hx500 : faster_than 500 x = true).
    { unfold faster_than in *. apply andb_prop in Hx. destruct Hx as [Hs Hgt].
      rewrite Hs. cbn [andb]. unfold PyNum.gt in *.
      apply (FloatOrder.leb_ltb_trans 500 1000); [ vm_compute; reflexivity | exact Hgt ]. }
    assert (Hin' : In x (filter (faster_than 500) cme_events))
      by (apply filter_In; split; assumption).
    rewrite Harrival in Hin'. destruct Hin'.
Qed.

Lemma comprehensive_fast_cme_witness :
  exists c,
    P.get_comprehensive_predictions
      {| P.now_flare := "2025-11-05T00:05:00"; P.now_geomag := "2025-11-05T00:05:01";
         P.now_radiation := "2025-11-05T00:05:02" |}
      [] [ {| speed := Some 1450%float; activityID := None;
              startTime := Some "2025-11-04T12:00Z" |} ]
      sample_wind (@nil row) (kp_345 "a" "b" "c") = Ok c /\
    F.storm_probability (P.geomagnetic_storm (P.all_predictions c)) = 0.85%float /\
    P.cme_arrival (P.all_predictions c) <> None.
Proof.
  destruct (P.get_comprehensive_predictions
      {| P.now_flare := "2025-11-05T00:05:00"; P.now_geomag := "2025-11-05T00:05:01";
         P.now_radiation := "2025-11-05T00:05:02" |}
      [] [ {| speed := Some 1450%float; activityID := None;
              startTime := Some "2025-11-04T12:00Z" |} ]
      sample_wind (@nil row) (kp_345 "a" "b" "c")) as [ c | ex ] eqn:Hc;
    [ | vm_compute in Hc; discriminate Hc ].
  exists c. split; [ reflexivity | ].
  assert (Hkp : kp_345 "a" "b" "c" <> []) by discriminate.
  destruct (comprehensive_fast_cme _ _ _ _ _ _ _ _ _ Hc Hkp) as [Hprob Harr].
  split; [ apply Hprob | apply Harr ]; vm_compute; reflexivity.
Defined.

(** The geomagnetic scorer returns when the cells it converts are numeric. *)
Lemma predict_geomagnetic_storm_numeric :
  forall (utcnow : string) (kp_history : list row) (cme_incoming : bool)
         (vs : list float),
    F.kp_values (F.last_n 5 kp_history) = Ok vs ->
    exists p, F.predict_geomagnetic_storm utcnow kp_history cme_incoming = Ok p.
Proof.
  intros utcnow kp_history cme_incoming vs Hvs.
  destruct (predict_geomagnetic_storm_cases utcnow kp_history cme_incoming)
    as [Hraise | Hok]; [ exfalso | exact Hok ].
  unfold F.predict_geomagnetic_storm in Hraise.
  destruct kp_history as [ | r rest ]; [ discriminate Hraise | ].
  rewrite Hvs in Hraise. cbn [bind] in Hraise.
  destruct cme_incoming;
    repeat match type of Hraise with
           | context [if ?b then _ else _] => destruct b
           end; discriminate Hraise.
Qed.

(** X10: when no CME of the feed has a speed above 500 km/s (in particular
    when the CME feed is empty) and the Kp cells of the last five rows are
    numeric (in particular when the Kp feed is empty), the comprehensive
    prediction returns, with status "success", no CME arrival and the
    timestamp of the flare prediction. *)
Theorem comprehensive_without_fast_cme :
  forall (A B : Type) (now : P.clock) (recent_flares : list flare)
         (cme_events : list cme) (solar_wind : list A) (xray_flux : list B)
         (kp_index : list row) (vs : list float),
    filter (faster_than 500) cme_events = [] ->
    F.kp_values (F.last_n 5 kp_index) = Ok vs ->
    exists c,
      P.get_comprehensive_predictions now recent_flares cme_events solar_wind
        xray_flux kp_index = Ok c /\
      P.status c = "success" /\
      P.generated_at c = P.now_flare now /\
      P.cme_arrival (P.all_predictions c) = None /\
      P.solar_flares (P.all_predictions c) =
        F.predict_flare_probability (P.now_flare now) recent_flares solar_wind xray_flux /\
      P.radiation_storm (P.all_predictions c) =
        R.predict_radiation_storm (P.now_radiation now) recent_flares.
Proof.
  intros A B now recent_flares cme_events solar_wind xray_flux kp_index vs Hslow Hvs.
  unfold P.get_comprehensive_predictions.
  destruct (predict_geomagnetic_storm_numeric (P.now_geomag now) kp_index
              (existsb (fun c => PyNum.gt (P.speed_of c) 1000)
                 (filter P.has_speed cme_events)) vs Hvs) as [g Hg].
  rewrite Hg. cbn [bind].
  fold (faster_than 500). rewrite Hslow. cbn [rev bind].
  eexists. split; [ reflexivity | ]. repeat apply conj; reflexivity.
Qed.

Lemma comprehensive_without_fast_cme_witness :
  exists c,
    P.get_comprehensive_predictions
      {| P.now_flare := "2025-11-05T00:05:00"; P.now_geomag := "2025-11-05T00:05:01";
         P.now_radiation := "2025-11-05T00:05:02" |}
      [sample_flare "M5.2"] [] sample_wind (@nil row) [] = Ok c /\
    P.status c = "success" /\
    P.generated_at c = "2025-11-05T00:05:00" /\
    P.cme_arrival (P.all_predictions c) = None /\
    P.solar_flares (P.all_predictions c) =
      F.predict_flare_probability "2025-11-05T00:05:00" [sample_flare "M5.2"]
        sample_wind (@nil row) /\
    P.radiation_storm (P.all_predictions c) =
      R.predict_radiation_storm "2025-11-05T00:05:02" [sample_flare "M5.2"].
Proof.
  apply (comprehensive_without_fast_cme row row
    {| P.now_flare := "2025-11-05T00:05:00"; P.now_geomag := "2025-11-05T00:05:01";
       P.now_radiation := "2025-11-05T00:05:02" |}
    [sample_flare "M5.2"] [] sample_wind [] [] []); reflexivity.
Defined.

(** * Further properties of the alert synthesizer *)

Lemma mem_high_extreme :
  forall s : string,
    PyStr.mem s ["high"; "extreme"] = true -> s = "high" \/ s = "extreme".
Proof.
  intros s H. unfold PyStr.mem in H. cbn [existsb] in H.
  destruct (String.eqb s "high") eqn:Hhigh;
    [ left; apply String.eqb_eq; exact Hhigh | ].
  destruct (String.eqb s "extreme") eqn:Hextreme;
    [ right; apply String.eqb_eq; exact Hextreme | ].
  discriminate H.
Qed.

(** The type and the severity of a collected alert. *)
Lemma collected_alert_severity :
  forall flares cme_events storms radiation a,
    In a (Alerts.collect_alerts flares cme_events storms radiation) ->
    (Alerts.type a = "solar_flare" /\
     (Alerts.severity a = "high" \/ Alerts.severity a = "extreme")) \/
    (Alerts.type a = "cme" /\
     (Alerts.severity a = "high" \/ Alerts.severity a = "extreme")) \/
    (Alerts.type a = "geomagnetic_storm" /\ Alerts.severity a = "high") \/
    (Alerts.type a = "radiation" /\ Alerts.severity a = "moderate").
Proof.
  intros flares cme_events storms radiation a Ha.
  unfold Alerts.collect_alerts in Ha.
  apply in_app_or in Ha. destruct Ha as [Ha | Ha].
  { left. apply flare_alerts_severity in Ha. destruct Ha as [f [_ [-> Hsev]]].
    split; [ reflexivity | ]. apply mem_high_extreme. exact Hsev. }
  apply in_app_or in Ha. destruct Ha as [Ha | Ha].
  { right; left. unfold Alerts.cme_alerts in Ha. apply in_flat_map in Ha.
    destruct Ha as [c [_ Ha]].
    destruct (PyStr.mem _ _) eqn:Hsev in Ha; cbn in Ha; [ | destruct Ha ].
    destruct Ha as [<- | []]. split; [ reflexivity | ].
    apply mem_high_extreme. exact Hsev. }
  apply in_app_or in Ha. destruct Ha as [Ha | Ha].
  { right; right; left. unfold Alerts.storm_alerts in Ha. apply in_flat_map in Ha.
    destruct Ha as [s [_ Ha]].
    destruct (PyNum.ge (Alerts.storm_kp s) 7); [ | destruct (PyNum.ge (Alerts.storm_kp s) 5) ];
      cbn in Ha; try destruct Ha as [<- | []]; try destruct Ha.
    split; reflexivity. }
  right; right; right. unfold Alerts.radiation_alerts in Ha. apply in_map_iff in Ha.
  destruct Ha as [r [<- _]]. split; reflexivity.
Qed.

Lemma alert_severity_cases :
  forall (flares : list flare) (cme_events : list cme)
         (storms : list Alerts.storm) (radiation : list Alerts.radiation_event)
         (out : Alerts.active_alerts) (a : Alerts.alert),
    Alerts.get_active_alerts flares cme_events storms radiation = Ok out ->
    In a (Alerts.alerts out) ->
    ((Alerts.type a = "solar_flare" /\
      (Alerts.severity a = "high" \/ Alerts.severity a = "extreme")) \/
     (Alerts.type a = "cme" /\
      (Alerts.severity a = "high" \/ Alerts.severity a = "extreme")) \/
     (Alerts.type a = "geomagnetic_storm" /\ Alerts.severity a = "high") \/
     (Alerts.type a = "radiation" /\ Alerts.severity a = "moderate")) /\
    Alerts.severity a <> "low" /\ Alerts.severity a <> "unknown" /\
    Alerts.source a = "NASA DONKI".
Proof.
  intros flares cme_events storms radiation out a Hout Ha.
  apply (Permutation_in _ (get_active_alerts_perm _ _ _ _ _ Hout)) in Ha.
  pose proof (collected_alert_severity _ _ _ _ _ Ha) as Hsev.
  split; [ exact Hsev | ].
  assert (Hsrc : Alerts.source a = "NASA DONKI").
  { unfold Alerts.collect_alerts in Ha.
    repeat (apply in_app_or in Ha; destruct Ha as [Ha | Ha]).
    - apply flare_alerts_severity in Ha. destruct Ha as [f [_ [-> _]]]. reflexivity.
    - unfold Alerts.cme_alerts in Ha. apply in_flat_map in Ha.
      destruct Ha as [c [_ Ha]].
      destruct (PyStr.mem _ _) in Ha; cbn in Ha; [ | destruct Ha ].
      destruct Ha as [<- | []]. reflexivity.
    - unfold Alerts.storm_alerts in Ha. apply in_flat_map in Ha.
      destruct Ha as [s [_ Ha]].
      destruct (PyStr.mem _ _) in Ha; cbn in Ha; [ | destruct Ha ].
      destruct Ha as [<- | []]. reflexivity.
    - unfold Alerts.radiation_alerts in Ha. apply in_map_iff in Ha.
      destruct Ha as [r [<- _]]. reflexivity. }
  destruct Hsev as [[_ [H | H]] | [[_ [H | H]] | [[_ H] | [_ H]]]]; rewrite H;
    repeat apply conj; try discriminate; exact Hsrc.
Qed.

(** X11: every alert of a response is a flare or CME alert of severity
    "high" or "extreme", a geomagnetic storm alert of severity "high", or a
    radiation alert of severity "moderate": no alert has the severity "low"
    or "unknown", and a geomagnetic storm alert is never "extreme". *)
Theorem active_alerts_severities :
  forall (flares : list flare) (cme_events : list cme)
         (storms : list Alerts.storm) (radiation : list Alerts.radiation_event)
         (out : Alerts.active_alerts) (a : Alerts.alert),
    Alerts.get_active_alerts flares cme_events storms radiation = Ok out ->
    In a (Alerts.alerts out) ->
    ((Alerts.type a = "solar_flare" /\
      (Alerts.severity a = "high" \/ Alerts.severity a = "extreme")) \/
     (Alerts.type a = "cme" /\
      (Alerts.severity a = "high" \/ Alerts.severity a = "extreme")) \/
     (Alerts.type a = "geomagnetic_storm" /\ Alerts.severity a = "high") \/
     (Alerts.type a = "radiation" /\ Alerts.severity a = "moderate")) /\
    Alerts.severity a <> "low" /\ Alerts.severity a <> "unknown" /\
    Alerts.source a = "NASA DONKI".
Proof.
  exact alert_severity_cases.
Qed.

Lemma active_alerts_severities_witness :
  Alerts.severity (Alerts.radiation_alert sample_radiation_event) <> "low" /\
  Alerts.severity (Alerts.flare_alert (sample_flare "X2.1") "extreme") <> "unknown".
Proof.
  destruct (Alerts.get_active_alerts [sample_flare "C1.0"; sample_flare "X2.1"] [] []
              [sample_radiation_event]) as [ out | ex ] eqn:Hout;
    [ | vm_compute in Hout; discriminate Hout ].
  split.
  - apply (active_alerts_severities _ _ _ _ out _ Hout).
    vm_compute in Hout. injection Hout as <-. left. reflexivity.
  - apply (active_alerts_severities _ _ _ _ out _ Hout).
    vm_compute in Hout. injection Hout as <-. right. left. reflexivity.
Defined.

(** ** The order of the alerts *)

Lemma key_geb_total :
  forall a b : Alerts.alert, Alerts.key_geb a b = false -> Alerts.key_geb b a = true.
Proof.
  intros a b. unfold Alerts.key_geb.
  destruct (Alerts.timestamp a) as [ x | ]; destruct (Alerts.timestamp b) as [ y | ];
    try discriminate.
  intros Hxy. destruct (String.leb_total x y) as [H | H]; [ exact H | ].
  rewrite H in Hxy. discriminate Hxy.
Qed.

Lemma insert_desc_sorted :
  forall (x : Alerts.alert) (l : list Alerts.alert),
    Sorted timestamp_geb l -> Sorted timestamp_geb (Alerts.insert_desc x l).
Proof.
  intros x l Hsorted. induction l as [ | y rest IH ]; cbn [Alerts.insert_desc].
  - repeat constructor.
  - destruct (Alerts.key_geb x y) eqn:Hxy.
    + constructor; [ exact Hsorted | constructor; exact Hxy ].
    + apply Sorted_inv in Hsorted. destruct Hsorted as [Hrest Hhd].
      constructor; [ apply IH; exact Hrest | ].
      destruct rest as [ | z rest' ]; cbn [Alerts.insert_desc].
      * constructor. apply key_geb_total. exact Hxy.
      * destruct (Alerts.key_geb x z).
        -- constructor. apply key_geb_total. exact Hxy.
        -- apply HdRel_inv in Hhd. constructor. exact Hhd.
Qed.

Lemma sort_desc_sorted :
  forall l : list Alerts.alert, Sorted timestamp_geb (Alerts.sort_desc l).
Proof.
  induction l as [ | x rest IH ]; cbn.
  - constructor.
  - apply insert_desc_sorted. exact IH.
Qed.

Lemma active_alerts_order :
  forall (flares : list flare) (cme_events : list cme)
         (storms : list Alerts.storm) (radiation : list Alerts.radiation_event)
         (out : Alerts.active_alerts),
    Alerts.get_active_alerts flares cme_events storms radiation = Ok out ->
    Sorted timestamp_geb (Alerts.alerts out) /\
    Alerts.count out = length (Alerts.alerts out) /\
    Alerts.count out =
      length (Alerts.collect_alerts flares cme_events storms radiation) /\
    Alerts.status out = "success" /\
    ((2 <= Alerts.count out)%nat ->
     forall a, In a (Alerts.alerts out) -> Alerts.timestamp a <> None).
Proof.
  intros flares cme_events storms radiation out Hout.
  pose proof (get_active_alerts_perm _ _ _ _ _ Hout) as Hperm.
  unfold Alerts.get_active_alerts, Alerts.sort_alerts in Hout.
  destruct ((2 <=? length (Alerts.collect_alerts flares cme_events storms radiation))%nat
            && existsb Alerts.has_no_key
                 (Alerts.collect_alerts flares cme_events storms radiation)) eqn:Hkeys;
    cbn [bind] in Hout; [ discriminate Hout | ].
  injection Hout as <-. cbn [Alerts.alerts Alerts.count Alerts.status] in *.
  split; [ apply sort_desc_sorted | ].
  split; [ reflexivity | ].
  split; [ apply Permutation_length; exact Hperm | ].
  split; [ reflexivity | ].
  intros Htwo a Ha Hnone.
  rewrite (Permutation_length Hperm) in Htwo.
  apply Nat.leb_le in Htwo. rewrite Htwo in Hkeys. cbn [andb] in Hkeys.
  apply (Permutation_in _ Hperm) in Ha.
  assert (Hex : existsb Alerts.has_no_key
                  (Alerts.collect_alerts flares cme_events storms radiation) = true).
  { apply existsb_exists. exists a. split; [ exact Ha | ].
    unfold Alerts.has_no_key. rewrite Hnone. reflexivity. }
  rewrite Hex in Hkeys. discriminate Hkeys.
Qed.

(** X12: in a response the alerts are in descending order of their
    timestamps, compared as strings: each alert's timestamp is at least the
    next one's; the count is the number of alerts, which is the number of
    alerts collected; two or more alerts all have a timestamp. *)
Theorem active_alerts_sorted :
  forall (flares : list flare) (cme_events : list cme)
         (storms : list Alerts.storm) (radiation : list Alerts.radiation_event)
         (out : Alerts.active_alerts),
    Alerts.get_active_alerts flares cme_events storms radiation = Ok out ->
    Sorted timestamp_geb (Alerts.alerts out) /\
    Alerts.count out = length (Alerts.alerts out) /\
    Alerts.count out =
      length (Alerts.collect_alerts flares cme_events storms radiation) /\
    Alerts.status out = "success" /\
    ((2 <= Alerts.count out)%nat ->
     forall a, In a (Alerts.alerts out) -> Alerts.timestamp a <> None).
Proof.
  exact active_alerts_order.
Qed.

Lemma active_alerts_sorted_witness :
  exists out,
    Alerts.get_active_alerts [sample_flare "C1.0"; sample_flare "X2.1"] [] []
      [sample_radiation_event] = Ok out /\
    Sorted timestamp_geb (Alerts.alerts out) /\
    Alerts.count out = 2%nat.
Proof.
  destruct (Alerts.get_active_alerts [sample_flare "C1.0"; sample_flare "X2.1"] [] []
              [sample_radiation_event]) as [ out | ex ] eqn:Hout;
    [ | vm_compute in Hout; discriminate Hout ].
  exists out. split; [ reflexivity | ].
  destruct (active_alerts_sorted _ _ _ _ out Hout) as [Hsorted [_ [Hcount _]]].
  split; [ exact Hsorted | ]. rewrite Hcount. reflexivity.
Defined.

(** ** The summary of the alerts *)

Lemma count_severity_perm :
  forall (s : string) (l l' : list Alerts.alert),
    Permutation l l' -> Alerts.count_severity s l = Alerts.count_severity s l'.
Proof.
  intros s l l' Hperm. unfold Alerts.count_severity.
  induction Hperm as [ | x l l' _ IH | x y l | l l' l'' _ IH1 _ IH2 ]; cbn [filter].
  - reflexivity.
  - destruct (String.eqb (Alerts.severity x) s); cbn [length]; rewrite IH; reflexivity.
  - destruct (String.eqb (Alerts.severity x) s);
      destruct (String.eqb (Alerts.severity y) s); reflexivity.
  - rewrite IH1. exact IH2.
Qed.

Lemma count_severity_app :
  forall (s : string) (l l' : list Alerts.alert),
    Alerts.count_severity s (l ++ l') =
    (Alerts.count_severity s l + Alerts.count_severity s l')%nat.
Proof.
  intros s l l'. unfold Alerts.count_severity.
  rewrite filter_app, length_app. reflexivity.
Qed.

Lemma count_severity_none :
  forall (s : string) (l : list Alerts.alert),
    (forall a, In a l -> Alerts.severity a <> s) -> Alerts.count_severity s l = 0%nat.
Proof.
  intros s l Hnone. unfold Alerts.count_severity.
  induction l as [ | a rest IH ]; [ reflexivity | ].
  cbn [filter].
  destruct (String.eqb_spec (Alerts.severity a) s) as [Heq | _].
  - exfalso. apply (Hnone a); [ left; reflexivity | exact Heq ].
  - apply IH. intros b Hb. apply Hnone. right. exact Hb.
Qed.

Lemma count_severity_total :
  forall l : list Alerts.alert,
    (forall a, In a l ->
       Alerts.severity a = "extreme" \/ Alerts.severity a = "high" \/
       Alerts.severity a = "moderate") ->
    length l =
      (Alerts.count_severity "extreme" l + Alerts.count_severity "high" l +
       Alerts.count_severity "moderate" l)%nat.
Proof.
  intros l Hsev. unfold Alerts.count_severity.
  induction l as [ | a rest IH ]; [ reflexivity | ].
  cbn [filter length].
  rewrite IH by (intros b Hb; apply Hsev; right; exact Hb).
  destruct (Hsev a (or_introl eq_refl)) as [H | [H | H]]; rewrite H; cbn; lia.
Qed.

(** X13: in a summary the total is the sum of the extreme, high and
    moderate counts, the low count is zero, and the moderate count is the
    number of radiation events; the summary is computed whenever the active
    alerts are. *)
Theorem alerts_summary_counts :
  forall (flares : list flare) (cme_events : list cme)
         (storms : list Alerts.storm) (radiation : list Alerts.radiation_event),
    (forall s,
       Alerts.get_alerts_summary flares cme_events storms radiation = Ok s ->
       Alerts.total s = (Alerts.extreme s + Alerts.high s + Alerts.moderate s)%nat /\
       Alerts.low s = 0%nat /\
       Alerts.moderate s = length radiation) /\
    (forall out,
       Alerts.get_active_alerts flares cme_events storms radiation = Ok out ->
       exists s,
         Alerts.get_alerts_summary flares cme_events storms radiation = Ok s /\
         Alerts.total s = Alerts.count out).
Proof.
  intros flares cme_events storms radiation. split.
  - intros s Hs. unfold Alerts.get_alerts_summary in Hs.
    destruct (Alerts.get_active_alerts flares cme_events storms radiation)
      as [ out | ex ] eqn:Hout; cbn [bind] in Hs; [ | discriminate Hs ].
    injection Hs as <-.
    cbn [Alerts.total Alerts.extreme Alerts.high Alerts.moderate Alerts.low].
    pose proof (get_active_alerts_perm _ _ _ _ _ Hout) as Hperm.
    assert (Hsev : forall a, In a (Alerts.alerts out) ->
              (Alerts.severity a = "extreme" \/ Alerts.severity a = "high" \/
               Alerts.severity a = "moderate") /\ Alerts.severity a <> "low").
    { intros a Ha.
      destruct (alert_severity_cases _ _ _ _ out a Hout Ha) as [Hcases [Hlow _]].
      split; [ | exact Hlow ].
      destruct Hcases as [[_ [H | H]] | [[_ [H | H]] | [[_ H] | [_ H]]]]; tauto. }
    split; [ apply count_severity_total; intros a Ha; apply Hsev; exact Ha | ].
    split; [ apply count_severity_none; intros a Ha; apply Hsev; exact Ha | ].
    rewrite (count_severity_perm _ _ _ Hperm). unfold Alerts.collect_alerts.
    rewrite !count_severity_app.
    rewrite (count_severity_none "moderate" (Alerts.flare_alerts flares)).
    2:{ intros a Ha. apply flare_alerts_severity in Ha.
        destruct Ha as [f [_ [-> Hs]]]. cbn [Alerts.severity Alerts.flare_alert].
        apply mem_high_extreme in Hs. destruct Hs as [-> | ->]; discriminate. }
    rewrite (count_severity_none "moderate" (Alerts.cme_alerts cme_events)).
    2:{ intros a Ha. unfold Alerts.cme_alerts in Ha. apply in_flat_map in Ha.
        destruct Ha as [c [_ Ha]].
        destruct (PyStr.mem _ _) eqn:Hs in Ha; cbn in Ha; [ | destruct Ha ].
        destruct Ha as [<- | []]. cbn [Alerts.severity Alerts.cme_alert].
        apply mem_high_extreme in Hs. destruct Hs as [-> | ->]; discriminate. }
    rewrite (count_severity_none "moderate" (Alerts.storm_alerts storms)).
    2:{ intros a Ha. unfold Alerts.storm_alerts in Ha. apply in_flat_map in Ha.
        destruct Ha as [st [_ Ha]].
        destruct (PyNum.ge (Alerts.storm_kp st) 7);
          [ | destruct (PyNum.ge (Alerts.storm_kp st) 5) ];
          cbn in Ha; try destruct Ha as [<- | []]; try destruct Ha.
        discriminate. }
    cbn [Nat.add]. unfold Alerts.radiation_alerts, Alerts.count_severity.
    clear. induction radiation as [ | r rest IH ]; [ reflexivity | ].
    cbn [map filter length Alerts.severity Alerts.radiation_alert String.eqb].
    cbn. f_equal. exact IH.
  - intros out Hout. unfold Alerts.get_alerts_summary. rewrite Hout. cbn [bind].
    eexists. split; [ reflexivity | ].
    cbn [Alerts.total].
    destruct (active_alerts_order _ _ _ _ out Hout) as [_ [Hcount _]].
    symmetry. exact Hcount.
Qed.

Lemma alerts_summary_counts_witness :
  exists s,
    Alerts.get_alerts_summary [sample_flare "C1.0"; sample_flare "X2.1"] [] []
      [sample_radiation_event] = Ok s /\
    Alerts.total s = 2%nat /\ Alerts.low s = 0%nat /\ Alerts.moderate s = 1%nat.
Proof.
  destruct (Alerts.get_alerts_summary [sample_flare "C1.0"; sample_flare "X2.1"] [] []
              [sample_radiation_event]) as [ s | ex ] eqn:Hs;
    [ | vm_compute in Hs; discriminate Hs ].
  exists s. split; [ reflexivity | ].
  destruct (proj1 (alerts_summary_counts _ _ _ _) s Hs) as [Htotal [Hlow Hmod]].
  split; [ | split; [ exact Hlow | exact Hmod ] ].
  vm_compute in Hs. injection Hs as <-. reflexivity.
Defined.

(** ** The number of alerts *)

Lemma flat_map_keep_length :
  forall (A B : Type) (keep : A -> bool) (f : A -> list B) (l : list A),
    (forall x, length (f x) = if keep x then 1%nat else 0%nat) ->
    length (flat_map f l) = length (filter keep l).
Proof.
  intros A B keep f l Hf. induction l as [ | x rest IH ]; [ reflexivity | ].
  cbn [flat_map filter]. rewrite length_app, Hf, IH.
  destruct (keep x); reflexivity.
Qed.

Lemma flare_alerts_length :
  forall flares : list flare,
    length (Alerts.flare_alerts flares) = length (filter alerting_flare flares).
Proof.
  intros flares. unfold Alerts.flare_alerts.
  apply flat_map_keep_length. intros f. unfold alerting_flare.
  destruct (get (classType f) "") as [ | c rest ]; [ reflexivity | ].
  unfold Alerts.classify_flare_severity, PyStr.first_upper, PyStr.mem.
  cbn [existsb String.eqb].
  destruct (Ascii.eqb (PyStr.upper_ascii c) "X");
    destruct (Ascii.eqb (PyStr.upper_ascii c) "M");
    destruct (Ascii.eqb (PyStr.upper_ascii c) "C"); reflexivity.
Qed.

Lemma cme_alerts_length :
  forall cme_events : list cme,
    length (Alerts.cme_alerts cme_events) = length (filter alerting_cme cme_events).
Proof.
  intros cme_events. unfold Alerts.cme_alerts.
  apply flat_map_keep_length. intros c. unfold alerting_cme, P.speed_of.
  destruct (P.has_speed c); cbn [andb]; [ | reflexivity ].
  unfold Alerts.classify_cme_severity.
  destruct (PyNum.ge (get (speed c) 0%float) 2000%float) eqn:H2000.
  - replace (PyNum.ge (get (speed c) 0%float) 1000%float) with true; [ reflexivity | ].
    symmetry. unfold PyNum.ge in *.
    apply (FloatFacts.leb_trans 1000%float 2000%float); [ vm_compute; reflexivity | exact H2000 ].
  - destruct (PyNum.ge (get (speed c) 0%float) 1000%float); [ reflexivity | ].
    destruct (PyNum.ge (get (speed c) 0%float) 500%float); reflexivity.
Qed.

Lemma storm_alerts_length :
  forall storms : list Alerts.storm,
    length (Alerts.storm_alerts storms) = length (filter alerting_storm storms).
Proof.
  intros storms. unfold Alerts.storm_alerts.
  apply flat_map_keep_length. intros s. unfold alerting_storm.
  destruct (PyNum.ge (Alerts.storm_kp s) 7); [ reflexivity | ].
  destruct (PyNum.ge (Alerts.storm_kp s) 5); reflexivity.
Qed.

(** X14: the count of a response is the number of flares whose class starts
    with "X" or "M" in either case, plus the number of CMEs with a non-zero
    speed of 1000 km/s or more, plus the number of storms whose first Kp
    index is 7 or more, plus the number of radiation events: moderate CMEs
    (500 to 1000 km/s) and moderate storms (Kp 5 to 7) give no alert. *)
Theorem active_alerts_count :
  forall (flares : list flare) (cme_events : list cme)
         (storms : list Alerts.storm) (radiation : list Alerts.radiation_event)
         (out : Alerts.active_alerts),
    Alerts.get_active_alerts flares cme_events storms radiation = Ok out ->
    Alerts.count out =
      (length (filter alerting_flare flares) +
       length (filter alerting_cme cme_events) +
       length (filter alerting_storm storms) +
       length radiation)%nat.
Proof.
  intros flares cme_events storms radiation out Hout.
  destruct (active_alerts_order _ _ _ _ out Hout) as [_ [_ [Hcount _]]].
  rewrite Hcount. unfold Alerts.collect_alerts, Alerts.radiation_alerts.
  rewrite !length_app, length_map.
  rewrite flare_alerts_length, cme_alerts_length, storm_alerts_length. lia.
Qed.

Lemma active_alerts_count_witness :
  exists out,
    Alerts.get_active_alerts [sample_flare "C1.0"; sample_flare "x2.1"]
      [ {| speed := Some 700%float; activityID := None;
           startTime := Some "2025-11-04T12:00Z" |} ] []
      [sample_radiation_event] = Ok out /\
    Alerts.count out = 2%nat.
Proof.
  destruct (Alerts.get_active_alerts [sample_flare "C1.0"; sample_flare "x2.1"]
      [ {| speed := Some 700%float; activityID := None;
           startTime := Some "2025-11-04T12:00Z" |} ] []
      [sample_radiation_event]) as [ out | ex ] eqn:Hout;
    [ | vm_compute in Hout; discriminate Hout ].
  exists out. split; [ reflexivity | ].
  rewrite (active_alerts_count _ _ _ _ out Hout). vm_compute. reflexivity.
Defined.

(** * Further properties of the prediction routes *)

Lemma predict_each_estimates :
  forall (cmes : list cme) (predictions : list F.cme_arrival),
    (forall c, In c cmes -> faster_than 500 c = true) ->
    PredictionRoutes.predict_each cmes = Ok predictions ->
    Forall2 estimate_of cmes predictions.
Proof.
  induction cmes as [ | c rest IH ]; intros predictions Hfast Heach;
    cbn [PredictionRoutes.predict_each] in Heach.
  - injection Heach as <-. constructor.
  - destruct (F.predict_cme_arrival (P.speed_of c) (get (startTime c) ""))
      as [ a | ex ] eqn:Ha; cbn [bind] in Heach; [ | discriminate Heach ].
    destruct (PredictionRoutes.predict_each rest) as [ ps | ex ] eqn:Hps;
      cbn [bind] in Heach; [ | discriminate Heach ].
    injection Heach as <-.
    constructor; [ | apply IH; [ intros x Hx; apply Hfast; right; exact Hx | reflexivity ] ].
    pose proof (Hfast c (or_introl eq_refl)) as Hc.
    unfold faster_than in Hc. apply andb_prop in Hc. destruct Hc as [_ Hgt].
    destruct (predict_cme_arrival_unguarded _ _ _ (fast_passes_guard _ Hgt) Ha)
      as [d [arr [_ [_ ->]]]].
    eexists. repeat apply conj; reflexivity.
Qed.

Lemma last_n_incl :
  forall (A : Type) (n : nat) (l : list A) (x : A), In x (F.last_n n l) -> In x l.
Proof.
  intros A n l x Hx. unfold F.last_n in Hx.
  rewrite <- (firstn_skipn (length l - n) l). apply in_or_app. right. exact Hx.
Qed.

(** X15: the CME arrival route answers with the message and no prediction
    exactly when no CME has a non-zero speed above 500 km/s; otherwise its
    count is the number of predictions, at most three, and the predictions
    are arrival estimates, in feed order, for the last three such CMEs:
    none of them is the result "not Earth-directed". *)
Theorem cme_arrival_route :
  forall (cme_events : list cme) (d : PredictionRoutes.cme_arrival_data),
    PredictionRoutes.get_cme_arrival_predictions cme_events = Ok d ->
    (filter (faster_than 500) cme_events = [] ->
     PredictionRoutes.message d = Some "No Earth-directed CMEs detected recently" /\
     PredictionRoutes.count d = None /\ PredictionRoutes.predictions d = []) /\
    (filter (faster_than 500) cme_events <> [] ->
     PredictionRoutes.message d = None /\
     PredictionRoutes.count d = Some (length (PredictionRoutes.predictions d)) /\
     length (PredictionRoutes.predictions d) =
       Nat.min 3 (length (filter (faster_than 500) cme_events)) /\
     Forall2 estimate_of (F.last_n 3 (filter (faster_than 500) cme_events))
       (PredictionRoutes.predictions d)).
Proof.
  intros cme_events d Hd.
  unfold PredictionRoutes.get_cme_arrival_predictions in Hd.
  fold (faster_than 500) in Hd.
  destruct (filter (faster_than 500) cme_events) as [ | c rest ] eqn:Hfast.
  - injection Hd as <-. split; [ intros _; repeat apply conj; reflexivity | ].
    intros H; exfalso; apply H; reflexivity.
  - split; [ intros H; discriminate H | intros _ ].
    destruct (PredictionRoutes.predict_each (F.last_n 3 (c :: rest)))
      as [ ps | ex ] eqn:Hps; cbn [bind] in Hd; [ | discriminate Hd ].
    injection Hd as <-.
    cbn [PredictionRoutes.message PredictionRoutes.count PredictionRoutes.predictions].
    assert (Hest : Forall2 estimate_of (F.last_n 3 (c :: rest)) ps).
    { apply predict_each_estimates; [ | exact Hps ].
      intros x Hx. apply last_n_incl in Hx. rewrite <- Hfast in Hx.
      apply filter_In in Hx. apply Hx. }
    split; [ reflexivity | ]. split; [ reflexivity | ].
    split; [ | exact Hest ].
    rewrite <- (Forall2_length Hest). apply last_n_length.
Qed.

Lemma cme_arrival_route_witness :
  exists d,
    PredictionRoutes.get_cme_arrival_predictions
      [ {| speed := Some 450%float; activityID := None;
           startTime := Some "2025-11-04T08:00Z" |};
        {| speed := Some 1450%float; activityID := None;
           startTime := Some "2025-11-04T12:00Z" |} ] = Ok d /\
    PredictionRoutes.count d = Some 1%nat.
Proof.
  destruct (PredictionRoutes.get_cme_arrival_predictions
      [ {| speed := Some 450%float; activityID := None;
           startTime := Some "2025-11-04T08:00Z" |};
        {| speed := Some 1450%float; activityID := None;
           startTime := Some "2025-11-04T12:00Z" |} ]) as [ d | ex ] eqn:Hd;
    [ | vm_compute in Hd; discriminate Hd ].
  exists d. split; [ reflexivity | ].
  destruct (cme_arrival_route _ d Hd) as [_ Hsome].
  destruct Hsome as [_ [Hcount [Hlen _]]]; [ vm_compute; discriminate | ].
  rewrite Hcount, Hlen. reflexivity.
Defined.

(** * Bounds of the rounded probabilities *)

Module FloatBounds.

Import Rounding FloatFacts.
Local Open Scope Z_scope.

Lemma shr_m_of_loc :
  forall (m : Z) (l : location), shr_m (shr_record_of_loc m l) = m.
Proof.
  intros m [ | [ | | ] ]; reflexivity.
Qed.

(** The sign of a rounded quotient or sum is the sign it is given, whatever
    the position of the exact value between two floats. *)
Lemma binary_round_aux_nonneg_loc :
  forall (m e : Z) (l : location),
    0 <= m -> sf_nonneg (binary_round_aux prec emax false m e l) = true.
Proof.
  intros m e l Hm. unfold binary_round_aux, shr_fexp.
  rewrite shr_iter.
  set (r := Nat.iter (Z.to_nat (fexp prec emax (Zdigits2 m + e) - e)) shr_1
              (shr_record_of_loc m l)).
  assert (Hr : 0 <= shr_m r).
  { unfold r. apply iter_shr_nonneg. rewrite shr_m_of_loc. exact Hm. }
  fold (rne r). pose proof (rne_bounds r) as Hb.
  rewrite shr_iter.
  match goal with
  | |- context [Nat.iter ?k shr_1 (shr_record_of_loc (rne r) loc_Exact)] =>
      pose proof (iter_shr_nonneg k (shr_record_of_loc (rne r) loc_Exact)) as Hfinal;
      destruct (shr_m (Nat.iter k shr_1 (shr_record_of_loc (rne r) loc_Exact)))
        as [ | p | p ]
  end.
  - reflexivity.
  - match goal with |- context [if ?c then _ else _] => destruct c end; reflexivity.
  - exfalso. rewrite shr_m_of_loc in Hfinal. specialize (Hfinal ltac:(lia)). lia.
Qed.

Lemma SFdiv_nonneg :
  forall (x : spec_float) (m : positive) (e : Z),
    sf_nonneg x = true ->
    sf_nonneg (SFdiv prec emax x (S754_finite false m e)) = true.
Proof.
  intros [ sx | [ | ] | | [ | ] mx ex ] m e Hx; try discriminate Hx; cbn [SFdiv xorb].
  - reflexivity.
  - reflexivity.
  - unfold SFdiv_core_binary.
    match goal with
    | |- context [Z.div_eucl ?a ?b] =>
        pose proof (Z.div_pos a b) as Hq; unfold Z.div in Hq;
        assert (Ha : 0 <= a); [ | destruct (Z.div_eucl a b) as [q r] ]
    end.
    + match goal with |- 0 <= match ?s with _ => _ end => destruct s end;
        [ lia | apply Z.shiftl_nonneg; lia | lia ].
    + cbn [fst] in Hq. apply binary_round_aux_nonneg_loc. apply Hq; [ exact Ha | lia ].
Qed.

Local Open Scope float_scope.

Lemma div_nonneg :
  forall (x c : float) (m : positive) (e : Z),
    Prim2SF c = S754_finite false m e ->
    (0 <=? x) = true -> (0 <=? x / c) = true.
Proof.
  intros x c m e Hc Hx. apply leb_zero_nonneg in Hx. apply leb_zero_nonneg.
  rewrite div_spec, Hc. apply SFdiv_nonneg. exact Hx.
Qed.

(** A float other than NaN compares with itself. *)
Lemma leb_refl_not_nan :
  forall x : float, Prim2SF x <> S754_nan -> (x <=? x) = true.
Proof.
  intros x Hx. rewrite leb_spec.
  destruct (Prim2SF x) as [ sx | [ | ] | | [ | ] mx ex ];
    try (exfalso; apply Hx; reflexivity); sf_compare_cases.
Qed.

(** Rounding to two decimals keeps a float between 0 and a cap of [k]
    hundredths, rounded down to a float below one, between 0 and the cap. *)
Lemma py_round2_within :
  forall (cap x : float) (mc : positive) (k : nat),
    Prim2SF cap = S754_finite false mc (-53) ->
    (2 ^ 52 <= Z.pos mc)%Z ->
    (Z.pos mc * 100 < Z.of_nat k * 2 ^ 53)%Z ->
    hundredths_within cap k = true ->
    (0 <=? x) = true -> (x <=? cap) = true ->
    (0 <=? PyNum.py_round 2 x) = true /\ (PyNum.py_round 2 x <=? cap) = true.
Proof.
  intros cap x mc k Hcap Hnorm Hmc Htable H0 Hle.
  pose proof (Prim2SF_valid x) as Hvalid.
  pose proof H0 as Hx0. pose proof Hle as Hxcap.
  apply leb_zero_nonneg in H0. rewrite leb_spec, Hcap in Hle.
  unfold PyNum.py_round.
  destruct (Prim2SF x) as [ s | s | | s m e ] eqn:Hx; try (split; assumption).
  destruct s; [ discriminate H0 | ].
  pose proof (valid_mantissa_bound _ _ _ Hvalid) as Hm.
  apply SFleb_finite_inv in Hle.
  destruct (Z.leb_spec 0 e) as [Hge | Hneg]; [ lia | ].
  change (Z.to_pos (10 ^ Z.of_nat 2)) with 100%positive.
  assert (Hn : (0 <= PyNum.div_half_even (Z.pos (m * 100)) (2 ^ (- e)) <= Z.of_nat k)%Z).
  { apply div_half_even_bounds; [ lia | apply Z.pow_pos_nonneg; lia | ].
    rewrite Pos2Z.inj_mul.
    destruct Hle as [He | [-> Hle]].
    - assert (2 ^ 54 <= 2 ^ (- e))%Z by (apply Z.pow_le_mono_r; lia).
      change (2 ^ 52)%Z with 4503599627370496%Z in *.
      change (2 ^ 53)%Z with 9007199254740992%Z in *.
      change (2 ^ 54)%Z with 18014398509481984%Z in *.
      assert (Z.of_nat k * 18014398509481984 <= Z.of_nat k * 2 ^ (- e))%Z
        by (apply Z.mul_le_mono_nonneg_l; lia).
      lia.
    - change (2 ^ (- -53))%Z with 9007199254740992%Z.
      change (2 ^ 53)%Z with 9007199254740992%Z in *. lia. }
  destruct (PyNum.div_half_even (Z.pos (m * 100)) (2 ^ (- e))) as [ | n | n ].
  - change (SF2Prim (S754_zero false)) with 0. split; [ reflexivity | ].
    apply leb_trans with x; assumption.
  - unfold hundredths_within in Htable. rewrite forallb_forall in Htable.
    apply andb_prop. apply (Htable n).
    apply in_map_iff. exists (Pos.to_nat n). split; [ apply Pos2Nat.id | ].
    apply in_seq. lia.
  - lia.
Qed.

(** A product or a quotient with NaN is NaN. *)
Lemma travel_time_nan :
  forall s : float,
    Prim2SF s = S754_nan -> Prim2SF (150000000 / (s * 3600)) = S754_nan.
Proof.
  intros s Hs. rewrite div_spec, mul_spec, Hs. reflexivity.
Qed.

End FloatBounds.

(** ** The impact probability of a CME *)

Lemma estimate_speed_not_nan :
  forall (d : PyDatetime.datetime) (cme_speed : float) (arrival : PyDatetime.datetime),
    arrival_of d cme_speed = Ok arrival -> Prim2SF cme_speed <> S754_nan.
Proof.
  intros d cme_speed arrival Harr Hnan. unfold arrival_of in Harr.
  unfold PyDatetime.timedelta_hours in Harr.
  rewrite (FloatBounds.travel_time_nan cme_speed Hnan) in Harr.
  cbn [bind] in Harr. discriminate Harr.
Qed.

Lemma impact_probability_within :
  forall cme_speed : float,
    (200 <=? cme_speed)%float = true ->
    (0 <=? PyNum.py_round 2 (PyNum.pymin ((cme_speed / 2000) * 0.8) 0.95))%float = true /\
    (PyNum.py_round 2 (PyNum.pymin ((cme_speed / 2000) * 0.8) 0.95) <=? 0.95)%float = true.
Proof.
  intros cme_speed H200.
  assert (H0 : (0 <=? cme_speed)%float = true).
  { apply FloatFacts.leb_trans with 200%float; [ vm_compute; reflexivity | exact H200 ]. }
  assert (Hq : (0 <=? cme_speed / 2000)%float = true).
  { apply (FloatBounds.div_nonneg _ 2000 8796093022208000 (-42));
      [ vm_compute; reflexivity | exact H0 ]. }
  assert (Hp : (0 <=? cme_speed / 2000 * 0.8)%float = true).
  { apply (FloatFacts.mul_nonneg _ 0.8 7205759403792794 (-53));
      [ vm_compute; reflexivity | exact Hq ]. }
  apply (FloatBounds.py_round2_within 0.95 _ 8556839292003942 95).
  - vm_compute. reflexivity.
  - vm_compute. discriminate.
  - vm_compute. reflexivity.
  - vm_compute. reflexivity.
  - apply FloatFacts.pymin_nonneg; [ exact Hp | vm_compute; reflexivity ].
  - apply FloatFacts.pymin_le_cap;
      [ apply (FloatFacts.leb_refl_r _ _ Hp) | vm_compute; reflexivity ].
Qed.

(** X16: whatever the speed and the detection time, the impact probability
    of a returned result lies between 0 and 0.95; and an arrival estimate is
    returned only for a speed of at least 200 km/s, so never for NaN. *)
Theorem cme_impact_probability_bounds :
  forall (cme_speed : float) (detection_time : string) (a : F.cme_arrival),
    F.predict_cme_arrival cme_speed detection_time = Ok a ->
    (0 <=? impact_probability_of a)%float = true /\
    (impact_probability_of a <=? 0.95)%float = true /\
    (forall e, a = F.Arrival e -> (200 <=? cme_speed)%float = true).
Proof.
  intros cme_speed detection_time a Ha.
  destruct (negb (PyNum.truthy cme_speed) || (cme_speed <? 200)%float) eqn:Hguard.
  - rewrite (predict_cme_arrival_guarded _ detection_time Hguard) in Ha.
    injection Ha as <-. cbn [impact_probability_of].
    split; [ vm_compute; reflexivity | ]. split; [ vm_compute; reflexivity | ].
    intros e He. discriminate He.
  - destruct (predict_cme_arrival_unguarded _ _ _ Hguard Ha) as [d [arr [_ [Harr ->]]]].
    apply orb_false_elim in Hguard. destruct Hguard as [_ Hlt].
    assert (H200 : (200 <=? cme_speed)%float = true).
    { apply FloatFacts.leb_total; [ vm_compute; reflexivity | | exact Hlt ].
      apply FloatBounds.leb_refl_not_nan.
      apply (estimate_speed_not_nan d cme_speed arr Harr). }
    cbn [impact_probability_of F.impact_probability].
    destruct (impact_probability_within cme_speed H200) as [Hlow Hup].
    split; [ exact Hlow | ]. split; [ exact Hup | ].
    intros e _. exact H200.
Qed.

Lemma cme_impact_probability_bounds_witness :
  exists a,
    F.predict_cme_arrival 3000 "2025-11-04T12:00Z" = Ok a /\
    (impact_probability_of a <=? 0.95)%float = true.
Proof.
  destruct (F.predict_cme_arrival 3000 "2025-11-04T12:00Z") as [ a | ex ] eqn:Ha;
    [ | vm_compute in Ha; discriminate Ha ].
  exists a. split; [ reflexivity | ].
  apply (cme_impact_probability_bounds 3000 "2025-11-04T12:00Z" a Ha).
Defined.

(** ** The class probabilities of the flare scorer, for every input *)

Module FloatSums.

Import Rounding FloatFacts.
Local Open Scope Z_scope.

Lemma SFadd_nonneg :
  forall x y : spec_float,
    sf_nonneg x = true -> sf_nonneg y = true ->
    sf_nonneg (SFadd prec emax x y) = true.
Proof.
  intros [ sx | [ | ] | | [ | ] mx ex ] [ sy | [ | ] | | [ | ] my ey ] Hx Hy;
    try discriminate Hx; try discriminate Hy; cbn [SFadd]; try reflexivity.
  - destruct sx; destruct sy; reflexivity.
  - cbn [cond_Zopp Z.add]. unfold binary_normalize, binary_round.
    match goal with
    | |- context [shl_align ?a ?b ?c] =>
        match a with
        | (_ + _)%positive => destruct (shl_align a b c) as [mz ez]
        end
    end.
    apply binary_round_aux_nonneg. apply Pos2Z.is_nonneg.
Qed.

Local Open Scope float_scope.

Lemma add_nonneg :
  forall x y : float,
    (0 <=? x) = true -> (0 <=? y) = true -> (0 <=? x + y) = true.
Proof.
  intros x y Hx Hy. apply leb_zero_nonneg in Hx. apply leb_zero_nonneg in Hy.
  apply leb_zero_nonneg. rewrite add_spec. apply SFadd_nonneg; assumption.
Qed.

End FloatSums.

Lemma count_term_nonneg :
  forall (n : nat) (w : float) (m : positive) (e : Z),
    Prim2SF w = S754_finite false m e ->
    (0 <=? PyNum.of_count n * w)%float = true.
Proof.
  intros n w m e Hw.
  apply (FloatFacts.mul_nonneg _ w m e Hw). apply FloatFacts.of_count_nonneg.
Qed.

Lemma activity_score_nonneg :
  forall recent_flares : list flare,
    (0 <=? F._calculate_activity_score recent_flares)%float = true.
Proof.
  intros recent_flares. unfold F._calculate_activity_score.
  destruct recent_flares as [ | f rest ]; [ vm_compute; reflexivity | ].
  apply FloatFacts.pymin_nonneg; [ | vm_compute; reflexivity ].
  apply FloatSums.add_nonneg; [ | vm_compute; reflexivity ].
  apply (FloatBounds.div_nonneg _ 10 5629499534213120 (-49)); [ vm_compute; reflexivity | ].
  apply FloatSums.add_nonneg; [ apply FloatSums.add_nonneg | ].
  - apply (count_term_nonneg _ 0.9 8106479329266893 (-53)). vm_compute. reflexivity.
  - apply (count_term_nonneg _ 0.6 5404319552844595 (-53)). vm_compute. reflexivity.
  - apply (count_term_nonneg _ 0.3 5404319552844595 (-54)). vm_compute. reflexivity.
Qed.

Lemma solar_wind_score_nonneg :
  forall (A : Type) (solar_wind_data : list A),
    (0 <=? F._analyze_solar_wind solar_wind_data)%float = true.
Proof.
  intros A solar_wind_data. unfold F._analyze_solar_wind.
  destruct (length solar_wind_data <? 5)%nat; [ vm_compute; reflexivity | ].
  apply FloatFacts.pymin_nonneg; [ | vm_compute; reflexivity ].
  apply FloatSums.add_nonneg; [ vm_compute; reflexivity | ].
  apply (FloatFacts.mul_nonneg _ 0.4 7205759403792794 (-54)); [ vm_compute; reflexivity | ].
  apply (FloatBounds.div_nonneg _ 100 7036874417766400 (-46)); [ vm_compute; reflexivity | ].
  apply FloatFacts.of_count_nonneg.
Qed.

Lemma xray_score_nonneg :
  forall (A : Type) (xray_flux : list A),
    (0 <=? F._analyze_xray_flux xray_flux)%float = true.
Proof.
  intros A xray_flux. unfold F._analyze_xray_flux.
  destruct (length xray_flux <? 5)%nat; [ vm_compute; reflexivity | ].
  apply FloatFacts.pymin_nonneg; [ | vm_compute; reflexivity ].
  apply FloatSums.add_nonneg; [ vm_compute; reflexivity | ].
  apply (FloatBounds.div_nonneg _ 100 7036874417766400 (-46)); [ vm_compute; reflexivity | ].
  apply FloatFacts.of_count_nonneg.
Qed.

Lemma base_score_nonneg :
  forall (A B : Type) (recent_flares : list flare) (solar_wind_data : list A)
         (xray_flux : list B),
    (0 <=? F.base_score recent_flares solar_wind_data xray_flux)%float = true.
Proof.
  intros A B recent_flares solar_wind_data xray_flux. unfold F.base_score.
  apply FloatSums.add_nonneg; [ apply FloatSums.add_nonneg | ].
  - apply (FloatFacts.mul_nonneg _ 0.5 4503599627370496 (-53)); [ vm_compute; reflexivity | ].
    apply activity_score_nonneg.
  - apply (FloatFacts.mul_nonneg _ 0.3 5404319552844595 (-54)); [ vm_compute; reflexivity | ].
    apply solar_wind_score_nonneg.
  - apply (FloatFacts.mul_nonneg _ 0.2 7205759403792794 (-55)); [ vm_compute; reflexivity | ].
    apply xray_score_nonneg.
Qed.

(** X17: for every list of flares, of solar wind samples and of X-ray
    samples, the three class probabilities of the flare prediction satisfy
    0 <= P(X) <= P(M) <= P(C) <= 0.95, with P(M) <= 0.75 and P(X) <= 0.45:
    the blended score is never negative and never NaN. *)
Theorem flare_prediction_probabilities :
  forall (A B : Type) (utcnow : string) (recent_flares : list flare)
         (solar_wind_data : list A) (xray_flux : list B),
    let p := F.predict_flare_probability utcnow recent_flares solar_wind_data xray_flux in
    (0 <=? F.probability (F.pred_X_class p))%float = true /\
    (F.probability (F.pred_X_class p) <=? F.probability (F.pred_M_class p))%float = true /\
    (F.probability (F.pred_M_class p) <=? F.probability (F.pred_C_class p))%float = true /\
    (F.probability (F.pred_C_class p) <=? 0.95)%float = true /\
    (F.probability (F.pred_M_class p) <=? 0.75)%float = true /\
    (F.probability (F.pred_X_class p) <=? 0.45)%float = true.
Proof.
  intros A B utcnow recent_flares solar_wind_data xray_flux p. subst p.
  cbn [F.predict_flare_probability F.pred_X_class F.pred_M_class F.pred_C_class
       F.probability F.C_class F.M_class F.X_class].
  pose proof (base_score_nonneg A B recent_flares solar_wind_data xray_flux) as Hbase.
  set (base := F.base_score recent_flares solar_wind_data xray_flux) in *.
  assert (H36 : (base * 0.3 <=? base * 0.6)%float = true).
  { apply (FloatFacts.mul_double_mono base 0.3 0.6 5404319552844595 (-54));
      [ vm_compute; reflexivity | vm_compute; reflexivity | exact Hbase ]. }
  assert (H612 : (base * 0.6 <=? base * 1.2)%float = true).
  { apply (FloatFacts.mul_double_mono base 0.6 1.2 5404319552844595 (-53));
      [ vm_compute; reflexivity | vm_compute; reflexivity | exact Hbase ]. }
  split; [ | split; [ | split; [ | split; [ | split ] ] ] ].
  - apply FloatFacts.pymin_nonneg; [ | vm_compute; reflexivity ].
    apply (FloatFacts.mul_nonneg _ 0.3 5404319552844595 (-54));
      [ vm_compute; reflexivity | exact Hbase ].
  - apply FloatFacts.pymin_mono; [ exact H36 | vm_compute; reflexivity ].
  - apply FloatFacts.pymin_mono; [ exact H612 | vm_compute; reflexivity ].
  - apply FloatFacts.pymin_le_cap;
      [ apply (FloatFacts.leb_refl_r _ _ H612) | vm_compute; reflexivity ].
  - apply FloatFacts.pymin_le_cap;
      [ apply (FloatFacts.leb_refl_r _ _ H36) | vm_compute; reflexivity ].
  - apply FloatFacts.pymin_le_cap;
      [ apply (FloatFacts.leb_refl_l _ _ H36) | vm_compute; reflexivity ].
Qed.

(** * Bounds of rounded products

    The product of two floats is the exact product of their mantissas,
    rounded; a float below the exact product is below the rounded one, and
    a float above it is above the rounded one. *)

Module RoundingBounds.

Import Rounding FloatFacts.
Local Open Scope Z_scope.

Lemma scaled_le_shift :
  forall m e M E z : Z,
    z <= e -> z <= E ->
    (scaled_le m e M E <-> m * 2 ^ (e - z) <= M * 2 ^ (E - z)).
Proof.
  intros m e M E z He HE. unfold scaled_le.
  set (w := Z.min e E).
  assert (Hw : z <= w) by (unfold w; lia).
  assert (Hwe : w <= e /\ w <= E) by (unfold w; lia).
  replace (e - z) with ((e - w) + (w - z)) by lia.
  replace (E - z) with ((E - w) + (w - z)) by lia.
  rewrite !Z.pow_add_r by lia. rewrite !Z.mul_assoc.
  assert (Hpos : 0 < 2 ^ (w - z)) by (apply Z.pow_pos_nonneg; lia).
  split; intros H.
  - apply Z.mul_le_mono_nonneg_r; [ lia | exact H ].
  - apply Z.mul_le_mono_pos_r in H; [ exact H | exact Hpos ].
Qed.

Lemma scaled_le_trans :
  forall a ea b eb c ec : Z,
    scaled_le a ea b eb -> scaled_le b eb c ec -> scaled_le a ea c ec.
Proof.
  intros a ea b eb c ec Hab Hbc.
  set (z := Z.min ea (Z.min eb ec)).
  apply (scaled_le_shift a ea b eb z) in Hab; [ | unfold z; lia | unfold z; lia ].
  apply (scaled_le_shift b eb c ec z) in Hbc; [ | unfold z; lia | unfold z; lia ].
  apply (scaled_le_shift a ea c ec z); [ unfold z; lia | unfold z; lia | ].
  lia.
Qed.

Lemma scaled_le_mul :
  forall a ea b eb c ec : Z,
    0 <= c -> scaled_le a ea b eb -> scaled_le (a * c) (ea + ec) (b * c) (eb + ec).
Proof.
  intros a ea b eb c ec Hc Hab. unfold scaled_le in *.
  replace (Z.min (ea + ec) (eb + ec)) with (Z.min ea eb + ec) by lia.
  replace (ea + ec - (Z.min ea eb + ec)) with (ea - Z.min ea eb) by lia.
  replace (eb + ec - (Z.min ea eb + ec)) with (eb - Z.min ea eb) by lia.
  rewrite <- !Z.mul_assoc, !(Z.mul_comm c), !Z.mul_assoc.
  apply Z.mul_le_mono_nonneg_r; assumption.
Qed.

(** The shifted and rounded mantissa. *)
Lemma round_shift_zero :
  forall m n : Z, n <= 0 -> round_shift m n = m.
Proof.
  intros m n Hn. unfold round_shift.
  replace (Z.to_nat n) with 0%nat by lia. reflexivity.
Qed.

Lemma round_shift_floor :
  forall m n : Z,
    0 <= m -> 0 <= n -> m / 2 ^ n <= round_shift m n <= m / 2 ^ n + 1.
Proof.
  intros m n Hm Hn. unfold round_shift.
  pose proof (rne_bounds (Nat.iter (Z.to_nat n) shr_1 (shr_record_of_loc m loc_Exact))) as Hb.
  rewrite shr_m_iter in Hb by exact Hm.
  cbn [shr_record_of_loc shr_m] in Hb.
  rewrite Z2Nat.id in Hb by exact Hn. exact Hb.
Qed.

Lemma shr_1_even :
  forall r : shr_record,
    0 <= shr_m r -> Z.even (shr_m r) = true -> shr_r (shr_1 r) = false.
Proof.
  intros [m rb sb] Hm Heven. cbn [shr_m] in *.
  destruct m as [ | [ p | p | ] | p ]; try lia; try discriminate Heven; reflexivity.
Qed.

Lemma round_shift_exact :
  forall m n : Z,
    0 <= m -> 0 < n -> Z.even (m / 2 ^ (n - 1)) = true ->
    round_shift m n = m / 2 ^ n.
Proof.
  intros m n Hm Hn Heven. unfold round_shift.
  replace (Z.to_nat n) with (S (Z.to_nat (n - 1))) by lia.
  cbn [Nat.iter nat_rect].
  set (r := nat_rect (fun _ => shr_record) (shr_record_of_loc m loc_Exact)
              (fun _ => shr_1) (Z.to_nat (n - 1))).
  assert (Hr : shr_m r = m / 2 ^ (n - 1)).
  { unfold r. pose proof (shr_m_iter (Z.to_nat (n - 1)) (shr_record_of_loc m loc_Exact) Hm) as H.
    unfold Nat.iter in H. rewrite H. cbn [shr_record_of_loc shr_m].
    rewrite Z2Nat.id by lia. reflexivity. }
  assert (Hr0 : 0 <= shr_m r) by (rewrite Hr; apply Z.div_pos; lia).
  rewrite rne_exact by (apply shr_1_even; [ exact Hr0 | rewrite Hr; exact Heven ]).
  rewrite shr_m_shr_1 by exact Hr0. rewrite Hr.
  rewrite Z.div_div by lia.
  replace (2 ^ (n - 1) * 2) with (2 ^ n); [ reflexivity | ].
  replace n with (Z.succ (n - 1)) at 1 by lia. rewrite Z.pow_succ_r by lia. lia.
Qed.


Lemma pow2_le_digits :
  forall m k : Z, 0 < m -> 2 ^ k <= m -> 0 <= k -> k < Zdigits2 m.
Proof.
  intros m k Hm Hk Hk0.
  pose proof (Zdigits2_bounds m Hm) as [_ Hup].
  destruct (Z_lt_le_dec k (Zdigits2 m)) as [Hlt | Hge]; [ exact Hlt | exfalso ].
  pose proof (Zdigits2_nonneg m).
  assert (2 ^ Zdigits2 m <= 2 ^ k) by (apply Z.pow_le_mono_r; lia). lia.
Qed.

Lemma digits_le_pow2 :
  forall m k : Z, 0 < m -> m < 2 ^ k -> 0 <= k -> Zdigits2 m <= k.
Proof.
  intros m k Hm Hk Hk0.
  pose proof (Zdigits2_bounds m Hm) as [Hlow _].
  destruct (Z_le_gt_dec (Zdigits2 m) k) as [Hle | Hgt]; [ exact Hle | exfalso ].
  assert (2 ^ k <= 2 ^ (Zdigits2 m - 1)) by (apply Z.pow_le_mono_r; lia). lia.
Qed.

(** The final mantissa is positive when the rounded one is. *)
Lemma renorm_pos :
  forall R : Z, 0 < R -> 0 < R / 2 ^ Z.max 0 (Zdigits2 R - prec).
Proof.
  intros R HR. pose proof (Zdigits2_bounds R HR) as [Hlow _].
  pose proof (Zdigits2_nonneg R) as Hd.
  apply Z.div_str_pos. split; [ apply Z.pow_pos_nonneg; lia | ].
  apply Z.le_trans with (2 ^ (Zdigits2 R - 1)); [ | exact Hlow ].
  destruct (Z.eq_dec (Zdigits2 R) 0) as [H0 | H0].
  - exfalso. rewrite H0 in *. pose proof (Zdigits2_bounds R HR) as [_ Hup].
    rewrite H0 in Hup. change (2 ^ 0) with 1 in Hup. lia.
  - apply Z.pow_le_mono_r; unfold prec; lia.
Qed.

(** A float with a full mantissa that is at most the exact value is at most
    the rounded value. *)
Lemma binary_round_aux_lower :
  forall m e M E : Z,
    0 < m -> 2 ^ 52 <= M -> SpecFloat.emin prec emax <= E ->
    scaled_le M E m e ->
    SFleb (pack false M E) (binary_round_aux prec emax false m e loc_Exact) = true.
Proof.
  intros m e M E Hm HM HE Hle.
  rewrite binary_round_aux_eq by lia. cbv zeta.
  set (d := Zdigits2 m).
  pose proof (Zdigits2_bounds m Hm) as [Hlow Hup]. fold d in Hlow, Hup.
  pose proof (Zdigits2_nonneg m) as Hd0. fold d in Hd0.
  assert (HA : 53 + E <= d + e).
  { destruct (Z_le_gt_dec (53 + E) (d + e)) as [H | H]; [ exact H | exfalso ].
    unfold scaled_le in Hle. rewrite (Z.min_comm E e) in Hle.
    set (z := Z.min e E) in *.
    assert (H1 : m * 2 ^ (e - z) < 2 ^ d * 2 ^ (e - z)).
    { apply Z.mul_lt_mono_pos_r; [ apply Z.pow_pos_nonneg; unfold z; lia | exact Hup ]. }
    rewrite <- Z.pow_add_r in H1 by (unfold z; lia).
    assert (H2 : 2 ^ (d + (e - z)) <= 2 ^ (52 + (E - z)))
      by (apply Z.pow_le_mono_r; unfold z; lia).
    rewrite (Z.pow_add_r 2 52) in H2 by (unfold z; lia).
    assert (H3 : 2 ^ 52 * 2 ^ (E - z) <= M * 2 ^ (E - z)).
    { apply Z.mul_le_mono_nonneg_r; [ apply Z.pow_nonneg; lia | exact HM ]. }
    lia. }
  replace (fexp prec emax (d + e) - e) with (d - 53)
    by (unfold fexp, SpecFloat.emin, prec, emax in *; lia).
  destruct (Z_le_gt_dec d 53) as [Hsmall | Hbig].
  - rewrite round_shift_zero by lia.
    replace (Z.max 0 (d - 53)) with 0 by lia.
    unfold renorm. fold d.
    replace (Z.max 0 (fexp prec emax (d + (e + 0)) - (e + 0))) with 0
      by (unfold fexp, SpecFloat.emin, prec, emax in *; lia).
    change (2 ^ 0) with 1. rewrite Z.div_1_r.
    apply pack_le; [ change (2 ^ 52) with 4503599627370496 in HM; lia | lia | ].
    right. split; [ exact Hm | ].
    destruct (Z.eq_dec E (e + 0 + 0)) as [Heq | Hne]; [ right | left; lia ].
    split; [ exact Heq | ].
    apply (scaled_le_shift M E m e e) in Hle; [ | lia | lia ].
    replace (E - e) with 0 in Hle by lia. rewrite Z.sub_diag in Hle.
    change (2 ^ 0) with 1 in Hle. lia.
  - set (n := d - 53) in *.
    replace (Z.max 0 n) with n by lia.
    pose proof (round_shift_floor m n ltac:(lia) ltac:(lia)) as [Hfloor _].
    set (R := round_shift m n) in *.
    assert (Hq : 2 ^ 52 <= m / 2 ^ n).
    { apply Z.div_le_lower_bound; [ apply Z.pow_pos_nonneg; lia | ].
      rewrite <- Z.pow_add_r by lia.
      replace (n + 52) with (d - 1) by (unfold n; lia). exact Hlow. }
    assert (HR : 0 < R) by (change (2 ^ 52) with 4503599627370496 in Hq; lia).
    rewrite renorm_above_emin by lia.
    pose proof (renorm_pos R HR) as HF.
    apply pack_le; [ change (2 ^ 52) with 4503599627370496 in HM; lia | lia | ].
    right. split; [ exact HF | ].
    set (k := Z.max 0 (Zdigits2 R - prec)) in *.
    destruct (Z_lt_le_dec E (e + n + k)) as [Hlt | Hge]; [ left; exact Hlt | right ].
    assert (Hk : k = 0) by (unfold k in *; lia).
    assert (HE1 : E = e + n) by lia.
    split; [ lia | ].
    rewrite Hk. change (2 ^ 0) with 1. rewrite Z.div_1_r.
    apply Z.le_trans with (m / 2 ^ n); [ | exact Hfloor ].
    apply Z.div_le_lower_bound; [ apply Z.pow_pos_nonneg; lia | ].
    apply (scaled_le_shift M E m e e) in Hle; [ | lia | lia ].
    rewrite Z.sub_diag in Hle. change (2 ^ 0) with 1 in Hle.
    replace (E - e) with n in Hle by lia. lia.
Qed.

(** A float with a full mantissa that is at least the exact value is at
    least the rounded value, when the exact value has at least as many
    digits as a float holds. *)
Lemma binary_round_aux_upper :
  forall m e M E : Z,
    0 < m -> e <= fexp prec emax (Zdigits2 m + e) ->
    2 ^ 52 <= M < 2 ^ 53 -> SpecFloat.emin prec emax <= E ->
    scaled_le m e M E ->
    SFleb (binary_round_aux prec emax false m e loc_Exact) (pack false M E) = true.
Proof.
  intros m e M E Hm Hn [HM HM'] HE Hle.
  rewrite binary_round_aux_eq by lia. cbv zeta.
  set (d := Zdigits2 m) in *.
  pose proof (Zdigits2_bounds m Hm) as [Hlow Hup]. fold d in Hlow, Hup.
  pose proof (Zdigits2_nonneg m) as Hd0. fold d in Hd0.
  assert (Hd1 : 0 < d).
  { destruct (Z.eq_dec d 0) as [H0 | H0]; [ exfalso | lia ].
    rewrite H0 in Hup. change (2 ^ 0) with 1 in Hup. lia. }
  assert (HB : d + e <= 53 + E).
  { destruct (Z_le_gt_dec (d + e) (53 + E)) as [H | H]; [ exact H | exfalso ].
    unfold scaled_le in Hle.
    set (z := Z.min e E) in *.
    assert (H1 : 2 ^ (d - 1) * 2 ^ (e - z) <= m * 2 ^ (e - z)).
    { apply Z.mul_le_mono_nonneg_r; [ apply Z.pow_nonneg; lia | exact Hlow ]. }
    rewrite <- Z.pow_add_r in H1 by (unfold z; lia).
    assert (H2 : 2 ^ (53 + (E - z)) <= 2 ^ (d - 1 + (e - z)))
      by (apply Z.pow_le_mono_r; unfold z; lia).
    rewrite (Z.pow_add_r 2 53) in H2 by (unfold z; lia).
    assert (H3 : M * 2 ^ (E - z) < 2 ^ 53 * 2 ^ (E - z)).
    { apply Z.mul_lt_mono_pos_r; [ apply Z.pow_pos_nonneg; unfold z; lia | exact HM' ]. }
    lia. }
  set (T := fexp prec emax (d + e)) in *.
  assert (HT : T <= E /\ SpecFloat.emin prec emax <= T /\ d + e - 53 <= T)
    by (unfold T, fexp, SpecFloat.emin, prec, emax in *; lia).
  destruct HT as [HTE [HTmin HTd]].
  set (n := T - e) in *.
  assert (Hn0 : 0 <= n) by (unfold n; lia).
  replace (e + Z.max 0 n) with T by (unfold n; lia).
  pose proof (round_shift_floor m n ltac:(lia) Hn0) as [Hfloor Hceil].
  set (R := round_shift m n) in *.
  assert (Hq : m / 2 ^ n < 2 ^ 53).
  { apply Z.div_lt_upper_bound; [ apply Z.pow_pos_nonneg; lia | ].
    rewrite <- Z.pow_add_r by lia.
    apply Z.lt_le_trans with (2 ^ d); [ exact Hup | ].
    apply Z.pow_le_mono_r; unfold n; lia. }
  assert (HR0 : 0 <= R).
  { apply Z.le_trans with (m / 2 ^ n); [ apply Z.div_pos; lia | exact Hfloor ]. }
  rewrite renorm_above_emin by exact HTmin.
  set (k := Z.max 0 (Zdigits2 R - prec)).
  assert (HM0 : 0 < M) by (change (2 ^ 52) with 4503599627370496 in HM; lia).
  apply pack_le; [ apply Z.div_pos; [ exact HR0 | apply Z.pow_pos_nonneg; unfold k; lia ]
                 | lia | ].
  destruct (Z.eq_dec R 0) as [HRz | HRnz].
  { left. rewrite HRz. apply Z.div_0_l.
    apply Z.neq_sym, Z.lt_neq, Z.pow_pos_nonneg; unfold k; lia. }
  right. split; [ exact HM0 | ].
  assert (HRpos : 0 < R) by lia.
  pose proof (Zdigits2_bounds R HRpos) as [HRlow HRup].
  pose proof (Zdigits2_nonneg R) as HdR.
  assert (HR53 : R <= 2 ^ 53) by lia.
  assert (HdR54 : Zdigits2 R <= 54).
  { apply digits_le_pow2; [ exact HRpos | | lia ].
    change (2 ^ 54) with 18014398509481984.
    change (2 ^ 53) with 9007199254740992 in HR53. lia. }
  destruct (Z_lt_le_dec T E) as [HltE | HgeE].
  - (* the exponent before a carry is below the bound *)
    destruct (Z_le_gt_dec (Zdigits2 R) 53) as [Hnocarry | Hcarry].
    + left. unfold k, prec. lia.
    + assert (Hk : k = 1) by (unfold k, prec; lia).
      assert (HRe : R = 2 ^ 53).
      { assert (2 ^ 53 <= 2 ^ (Zdigits2 R - 1)) by (apply Z.pow_le_mono_r; lia). lia. }
      destruct (Z.eq_dec (T + k) E) as [Heq | Hne]; [ right | left; lia ].
      split; [ exact Heq | ].
      rewrite Hk, HRe. change (2 ^ 53 / 2 ^ 1) with (2 ^ 52). exact HM.
  - (* the same exponent: the mantissas are compared *)
    assert (HTeq : T = E) by lia.
    assert (Hscaled : m <= M * 2 ^ n).
    { apply (scaled_le_shift m e M E e) in Hle; [ | lia | lia ].
      rewrite Z.sub_diag in Hle. change (2 ^ 0) with 1 in Hle.
      replace (E - e) with n in Hle by (unfold n; lia). lia. }
    assert (HqM : m / 2 ^ n <= M).
    { apply Z.div_le_upper_bound; [ apply Z.pow_pos_nonneg; lia | lia ]. }
    assert (HRM : R <= M).
    { destruct (Z.eq_dec (m / 2 ^ n) M) as [HqeqM | Hqne]; [ | lia ].
      assert (Hexact : m = M * 2 ^ n).
      { pose proof (Z.mul_div_le m (2 ^ n) ltac:(apply Z.pow_pos_nonneg; lia)).
        rewrite HqeqM in H. lia. }
      destruct (Z.eq_dec n 0) as [Hn00 | Hnpos].
      - unfold R. rewrite round_shift_zero by lia.
        rewrite Hexact, Hn00. change (2 ^ 0) with 1. lia.
      - unfold R. rewrite round_shift_exact; [ lia | lia | lia | ].
        rewrite Hexact.
        replace (2 ^ n) with (2 * 2 ^ (n - 1)).
        2:{ replace n with (Z.succ (n - 1)) at 2 by lia.
            rewrite Z.pow_succ_r by lia. reflexivity. }
        rewrite Z.mul_assoc, Z.div_mul
          by (apply Z.neq_sym, Z.lt_neq, Z.pow_pos_nonneg; lia).
        rewrite Z.even_mul. rewrite orb_true_r. reflexivity. }
    assert (HdR53 : Zdigits2 R <= 53).
    { apply digits_le_pow2; [ exact HRpos | lia | lia ]. }
    assert (Hk : k = 0) by (unfold k, prec; lia).
    right. split; [ lia | ].
    rewrite Hk. change (2 ^ 0) with 1. rewrite Z.div_1_r. exact HRM.
Qed.


(** ** Valid floats *)

Lemma valid_exponent :
  forall (s : bool) (m : positive) (e : Z),
    valid_binary (S754_finite s m e) = true ->
    SpecFloat.emin prec emax <= e <= emax - prec.
Proof.
  intros s m e Hv. cbn [SpecFloat.valid_binary] in Hv.
  unfold bounded, canonical_mantissa in Hv.
  apply andb_prop in Hv. destruct Hv as [Hc Hb].
  apply Z.eqb_eq in Hc. apply Z.leb_le in Hb.
  unfold fexp, SpecFloat.emin, prec, emax in *. lia.
Qed.

Lemma valid_normal :
  forall (s : bool) (m : positive) (e : Z),
    valid_binary (S754_finite s m e) = true ->
    SpecFloat.emin prec emax < e -> 2 ^ 52 <= Z.pos m.
Proof.
  intros s m e Hv He. cbn [SpecFloat.valid_binary] in Hv.
  unfold bounded, canonical_mantissa in Hv.
  apply andb_prop in Hv. destruct Hv as [Hc _].
  apply Z.eqb_eq in Hc.
  pose proof (digits2_pos_bounds m) as [Hlow _].
  replace (Z.pos (digits2_pos m)) with 53 in Hlow
    by (unfold fexp, SpecFloat.emin, prec, emax in *; lia).
  exact Hlow.
Qed.

Lemma finite_le_scaled :
  forall (Ma mx : positive) (Ea ex : Z),
    SFleb (S754_finite false Ma Ea) (S754_finite false mx ex) = true ->
    valid_binary (S754_finite false Ma Ea) = true ->
    valid_binary (S754_finite false mx ex) = true ->
    scaled_le (Z.pos Ma) Ea (Z.pos mx) ex.
Proof.
  intros Ma mx Ea ex Hle Hva Hvx.
  apply SFleb_finite_inv in Hle.
  pose proof (valid_mantissa_bound _ _ _ Hva) as HMa.
  pose proof (valid_exponent _ _ _ Hva) as [HEa _].
  apply (scaled_le_shift _ _ _ _ Ea); [ lia | lia | ].
  rewrite Z.sub_diag. change (2 ^ 0) with 1.
  destruct Hle as [Hlt | [-> Hm]].
  - pose proof (valid_normal _ _ _ Hvx ltac:(lia)) as Hmx.
    assert (2 ^ 1 <= 2 ^ (ex - Ea)) by (apply Z.pow_le_mono_r; lia).
    change (2 ^ 1) with 2 in *. change (2 ^ 52) with 4503599627370496 in *.
    change (2 ^ 53) with 9007199254740992 in *. nia.
  - rewrite Z.sub_diag. change (2 ^ 0) with 1. lia.
Qed.

(** ** Products *)

Lemma pack_le_infinity :
  forall M E : Z, 0 < M -> SFleb (pack false M E) (S754_infinity false) = true.
Proof.
  intros [ | p | p ] E HM; try lia. cbn [pack].
  destruct (E <=? emax - prec); reflexivity.
Qed.

Lemma zero_le_pack :
  forall (s : bool) (M E : Z), 0 < M -> SFleb (S754_zero s) (pack false M E) = true.
Proof.
  intros s [ | p | p ] E HM; try lia. cbn [pack].
  destruct (E <=? emax - prec); reflexivity.
Qed.

Lemma SFmul_lower :
  forall (x : spec_float) (Ma mc : positive) (Ea ec M E : Z),
    valid_binary x = true ->
    valid_binary (S754_finite false Ma Ea) = true ->
    SFleb (S754_finite false Ma Ea) x = true ->
    2 ^ 52 <= M -> SpecFloat.emin prec emax <= E ->
    scaled_le M E (Z.pos Ma * Z.pos mc) (Ea + ec) ->
    SFleb (pack false M E) (SFmul prec emax x (S754_finite false mc ec)) = true.
Proof.
  intros x Ma mc Ea ec M E Hvx Hva Hle HM HE Hscaled.
  assert (HM0 : 0 < M) by (change (2 ^ 52) with 4503599627370496 in HM; lia).
  destruct x as [ sx | [ | ] | | [ | ] mx ex ]; try discriminate Hle; cbn [SFmul xorb].
  - apply pack_le_infinity. exact HM0.
  - apply binary_round_aux_lower; [ lia | exact HM | exact HE | ].
    apply scaled_le_trans with (Z.pos Ma * Z.pos mc) (Ea + ec); [ exact Hscaled | ].
    rewrite Pos2Z.inj_mul.
    apply scaled_le_mul; [ lia | ].
    apply finite_le_scaled; assumption.
Qed.

Lemma SFmul_upper :
  forall (x : spec_float) (Ma mc : positive) (Ea ec M E : Z),
    valid_binary x = true ->
    valid_binary (S754_finite false Ma Ea) = true ->
    sf_nonneg x = true ->
    SFleb x (S754_finite false Ma Ea) = true ->
    2 ^ 52 <= Z.pos mc ->
    2 ^ 52 <= M < 2 ^ 53 -> SpecFloat.emin prec emax <= E ->
    scaled_le (Z.pos Ma * Z.pos mc) (Ea + ec) M E ->
    SFleb (SFmul prec emax x (S754_finite false mc ec)) (pack false M E) = true.
Proof.
  intros x Ma mc Ea ec M E Hvx Hva Hx Hle Hmc HM HE Hscaled.
  assert (HM0 : 0 < M) by (change (2 ^ 52) with 4503599627370496 in HM; lia).
  destruct x as [ sx | [ | ] | | [ | ] mx ex ]; try discriminate Hle; try discriminate Hx;
    cbn [SFmul xorb].
  - apply zero_le_pack. exact HM0.
  - apply binary_round_aux_upper; [ lia | | exact HM | exact HE | ].
    + assert (Hd : 52 < Zdigits2 (Z.pos (mx * mc))).
      { apply pow2_le_digits; [ lia | | lia ].
        rewrite Pos2Z.inj_mul. change (2 ^ 52) with 4503599627370496 in *. nia. }
      unfold fexp, SpecFloat.emin, prec, emax. lia.
    + apply scaled_le_trans with (Z.pos Ma * Z.pos mc) (Ea + ec); [ | exact Hscaled ].
      rewrite Pos2Z.inj_mul.
      apply scaled_le_mul; [ lia | ].
      apply finite_le_scaled; assumption.
Qed.

(** The product of a negative float and a positive one is below every
    positive float. *)
Lemma SFmul_negative :
  forall (x c t : spec_float),
    SFltb x (S754_zero false) = true ->
    SFltb (S754_zero false) c = true ->
    SFltb (S754_zero false) t = true ->
    SFleb t (SFmul prec emax x c) = false.
Proof.
  intros x c t Hx Hc Ht.
  destruct x as [ sx | [ | ] | | [ | ] mx ex ]; try discriminate Hx;
    destruct c as [ sc | [ | ] | | [ | ] mc ec ]; try discriminate Hc;
    destruct t as [ st | [ | ] | | [ | ] Mt Et ]; try discriminate Ht;
    cbn [SFmul xorb]; try reflexivity.
  - rewrite binary_round_aux_eq by lia. cbv zeta.
    match goal with
    | |- context [renorm ?a ?b] => destruct (renorm a b) as [m' e']
    end.
    destruct m' as [ | p | p ]; cbn [pack]; try reflexivity.
    destruct (e' <=? emax - prec); reflexivity.
  - rewrite binary_round_aux_eq by lia. cbv zeta.
    match goal with
    | |- context [renorm ?a ?b] => destruct (renorm a b) as [m' e']
    end.
    destruct m' as [ | p | p ]; cbn [pack]; try reflexivity.
    destruct (e' <=? emax - prec); reflexivity.
Qed.

(** ** Counts *)

Lemma iter_xO_pow2 :
  forall (p s : positive), Z.pos (Pos.iter xO p s) = Z.pos p * 2 ^ Z.pos s.
Proof.
  intros p s. rewrite Pos2Nat.inj_iter.
  rewrite <- (positive_nat_Z s).
  induction (Pos.to_nat s) as [ | k IH ].
  - cbn [nat_rect]. change (2 ^ Z.of_nat 0) with 1. lia.
  - cbn [nat_rect]. rewrite Nat2Z.inj_succ, Z.pow_succ_r by lia.
    change (Z.pos (nat_rect (fun _ => positive) p (fun _ => xO) k)~0)
      with (2 * Z.pos (nat_rect (fun _ => positive) p (fun _ => xO) k)).
    rewrite IH. lia.
Qed.

Lemma binary_round_lower :
  forall (p : positive) (e M E : Z),
    2 ^ 52 <= M -> SpecFloat.emin prec emax <= E ->
    scaled_le M E (Z.pos p) e ->
    SFleb (pack false M E) (binary_round prec emax false p e) = true.
Proof.
  intros p e M E HM HE Hscaled. unfold binary_round, shl_align.
  destruct (fexp prec emax (Z.pos (digits2_pos p) + e) - e) as [ | s | s ] eqn:Hs.
  - apply binary_round_aux_lower; [ lia | exact HM | exact HE | exact Hscaled ].
  - apply binary_round_aux_lower; [ lia | exact HM | exact HE | exact Hscaled ].
  - apply binary_round_aux_lower; [ lia | exact HM | exact HE | ].
    apply scaled_le_trans with (Z.pos p) e; [ exact Hscaled | ].
    rewrite iter_xO_pow2.
    set (T := fexp prec emax (Z.pos (digits2_pos p) + e)) in *.
    apply (scaled_le_shift _ _ _ _ T); [ lia | lia | ].
    rewrite Z.sub_diag. change (2 ^ 0) with 1.
    replace (e - T) with (Z.pos s) by lia. lia.
Qed.

End RoundingBounds.

Module FloatProducts.

Import Rounding FloatFacts RoundingBounds.
Local Open Scope Z_scope.

Lemma scaled_leb_le :
  forall m e M E : Z, scaled_leb m e M E = true -> scaled_le m e M E.
Proof.
  intros m e M E H. apply Z.leb_le in H. exact H.
Qed.

Lemma pack_finite :
  forall (t : float) (M : positive) (E : Z),
    Prim2SF t = S754_finite false M E -> pack false (Z.pos M) E = Prim2SF t.
Proof.
  intros t M E Ht. pose proof (Prim2SF_valid t) as Hv. rewrite Ht in Hv.
  pose proof (valid_exponent _ _ _ Hv) as [_ Hup].
  rewrite Ht. cbn [pack].
  destruct (Z.leb_spec E (emax - prec)); [ reflexivity | lia ].
Qed.

Local Open Scope float_scope.

(** A product is at least [t] when the first factor is at least [a] and the
    exact product of [a] and the second factor is at least [t]. *)
Lemma mul_lower :
  forall x a c t : float,
    product_above t a c = true -> (a <=? x) = true -> (t <=? x * c) = true.
Proof.
  intros x a c t Hprod Hax. unfold product_above in Hprod.
  pose proof (Prim2SF_valid a) as Hva. pose proof (Prim2SF_valid t) as Hvt.
  pose proof (Prim2SF_valid x) as Hvx.
  rewrite leb_spec in Hax. rewrite leb_spec, mul_spec.
  destruct (Prim2SF t) as [ | | | [ | ] Mt Et ] eqn:Ht; try discriminate Hprod.
  destruct (Prim2SF a) as [ | | | [ | ] Ma Ea ] eqn:Ha; try discriminate Hprod.
  destruct (Prim2SF c) as [ | | | [ | ] mc ec ] eqn:Hc; try discriminate Hprod.
  apply andb_prop in Hprod. destruct Hprod as [HMt Hscaled].
  apply Z.leb_le in HMt. apply scaled_leb_le in Hscaled.
  pose proof (valid_exponent _ _ _ Hvt) as [HEt HEt'].
  replace (S754_finite false Mt Et) with (pack false (Z.pos Mt) Et).
  2:{ cbn [pack]. destruct (Z.leb_spec Et (emax - prec)); [ reflexivity | lia ]. }
  apply (SFmul_lower _ Ma mc Ea ec); assumption.
Qed.

(** A product is at most [t] when the first factor is between 0 and [a] and
    the exact product of [a] and the second factor is at most [t]. *)
Lemma mul_upper :
  forall x a c t : float,
    product_below t a c = true ->
    (0 <=? x) = true -> (x <=? a) = true -> (x * c <=? t) = true.
Proof.
  intros x a c t Hprod H0 Hxa. unfold product_below in Hprod.
  pose proof (Prim2SF_valid a) as Hva. pose proof (Prim2SF_valid t) as Hvt.
  pose proof (Prim2SF_valid x) as Hvx.
  apply leb_zero_nonneg in H0.
  rewrite leb_spec in Hxa. rewrite leb_spec, mul_spec.
  destruct (Prim2SF t) as [ | | | [ | ] Mt Et ] eqn:Ht; try discriminate Hprod.
  destruct (Prim2SF a) as [ | | | [ | ] Ma Ea ] eqn:Ha; try discriminate Hprod.
  destruct (Prim2SF c) as [ | | | [ | ] mc ec ] eqn:Hc; try discriminate Hprod.
  apply andb_prop in Hprod. destruct Hprod as [Hprod Hscaled].
  apply andb_prop in Hprod. destruct Hprod as [Hprod Hmc].
  apply andb_prop in Hprod. destruct Hprod as [HMt HMa].
  apply Z.leb_le in HMt. apply Z.leb_le in HMa. apply Z.leb_le in Hmc.
  apply scaled_leb_le in Hscaled.
  pose proof (valid_exponent _ _ _ Hvt) as [HEt HEt'].
  pose proof (valid_mantissa_bound _ _ _ Hvt) as HMt'.
  replace (S754_finite false Mt Et) with (pack false (Z.pos Mt) Et).
  2:{ cbn [pack]. destruct (Z.leb_spec Et (emax - prec)); [ reflexivity | lia ]. }
  apply (SFmul_upper _ Ma mc Ea ec); try assumption. split; assumption.
Qed.

(** The product of a negative float and a positive one is not above a
    positive float. *)
Lemma mul_negative :
  forall x c t : float,
    (x <? 0) = true -> (0 <? c) = true -> (0 <? t) = true -> (t <=? x * c) = false.
Proof.
  intros x c t Hx Hc Ht. rewrite ltb_spec in Hx, Hc, Ht. rewrite leb_spec, mul_spec.
  change (Prim2SF 0) with (S754_zero false) in *.
  apply SFmul_negative; assumption.
Qed.

(** The float of a count is at least [t] when the count is. *)
Lemma of_count_lower :
  forall (n : nat) (t : float),
    (Z.of_nat n < 2 ^ 63)%Z -> count_above t (Z.of_nat n) = true ->
    (t <=? PyNum.of_count n) = true.
Proof.
  intros n t Hn Hcount. unfold count_above in Hcount.
  pose proof (Prim2SF_valid t) as Hvt.
  rewrite leb_spec. unfold PyNum.of_count. rewrite of_uint63_spec.
  destruct (Prim2SF t) as [ | | | [ | ] Mt Et ] eqn:Ht; try discriminate Hcount.
  apply andb_prop in Hcount. destruct Hcount as [HMt Hscaled].
  apply Z.leb_le in HMt. apply scaled_leb_le in Hscaled.
  pose proof (valid_exponent _ _ _ Hvt) as [HEt HEt'].
  rewrite Uint63.of_Z_spec, Z.mod_small by (change Uint63.wB with (2 ^ 63)%Z; lia).
  replace (S754_finite false Mt Et) with (pack false (Z.pos Mt) Et).
  2:{ cbn [pack]. destruct (Z.leb_spec Et (emax - prec)); [ reflexivity | lia ]. }
  destruct (Z.of_nat n) as [ | p | p ] eqn:Hp; try lia.
  - exfalso. unfold scaled_le in Hscaled. rewrite Z.mul_0_l in Hscaled.
    assert (0 < 2 ^ (Et - Z.min Et 0))%Z by (apply Z.pow_pos_nonneg; lia).
    change (2 ^ 52)%Z with 4503599627370496%Z in HMt. nia.
  - cbn [binary_normalize]. apply binary_round_lower; assumption.
Qed.

End FloatProducts.


(** ** The radiation probability by the number of high-energy flares *)

Lemma base_prob_saturates :
  forall n : nat,
    (5 <= n)%nat -> (Z.of_nat n < 2 ^ 63)%Z ->
    PyNum.pymin (PyNum.of_count n * 0.2) 0.9 = 0.9%float.
Proof.
  intros n Hn Hsmall. unfold PyNum.pymin.
  assert (H5 : (5 <=? PyNum.of_count n)%float = true).
  { apply FloatProducts.of_count_lower; [ exact Hsmall | ].
    unfold Rounding.count_above.
    assert (Hfive : Prim2SF 5 = S754_finite false 5629499534213120 (-50))
      by (vm_compute; reflexivity).
    rewrite Hfive. apply andb_true_intro. split; [ vm_compute; reflexivity | ].
    unfold Rounding.scaled_leb. apply Z.leb_le.
    change (Z.min (-50) 0) with (-50)%Z.
    change (2 ^ (-50 - -50))%Z with 1%Z.
    change (2 ^ (0 - -50))%Z with 1125899906842624%Z. lia. }
  assert (H1 : (1 <=? PyNum.of_count n * 0.2)%float = true).
  { apply (FloatProducts.mul_lower _ 5 0.2 1); [ vm_compute; reflexivity | exact H5 ]. }
  rewrite (FloatOrder.ltb_leb_trans 0.9 1 _); [ reflexivity | vm_compute; reflexivity | exact H1 ].
Qed.

Lemma radiation_probability_from_count :
  forall (utcnow : string) (recent_flares : list flare),
    (Z.of_nat (length (R.high_energy_flares recent_flares)) < 2 ^ 63)%Z ->
    R.radiation_storm_probability (R.predict_radiation_storm utcnow recent_flares) =
      probability_by_count (length (R.high_energy_flares recent_flares)).
Proof.
  intros utcnow recent_flares Hsmall. unfold R.predict_radiation_storm.
  remember (length (R.high_energy_flares recent_flares)) as n eqn:Hn. clear Hn.
  do 5 (destruct n as [ | n ]; [ vm_compute; reflexivity | ]).
  rewrite base_prob_saturates by lia.
  vm_compute. reflexivity.
Qed.

(** X18: the radiation storm probability and the scale are decided by the
    number n of flares whose class starts with "X" or "M" (fewer than 2^63
    of them): the probability is 0.15, 0.2, 0.4 and 0.72 for n = 0, 1, 2
    and 3, and 0.85 for every n >= 4; the scale is "Below S1" for n = 0,
    "S1-S2" for n = 1 and 2, "S3-S4" from n = 3 on.  The cap 0.9 of the base
    probability is never what is returned. *)
Theorem radiation_storm_probability_by_count :
  forall (utcnow : string) (recent_flares : list flare),
    (Z.of_nat (length (R.high_energy_flares recent_flares)) < 2 ^ 63)%Z ->
    R.radiation_storm_probability (R.predict_radiation_storm utcnow recent_flares) =
      probability_by_count (length (R.high_energy_flares recent_flares)) /\
    R.predicted_scale (R.predict_radiation_storm utcnow recent_flares) =
      scale_by_count (length (R.high_energy_flares recent_flares)).
Proof.
  intros utcnow recent_flares Hsmall.
  split; [ apply radiation_probability_from_count; exact Hsmall | ].
  unfold R.predict_radiation_storm, scale_by_count.
  destruct (3 <=? length (R.high_energy_flares recent_flares))%nat;
    [ reflexivity | ].
  destruct (1 <=? length (R.high_energy_flares recent_flares))%nat; reflexivity.
Qed.

Lemma radiation_storm_probability_by_count_witness :
  R.radiation_storm_probability
    (R.predict_radiation_storm "2025-11-05T00:05:00"
       [sample_flare "X1.0"; sample_flare "M5.2"; sample_flare "X9.3";
        sample_flare "M1.1"; sample_flare "C1.0"; sample_flare "M2.0"]) = 0.85%float /\
  R.predicted_scale
    (R.predict_radiation_storm "2025-11-05T00:05:00"
       [sample_flare "X1.0"; sample_flare "M5.2"; sample_flare "X9.3";
        sample_flare "M1.1"; sample_flare "C1.0"; sample_flare "M2.0"]) = "S3-S4".
Proof.
  apply (radiation_storm_probability_by_count "2025-11-05T00:05:00"
           [sample_flare "X1.0"; sample_flare "M5.2"; sample_flare "X9.3";
            sample_flare "M1.1"; sample_flare "C1.0"; sample_flare "M2.0"]).
  vm_compute. reflexivity.
Defined.

(** ** The trend and the alert level of the proton flux *)

Lemma not_ordered_nan :
  forall x : float,
    (0 <=? x)%float = false -> (x <? 0)%float = false -> Prim2SF x = S754_nan.
Proof.
  intros x. rewrite leb_spec, ltb_spec. change (Prim2SF 0) with (S754_zero false).
  destruct (Prim2SF x) as [ sx | [ | ] | | [ | ] mx ex ]; intros H1 H2;
    try discriminate H1; try discriminate H2; reflexivity.
Qed.

Lemma above_excluded :
  forall x low high : float,
    (x <=? low)%float = true -> (low <? high)%float = true -> (high <=? x)%float = false.
Proof.
  intros x low high Hx Hlow.
  destruct (high <=? x)%float eqn:Hhigh; [ exfalso | reflexivity ].
  pose proof (FloatFacts.leb_trans _ _ _ Hhigh Hx) as Hle.
  pose proof (FloatOrder.leb_ltb_trans _ _ _ Hle Hlow) as Hlt.
  rewrite FloatOrder.ltb_irrefl in Hlt. discriminate Hlt.
Qed.

(** X19: the trend and the alert level of a proton flux prediction agree,
    for every flux: with the trend "increasing" (flux above 1000) the alert
    level is "S2 - Moderate" or "S3 - Strong"; with "stable" (flux above 100,
    at most 1000) it is "S1 - Minor" or "S2 - Moderate"; with "decreasing"
    (any other flux, NaN and negative ones too) it is "Normal" or
    "S1 - Minor". *)
Theorem proton_flux_trend_alert :
  forall (utcnow : string) (flux : float),
    let p := R.predict_proton_flux utcnow flux in
    (R.trend p = "increasing" ->
     R.alert_level p = "S2 - Moderate" \/ R.alert_level p = "S3 - Strong") /\
    (R.trend p = "stable" ->
     R.alert_level p = "S1 - Minor" \/ R.alert_level p = "S2 - Moderate") /\
    (R.trend p = "decreasing" ->
     R.alert_level p = "Normal" \/ R.alert_level p = "S1 - Minor").
Proof.
  intros utcnow flux p. subst p. unfold R.predict_proton_flux.
  destruct (PyNum.gt flux 1000) eqn:H1000; [ | destruct (PyNum.gt flux 100) eqn:H100 ];
    cbn [R.trend R.alert_level]; unfold R._get_proton_alert_level, PyNum.ge, PyNum.gt in *.
  - (* increasing *)
    assert (Hp : (1000 <=? flux * 1.2)%float = true).
    { apply (FloatProducts.mul_lower _ 1000 1.2 1000); [ vm_compute; reflexivity | ].
      apply FloatFacts.ltb_leb. exact H1000. }
    rewrite Hp.
    split; [ intros _ | split; intros H; discriminate H ].
    destruct (10000 <=? flux * 1.2)%float; [ right | left ]; reflexivity.
  - (* stable *)
    assert (Hlow : (100 <=? flux)%float = true) by (apply FloatFacts.ltb_leb; exact H100).
    assert (Hup : (flux <=? 1000)%float = true).
    { apply FloatFacts.leb_total;
        [ apply (FloatFacts.leb_refl_r _ _ Hlow) | vm_compute; reflexivity | exact H1000 ]. }
    assert (Hp : (10 <=? flux * 1.1)%float = true).
    { apply (FloatProducts.mul_lower _ 100 1.1 10); [ vm_compute; reflexivity | exact Hlow ]. }
    assert (Hq : (10000 <=? flux * 1.1)%float = false).
    { apply (above_excluded _ 2048); [ | vm_compute; reflexivity ].
      apply (FloatProducts.mul_upper _ 1000 1.1 2048);
        [ vm_compute; reflexivity | | exact Hup ].
      apply FloatFacts.leb_trans with 100%float; [ vm_compute; reflexivity | exact Hlow ]. }
    rewrite Hp, Hq.
    split; [ intros H; discriminate H | split; [ intros _ | intros H; discriminate H ] ].
    destruct (1000 <=? flux * 1.1)%float; [ right | left ]; reflexivity.
  - (* decreasing *)
    assert (Hq : (1000 <=? flux * 0.9)%float = false).
    { destruct (0 <=? flux)%float eqn:Hpos; [ | destruct (flux <? 0)%float eqn:Hneg ].
      - apply (above_excluded _ 128); [ | vm_compute; reflexivity ].
        apply (FloatProducts.mul_upper _ 100 0.9 128);
          [ vm_compute; reflexivity | exact Hpos | ].
        apply FloatFacts.leb_total;
          [ apply (FloatFacts.leb_refl_r _ _ Hpos) | vm_compute; reflexivity | exact H100 ].
      - apply FloatProducts.mul_negative;
          [ exact Hneg | vm_compute; reflexivity | vm_compute; reflexivity ].
      - rewrite leb_spec, mul_spec, (not_ordered_nan flux Hpos Hneg). reflexivity. }
    assert (Hq' : (10000 <=? flux * 0.9)%float = false).
    { destruct (10000 <=? flux * 0.9)%float eqn:H; [ exfalso | reflexivity ].
      rewrite (FloatFacts.leb_trans 1000 10000 _) in Hq;
        [ discriminate Hq | vm_compute; reflexivity | exact H ]. }
    rewrite Hq, Hq'.
    split; [ intros H; discriminate H | split; [ intros H; discriminate H | intros _ ] ].
    destruct (10 <=? flux * 0.9)%float; [ right | left ]; reflexivity.
Qed.

(** ** The overall risk of a comprehensive prediction *)

Lemma risk_level_values :
  forall score : float, In (F._calculate_risk_level score) flare_levels.
Proof.
  intros score. unfold F._calculate_risk_level, flare_levels.
  destruct (PyNum.ge score 0.7); [ cbn; tauto | ].
  destruct (PyNum.ge score 0.5); [ cbn; tauto | ].
  destruct (PyNum.ge score 0.3); cbn; tauto.
Qed.

Lemma storm_probability_values :
  forall (utcnow : string) (kp_history : list row) (cme_incoming : bool)
         (p : F.geomag_prediction),
    F.predict_geomagnetic_storm utcnow kp_history cme_incoming = Ok p ->
    In (F.storm_probability p) storm_probabilities.
Proof.
  intros utcnow kp_history cme_incoming p Hp.
  unfold F.predict_geomagnetic_storm in Hp.
  destruct kp_history as [ | r rest ].
  - injection Hp as <-. left. reflexivity.
  - destruct (F.kp_values (F.last_n 5 (r :: rest))) as [ vs | ex ];
      cbn [bind] in Hp; [ | discriminate Hp ].
    destruct cme_incoming.
    + destruct (PyNum.ge (PyNum.pymin (PyNum.np_mean vs + 3) 9) 7);
        [ | destruct (PyNum.ge (PyNum.pymin (PyNum.np_mean vs + 3) 9) 5) ];
        injection Hp as <-; cbn [F.storm_probability];
        right; right; left; vm_compute; reflexivity.
    + destruct (PyNum.gt (PyNum.np_mean vs) 4);
        (destruct (PyNum.ge (PyNum.pymin (PyNum.np_mean vs + 1) 7) 7);
         [ | destruct (PyNum.ge (PyNum.pymin (PyNum.np_mean vs + 1) 7) 5) ]);
        injection Hp as <-; cbn [F.storm_probability];
        first [ left; vm_compute; reflexivity | right; left; vm_compute; reflexivity ].
Qed.

Lemma radiation_probability_values :
  forall (utcnow : string) (recent_flares : list flare),
    (Z.of_nat (length (R.high_energy_flares recent_flares)) < 2 ^ 63)%Z ->
    In (R.radiation_storm_probability (R.predict_radiation_storm utcnow recent_flares))
       radiation_probabilities.
Proof.
  intros utcnow recent_flares Hsmall.
  rewrite (radiation_probability_from_count utcnow recent_flares Hsmall).
  destruct (length (R.high_energy_flares recent_flares)) as [ | [ | [ | [ | n ] ] ] ];
    cbn; tauto.
Qed.

(** The assessment for the values that the three scorers can return. *)
Lemma overall_risk_cases :
  forall (flare_pred : F.flare_prediction) (geomag_pred : F.geomag_prediction)
         (rad_pred : R.radiation_prediction),
    In (F.risk_level flare_pred) flare_levels ->
    In (F.storm_probability geomag_pred) storm_probabilities ->
    In (R.radiation_storm_probability rad_pred) radiation_probabilities ->
    let o := P._calculate_overall_risk flare_pred geomag_pred rad_pred in
    (P.risk_level o = "HIGH" ->
     In "Solar flare activity" (P.primary_concerns o) /\
     In "Geomagnetic disturbances" (P.primary_concerns o)) /\
    (In "No significant concerns" (P.primary_concerns o) ->
     P.risk_level o = "LOW" \/ P.risk_level o = "MODERATE") /\
    (length (P.primary_concerns o) = 3%nat -> P.risk_level o = "HIGH") /\
    (0.11 <=? P.risk_score o)%float = true /\
    (P.risk_score o <=? 0.85)%float = true.
Proof.
  intros [ ? ? ? ? ? ? ? lvl ? ] [ ? ? ? ? g ? ? ? ] [ ? ? r ? ? ? ? ? ? ] Hf Hg Hr.
  cbn [F.risk_level F.storm_probability R.radiation_storm_probability] in Hf, Hg, Hr.
  unfold flare_levels in Hf. unfold storm_probabilities in Hg.
  unfold radiation_probabilities in Hr. cbn [In] in Hf, Hg, Hr.
  repeat match goal with
         | H : _ \/ _ |- _ => destruct H as [H | H]
         | H : False |- _ => destruct H
         end;
    subst lvl g r;
    match goal with
    | |- let o := ?t in _ =>
        let v := eval vm_compute in t in
        intros o; assert (Ho : o = v) by (vm_compute; reflexivity);
        clearbody o; subst o
    end;
    cbn [P.risk_level P.primary_concerns P.risk_score In length];
    (split; [ intros H; first [ discriminate H | split; tauto ] | ]);
    (split; [ intros H; first [ tauto | intuition discriminate ] | ]);
    (split; [ intros H; first [ reflexivity | discriminate H ] | ]);
    split; vm_compute; reflexivity.
Qed.

(** X20: in a comprehensive prediction (for fewer than 2^63 high-energy
    flares) the overall level and the primary concerns agree: the level
    "HIGH" comes with the concerns "Solar flare activity" and "Geomagnetic
    disturbances"; "No significant concerns" comes with the level "LOW" or
    "MODERATE" only, never "ELEVATED" or "HIGH"; three concerns give the
    level "HIGH"; and the risk score lies between 0.11 and 0.85. *)
Theorem overall_risk_consistent :
  forall (A B : Type) (now : P.clock) (recent_flares : list flare)
         (cme_events : list cme) (solar_wind : list A) (xray_flux : list B)
         (kp_index : list row) (c : P.comprehensive),
    (Z.of_nat (length (R.high_energy_flares recent_flares)) < 2 ^ 63)%Z ->
    P.get_comprehensive_predictions now recent_flares cme_events solar_wind
      xray_flux kp_index = Ok c ->
    let o := P.overall_risk_assessment c in
    (P.risk_level o = "HIGH" ->
     In "Solar flare activity" (P.primary_concerns o) /\
     In "Geomagnetic disturbances" (P.primary_concerns o)) /\
    (In "No significant concerns" (P.primary_concerns o) ->
     P.risk_level o = "LOW" \/ P.risk_level o = "MODERATE") /\
    (length (P.primary_concerns o) = 3%nat -> P.risk_level o = "HIGH") /\
    (0.11 <=? P.risk_score o)%float = true /\
    (P.risk_score o <=? 0.85)%float = true.
Proof.
  intros A B now recent_flares cme_events solar_wind xray_flux kp_index c Hsmall Hc.
  unfold P.get_comprehensive_predictions in Hc.
  destruct (F.predict_geomagnetic_storm _ _ _) as [ g | ex ] eqn:Hg;
    cbn [bind] in Hc; [ | discriminate Hc ].
  match type of Hc with
  | context [bind ?arrival _] => destruct arrival as [ a | ex ]
  end; cbn [bind] in Hc; [ | discriminate Hc ].
  injection Hc as <-. cbn [P.overall_risk_assessment].
  apply overall_risk_cases.
  - apply risk_level_values.
  - apply (storm_probability_values _ _ _ g Hg).
  - apply radiation_probability_values. exact Hsmall.
Qed.

Lemma overall_risk_consistent_witness :
  exists c,
    P.get_comprehensive_predictions
      {| P.now_flare := "2025-11-05T00:05:00"; P.now_geomag := "2025-11-05T00:05:01";
         P.now_radiation := "2025-11-05T00:05:02" |}
      [sample_flare "X1.0"; sample_flare "M5.2"; sample_flare "X9.3"]
      [ {| speed := Some 1450%float; activityID := None;
           startTime := Some "2025-11-04T12:00Z" |} ]
      (@nil nat) (@nil nat) [ [Txt "2025-11-04 15:00:00"; Num 6] ] = Ok c /\
    (P.risk_score (P.overall_risk_assessment c) <=? 0.85)%float = true.
Proof.
  destruct (P.get_comprehensive_predictions
      {| P.now_flare := "2025-11-05T00:05:00"; P.now_geomag := "2025-11-05T00:05:01";
         P.now_radiation := "2025-11-05T00:05:02" |}
      [sample_flare "X1.0"; sample_flare "M5.2"; sample_flare "X9.3"]
      [ {| speed := Some 1450%float; activityID := None;
           startTime := Some "2025-11-04T12:00Z" |} ]
      (@nil nat) (@nil nat) [ [Txt "2025-11-04 15:00:00"; Num 6] ]) as [ c | ex ] eqn:Hc;
    [ | vm_compute in Hc; discriminate Hc ].
  exists c. split; [ reflexivity | ].
  apply (fun Hsmall => overall_risk_consistent _ _ _ _ _ _ _ _ c Hsmall Hc).
  vm_compute. reflexivity.
Defined.

(** * Products with a factor near one *)

Module FloatScaling.

Import Rounding FloatFacts RoundingBounds FloatProducts.
Local Open Scope Z_scope.

Lemma SFleb_refl_finite :
  forall (m : positive) (e : Z),
    SFleb (S754_finite false m e) (S754_finite false m e) = true.
Proof.
  intros m e. sf_compare_cases.
Qed.

(** A float that is at least a positive float with a full mantissa is plus
    infinity or has a full mantissa itself. *)
Lemma above_normal :
  forall (a : float) (x : spec_float),
    positive_normal a = true -> valid_binary x = true ->
    SFleb (Prim2SF a) x = true ->
    x = S754_infinity false \/
    exists mx ex, x = S754_finite false mx ex /\ 2 ^ 52 <= Z.pos mx.
Proof.
  intros a x Ha Hv Hle. unfold positive_normal in Ha.
  destruct (Prim2SF a) as [ | | | [ | ] Ma Ea ]; try discriminate Ha.
  apply Z.ltb_lt in Ha.
  destruct x as [ sx | [ | ] | | [ | ] mx ex ]; try discriminate Hle.
  - left. reflexivity.
  - right. exists mx, ex. split; [ reflexivity | ].
    apply SFleb_finite_inv in Hle.
    apply (valid_normal _ _ _ Hv). lia.
Qed.

Local Open Scope float_scope.

(** Multiplying a float that is not small by a factor of at least one does
    not make it smaller. *)
Lemma mul_grows :
  forall x a c : float,
    positive_normal a = true -> at_least_one c = true ->
    (a <=? x) = true -> (x <=? x * c) = true.
Proof.
  intros x a c Ha Hc Hax.
  pose proof (Prim2SF_valid x) as Hvx.
  rewrite leb_spec in Hax. rewrite leb_spec, mul_spec.
  unfold at_least_one in Hc.
  destruct (Prim2SF c) as [ | | | [ | ] mc ec ] eqn:Hc'; try discriminate Hc.
  apply scaled_leb_le in Hc.
  destruct (above_normal a _ Ha Hvx Hax) as [ -> | [mx [ex [Hx Hmx]]] ]; [ reflexivity | ].
  rewrite Hx in *.
  pose proof (valid_exponent _ _ _ Hvx) as [Hex Hex'].
  replace (S754_finite false mx ex) with (pack false (Z.pos mx) ex) at 1.
  2:{ cbn [pack]. destruct (Z.leb_spec ex (emax - prec)); [ reflexivity | lia ]. }
  apply (SFmul_lower _ mx mc ex ec); try assumption.
  - apply SFleb_refl_finite.
  - pose proof (scaled_le_mul 1 0 (Z.pos mc) ec (Z.pos mx) ex ltac:(lia) Hc) as H.
    rewrite Z.mul_1_l, Z.add_0_l in H.
    rewrite (Z.mul_comm (Z.pos mx)), (Z.add_comm ex). exact H.
Qed.

(** Multiplying it by a positive factor of at most one does not make it
    larger. *)
Lemma mul_shrinks :
  forall x a c : float,
    positive_normal a = true -> at_most_one c = true ->
    (a <=? x) = true -> (x * c <=? x) = true.
Proof.
  intros x a c Ha Hc Hax.
  pose proof (Prim2SF_valid x) as Hvx.
  rewrite leb_spec in Hax. rewrite leb_spec, mul_spec.
  unfold at_most_one in Hc.
  destruct (Prim2SF c) as [ | | | [ | ] mc ec ] eqn:Hc'; try discriminate Hc.
  apply andb_prop in Hc. destruct Hc as [Hmc Hc].
  apply Z.leb_le in Hmc. apply scaled_leb_le in Hc.
  destruct (above_normal a _ Ha Hvx Hax) as [ -> | [mx [ex [Hx Hmx]]] ]; [ reflexivity | ].
  rewrite Hx in *.
  pose proof (valid_exponent _ _ _ Hvx) as [Hex Hex'].
  pose proof (valid_mantissa_bound _ _ _ Hvx) as Hmx'.
  replace (S754_finite false mx ex) with (pack false (Z.pos mx) ex) at 2.
  2:{ cbn [pack]. destruct (Z.leb_spec ex (emax - prec)); [ reflexivity | lia ]. }
  apply (SFmul_upper _ mx mc ex ec); try assumption.
  - reflexivity.
  - apply SFleb_refl_finite.
  - split; assumption.
  - pose proof (scaled_le_mul (Z.pos mc) ec 1 0 (Z.pos mx) ex ltac:(lia) Hc) as H.
    rewrite Z.mul_1_l, Z.add_0_l in H.
    rewrite (Z.mul_comm (Z.pos mx)), (Z.add_comm ex). exact H.
Qed.

End FloatScaling.

(** ** The direction of the proton alert level *)

Local Open Scope float_scope.

Lemma proton_alert_level_monotone :
  forall f1 f2 : float,
    (f1 <=? f2) = true ->
    (alert_rank (R._get_proton_alert_level f1) <=
     alert_rank (R._get_proton_alert_level f2))%nat.
Proof.
  intros f1 f2 Hle. unfold R._get_proton_alert_level, PyNum.ge.
  assert (Hup : forall c : float, (c <=? f1) = true -> (c <=? f2) = true)
    by (intros c Hc; apply (FloatFacts.leb_trans c f1 f2); assumption).
  destruct (10000 <=? f1) eqn:H4; [ rewrite (Hup _ H4); apply le_n | ].
  destruct (1000 <=? f1) eqn:H3.
  { rewrite (Hup _ H3). destruct (10000 <=? f2); cbn; lia. }
  destruct (10 <=? f1) eqn:H1.
  { rewrite (Hup _ H1). destruct (10000 <=? f2); destruct (1000 <=? f2); cbn; lia. }
  cbn. lia.
Qed.

Lemma proton_alert_level_normal :
  forall f : float, (10 <=? f) = false -> R._get_proton_alert_level f = "Normal".
Proof.
  intros f H10. unfold R._get_proton_alert_level, PyNum.ge. rewrite H10.
  destruct (10000 <=? f) eqn:H4.
  { rewrite (FloatFacts.leb_trans 10 10000 f) in H10;
      [ discriminate H10 | vm_compute; reflexivity | exact H4 ]. }
  destruct (1000 <=? f) eqn:H3.
  { rewrite (FloatFacts.leb_trans 10 1000 f) in H10;
      [ discriminate H10 | vm_compute; reflexivity | exact H3 ]. }
  reflexivity.
Qed.

(** X24: a proton flux prediction moves the alert level in the direction of
    its trend, for every flux: with the trend "increasing" or "stable" the
    alert level is never below the level that the current flux has, and
    with the trend "decreasing" it is never above it. *)
Theorem proton_flux_alert_direction :
  forall (utcnow : string) (flux : float),
    let p := R.predict_proton_flux utcnow flux in
    (R.trend p <> "decreasing" ->
     (alert_rank (R._get_proton_alert_level flux) <= alert_rank (R.alert_level p))%nat) /\
    (R.trend p = "decreasing" ->
     (alert_rank (R.alert_level p) <= alert_rank (R._get_proton_alert_level flux))%nat).
Proof.
  intros utcnow flux p. subst p. unfold R.predict_proton_flux.
  destruct (PyNum.gt flux 1000) eqn:H1000; [ | destruct (PyNum.gt flux 100) eqn:H100 ];
    cbn [R.trend R.alert_level]; unfold PyNum.gt in *.
  - split; [ intros _ | intros H; discriminate H ].
    apply proton_alert_level_monotone.
    apply (FloatScaling.mul_grows _ 1000 1.2);
      [ vm_compute; reflexivity | vm_compute; reflexivity | ].
    apply FloatFacts.ltb_leb. exact H1000.
  - split; [ intros _ | intros H; discriminate H ].
    apply proton_alert_level_monotone.
    apply (FloatScaling.mul_grows _ 100 1.1);
      [ vm_compute; reflexivity | vm_compute; reflexivity | ].
    apply FloatFacts.ltb_leb. exact H100.
  - split; [ intros H; exfalso; apply H; reflexivity | intros _ ].
    destruct (10 <=? flux) eqn:H10.
    + apply proton_alert_level_monotone.
      apply (FloatScaling.mul_shrinks _ 10 0.9);
        [ vm_compute; reflexivity | vm_compute; reflexivity | exact H10 ].
    + rewrite (proton_alert_level_normal (flux * 0.9)); [ cbn; lia | ].
      destruct (0 <=? flux) eqn:Hpos; [ | destruct (flux <? 0) eqn:Hneg ].
      * apply (above_excluded _ 9.5); [ | vm_compute; reflexivity ].
        apply (FloatProducts.mul_upper _ 10 0.9 9.5);
          [ vm_compute; reflexivity | exact Hpos | ].
        apply FloatFacts.leb_total;
          [ apply (FloatFacts.leb_refl_r _ _ Hpos) | vm_compute; reflexivity | ].
        destruct (10 <? flux) eqn:Hlt; [ | reflexivity ].
        rewrite (FloatFacts.ltb_leb _ _ Hlt) in H10. discriminate H10.
      * apply FloatProducts.mul_negative;
          [ exact Hneg | vm_compute; reflexivity | vm_compute; reflexivity ].
      * rewrite leb_spec, mul_spec, (not_ordered_nan flux Hpos Hneg). reflexivity.
Qed.

Local Open Scope string_scope.

(** ** The severity of a CME *)

(** X21: the severity that the alert synthesizer gives a CME does not
    decrease when the speed grows. *)
Theorem cme_severity_monotone :
  forall s1 s2 : float,
    (s1 <=? s2)%float = true ->
    (severity_rank (Alerts.classify_cme_severity s1) <=
     severity_rank (Alerts.classify_cme_severity s2))%nat.
Proof.
  intros s1 s2 Hle. unfold Alerts.classify_cme_severity, PyNum.ge.
  assert (Hup : forall c : float, (c <=? s1)%float = true -> (c <=? s2)%float = true)
    by (intros c Hc; apply (FloatFacts.leb_trans c s1 s2); assumption).
  destruct (2000 <=? s1)%float eqn:H4; [ rewrite (Hup _ H4); apply le_n | ].
  destruct (1000 <=? s1)%float eqn:H3.
  { rewrite (Hup _ H3). destruct (2000 <=? s2)%float; cbn; lia. }
  destruct (500 <=? s1)%float eqn:H1.
  { rewrite (Hup _ H1). destruct (2000 <=? s2)%float; destruct (1000 <=? s2)%float; cbn; lia. }
  cbn. lia.
Qed.

Lemma cme_severity_monotone_witness :
  (severity_rank (Alerts.classify_cme_severity 700) <=
   severity_rank (Alerts.classify_cme_severity 2400))%nat.
Proof.
  apply (cme_severity_monotone 700 2400). vm_compute. reflexivity.
Defined.

(** X22: the arrival estimator and the alert synthesizer agree on a CME:
    an arrival estimate has the severity "high" exactly when the speed
    makes the synthesizer raise an alert (severity "high" or "extreme"),
    and "moderate" exactly when it raises none. *)
Theorem arrival_severity_matches_alert :
  forall (cme_speed : float) (detection_time : string) (e : F.cme_arrival_estimate),
    F.predict_cme_arrival cme_speed detection_time = Ok (F.Arrival e) ->
    (F.arrival_severity e = "high" <->
     PyStr.mem (Alerts.classify_cme_severity cme_speed) ["high"; "extreme"] = true) /\
    (F.arrival_severity e = "moderate" <->
     PyStr.mem (Alerts.classify_cme_severity cme_speed) ["high"; "extreme"] = false).
Proof.
  intros cme_speed detection_time e He.
  destruct (negb (PyNum.truthy cme_speed) || (cme_speed <? 200)%float) eqn:Hguard.
  - rewrite (predict_cme_arrival_guarded _ detection_time Hguard) in He. discriminate He.
  - destruct (predict_cme_arrival_unguarded _ _ _ Hguard He) as [d [arr [_ [_ Heq]]]].
    injection Heq as ->. cbn [F.arrival_severity].
    unfold Alerts.classify_cme_severity.
    destruct (PyNum.ge cme_speed 2000) eqn:H2000.
    + assert (H1000 : PyNum.ge cme_speed 1000 = true).
      { unfold PyNum.ge in *.
        apply (FloatFacts.leb_trans 1000 2000 cme_speed);
          [ vm_compute; reflexivity | exact H2000 ]. }
      rewrite H1000. cbn. split; split; intros H; try reflexivity; discriminate H.
    + destruct (PyNum.ge cme_speed 1000); [ | destruct (PyNum.ge cme_speed 500) ];
        cbn; split; split; intros H; try reflexivity; discriminate H.
Qed.

Lemma arrival_severity_matches_alert_witness :
  exists e,
    F.predict_cme_arrival 2400 "2025-11-04T12:00Z" = Ok (F.Arrival e) /\
    F.arrival_severity e = "high".
Proof.
  destruct (F.predict_cme_arrival 2400 "2025-11-04T12:00Z") as [ [ t p m | e ] | ex ] eqn:He;
    [ vm_compute in He; discriminate He | | vm_compute in He; discriminate He ].
  exists e. split; [ reflexivity | ].
  apply (arrival_severity_matches_alert 2400 "2025-11-04T12:00Z" e He).
  vm_compute. reflexivity.
Defined.

(** ** The CME arrival route and the comprehensive prediction *)

Lemma predict_each_last :
  forall (earlier : list cme) (latest : cme) (ps : list F.cme_arrival),
    PredictionRoutes.predict_each (earlier ++ [latest]) = Ok ps ->
    exists ps' a,
      ps = (ps' ++ [a])%list /\
      F.predict_cme_arrival (P.speed_of latest) (get (startTime latest) "") = Ok a.
Proof.
  induction earlier as [ | c rest IH ]; intros latest ps Hps;
    cbn [app PredictionRoutes.predict_each] in Hps.
  - destruct (F.predict_cme_arrival (P.speed_of latest) (get (startTime latest) ""))
      as [ a | ex ]; cbn [bind] in Hps; [ | discriminate Hps ].
    injection Hps as <-. exists [], a. split; reflexivity.
  - destruct (F.predict_cme_arrival (P.speed_of c) (get (startTime c) ""))
      as [ b | ex ]; cbn [bind] in Hps; [ | discriminate Hps ].
    destruct (PredictionRoutes.predict_each (rest ++ [latest])) as [ qs | ex ] eqn:Hqs;
      cbn [bind] in Hps; [ | discriminate Hps ].
    injection Hps as <-.
    destruct (IH latest qs Hqs) as [ps' [a [-> Ha]]].
    exists (b :: ps'), a. split; [ reflexivity | exact Ha ].
Qed.

Lemma last_n_keeps_last :
  forall (A : Type) (n : nat) (earlier : list A) (latest : A),
    (0 < n)%nat ->
    exists kept, F.last_n n (earlier ++ [latest]) = (kept ++ [latest])%list.
Proof.
  intros A n earlier latest Hn. unfold F.last_n.
  rewrite length_app. cbn [length].
  exists (skipn (length earlier + 1 - n) earlier).
  rewrite skipn_app.
  replace (length earlier + 1 - n - length earlier)%nat with 0%nat by lia.
  reflexivity.
Qed.

(** X23: on the same CME feed, when the CME arrival route returns, the CME
    arrival of a comprehensive prediction is the last prediction of the
    route (none when the route has none), and the comprehensive prediction
    returns whenever the geomagnetic route does, with the same geomagnetic
    prediction. *)
Theorem cme_route_agrees_with_comprehensive :
  forall (A B : Type) (now : P.clock) (recent_flares : list flare)
         (cme_events : list cme) (solar_wind : list A) (xray_flux : list B)
         (kp_index : list row) (d : PredictionRoutes.cme_arrival_data),
    PredictionRoutes.get_cme_arrival_predictions cme_events = Ok d ->
    (forall c,
       P.get_comprehensive_predictions now recent_flares cme_events solar_wind
         xray_flux kp_index = Ok c ->
       P.cme_arrival (P.all_predictions c) =
         last (map Some (PredictionRoutes.predictions d)) None) /\
    (forall g,
       PredictionRoutes.get_geomagnetic_storm_predictions (P.now_geomag now)
         kp_index cme_events = Ok g ->
       exists c,
         P.get_comprehensive_predictions now recent_flares cme_events solar_wind
           xray_flux kp_index = Ok c /\
         P.geomagnetic_storm (P.all_predictions c) = g).
Proof.
  intros A B now recent_flares cme_events solar_wind xray_flux kp_index d Hd.
  unfold PredictionRoutes.get_cme_arrival_predictions in Hd.
  unfold P.get_comprehensive_predictions,
    PredictionRoutes.get_geomagnetic_storm_predictions.
  fold (faster_than 500) in Hd. fold (faster_than 500).
  destruct (rev (filter (faster_than 500) cme_events)) as [ | latest others ] eqn:Hrev.
  - apply (f_equal (@rev cme)) in Hrev. rewrite rev_involutive in Hrev.
    cbn [rev] in Hrev. rewrite Hrev in Hd. injection Hd as <-.
    cbn [PredictionRoutes.predictions map last].
    split.
    + intros c Hc.
      destruct (F.predict_geomagnetic_storm _ _ _) as [ g | ex ];
        cbn [bind] in Hc; [ | discriminate Hc ].
      injection Hc as <-. reflexivity.
    + intros g Hg. rewrite Hg. cbn [bind]. eexists. split; reflexivity.
  - assert (Hlist : filter (faster_than 500) cme_events = (rev others ++ [latest])%list).
    { apply (f_equal (@rev cme)) in Hrev. rewrite rev_involutive in Hrev. exact Hrev. }
    rewrite Hlist in Hd.
    destruct (rev others ++ [latest])%list as [ | c0 rest0 ] eqn:Hne;
      [ destruct (rev others); discriminate Hne | ].
    rewrite <- Hne in Hd.
    destruct (PredictionRoutes.predict_each (F.last_n 3 (rev others ++ [latest])))
      as [ ps | ex ] eqn:Hps; cbn [bind] in Hd; [ | discriminate Hd ].
    injection Hd as <-. cbn [PredictionRoutes.predictions].
    destruct (last_n_keeps_last cme 3 (rev others) latest ltac:(lia)) as [kept Hkept].
    rewrite Hkept in Hps.
    destruct (predict_each_last kept latest ps Hps) as [ps' [a [-> Ha]]].
    rewrite Ha. cbn [bind].
    rewrite map_app. cbn [map]. rewrite last_last.
    split.
    + intros c Hc.
      destruct (F.predict_geomagnetic_storm _ _ _) as [ g | ex ];
        cbn [bind] in Hc; [ | discriminate Hc ].
      injection Hc as <-. reflexivity.
    + intros g Hg. rewrite Hg. cbn [bind]. eexists. split; reflexivity.
Qed.

Lemma cme_route_agrees_with_comprehensive_witness :
  exists d c,
    PredictionRoutes.get_cme_arrival_predictions
      [ {| speed := Some 450%float; activityID := None;
           startTime := Some "2025-11-04T08:00Z" |};
        {| speed := Some 1450%float; activityID := None;
           startTime := Some "2025-11-04T12:00Z" |} ] = Ok d /\
    P.get_comprehensive_predictions
      {| P.now_flare := "2025-11-05T00:05:00"; P.now_geomag := "2025-11-05T00:05:01";
         P.now_radiation := "2025-11-05T00:05:02" |}
      [sample_flare "X1.0"]
      [ {| speed := Some 450%float; activityID := None;
           startTime := Some "2025-11-04T08:00Z" |};
        {| speed := Some 1450%float; activityID := None;
           startTime := Some "2025-11-04T12:00Z" |} ]
      (@nil nat) (@nil nat) (@nil row) = Ok c /\
    P.cme_arrival (P.all_predictions c) =
      last (map Some (PredictionRoutes.predictions d)) None.
Proof.
  destruct (PredictionRoutes.get_cme_arrival_predictions
      [ {| speed := Some 450%float; activityID := None;
           startTime := Some "2025-11-04T08:00Z" |};
        {| speed := Some 1450%float; activityID := None;
           startTime := Some "2025-11-04T12:00Z" |} ]) as [ d | ex ] eqn:Hd;
    [ | vm_compute in Hd; discriminate Hd ].
  destruct (P.get_comprehensive_predictions
      {| P.now_flare := "2025-11-05T00:05:00"; P.now_geomag := "2025-11-05T00:05:01";
         P.now_radiation := "2025-11-05T00:05:02" |}
      [sample_flare "X1.0"]
      [ {| speed := Some 450%float; activityID := None;
           startTime := Some "2025-11-04T08:00Z" |};
        {| speed := Some 1450%float; activityID := None;
           startTime := Some "2025-11-04T12:00Z" |} ]
      (@nil nat) (@nil nat) (@nil row)) as [ c | ex ] eqn:Hc;
    [ | vm_compute in Hc; discriminate Hc ].
  exists d, c. split; [ reflexivity | ]. split; [ reflexivity | ].
  eapply (proj1 (cme_route_agrees_with_comprehensive nat nat _ _ _ _ _ _ d Hd)).
  exact Hc.
Defined.

(** * The data quality of the ML prediction service *)

(** X25: more data never lowers the data quality: when each of the three
    feeds is at least as long, the rating (Limited < Fair < Good <
    Excellent) and the score are at least as high.  The score is 0 with the
    rating "Limited" below every threshold, and 1 with the rating
    "Excellent" for five flares, ten wind samples and ten X-ray samples or
    more. *)
Theorem data_quality_monotone :
  forall (A B C : Type) (flares1 flares2 : list A) (wind1 wind2 : list B)
         (xray1 xray2 : list C),
    (length flares1 <= length flares2)%nat ->
    (length wind1 <= length wind2)%nat ->
    (length xray1 <= length xray2)%nat ->
    let q1 := MLPredictionService._assess_data_quality flares1 wind1 xray1 in
    let q2 := MLPredictionService._assess_data_quality flares2 wind2 xray2 in
    (rating_rank (MLPredictionService.rating q1) <=
     rating_rank (MLPredictionService.rating q2))%nat /\
    (MLPredictionService.score q1 <=? MLPredictionService.score q2)%float = true /\
    ((length flares2 < 2)%nat -> (length wind2 < 5)%nat -> (length xray2 < 5)%nat ->
     MLPredictionService.rating q2 = "Limited" /\ MLPredictionService.score q2 = 0%float) /\
    ((5 <= length flares1)%nat -> (10 <= length wind1)%nat -> (10 <= length xray1)%nat ->
     MLPredictionService.rating q1 = "Excellent" /\ MLPredictionService.score q1 = 1%float).
Proof.
  intros A B C flares1 flares2 wind1 wind2 xray1 xray2 Hf Hw Hx q1 q2. subst q1 q2.
  unfold MLPredictionService._assess_data_quality.
  cbn [MLPredictionService.rating MLPredictionService.score].
  destruct (Nat.leb_spec 5 (length flares1)); destruct (Nat.leb_spec 2 (length flares1));
    destruct (Nat.leb_spec 5 (length flares2)); destruct (Nat.leb_spec 2 (length flares2));
    try (exfalso; lia);
    destruct (Nat.leb_spec 10 (length wind1)); destruct (Nat.leb_spec 5 (length wind1));
    destruct (Nat.leb_spec 10 (length wind2)); destruct (Nat.leb_spec 5 (length wind2));
    try (exfalso; lia);
    destruct (Nat.leb_spec 10 (length xray1)); destruct (Nat.leb_spec 5 (length xray1));
    destruct (Nat.leb_spec 10 (length xray2)); destruct (Nat.leb_spec 5 (length xray2));
    try (exfalso; lia);
    (split; [ vm_compute; lia | ]);
    (split; [ vm_compute; reflexivity | ]);
    (split; [ intros; first [ exfalso; lia | split; vm_compute; reflexivity ] | ]);
    intros; first [ exfalso; lia | split; vm_compute; reflexivity ].
Qed.

Lemma data_quality_monotone_witness :
  (rating_rank (MLPredictionService.rating
     (MLPredictionService._assess_data_quality
        [sample_flare "C1.0"; sample_flare "M2.0"] (@nil row) (@nil row))) <=
   rating_rank (MLPredictionService.rating
     (MLPredictionService._assess_data_quality
        [sample_flare "C1.0"; sample_flare "M2.0"; sample_flare "X1.0"]
        sample_wind (@nil row))))%nat.
Proof.
  apply (data_quality_monotone flare row row
           [sample_flare "C1.0"; sample_flare "M2.0"]
           [sample_flare "C1.0"; sample_flare "M2.0"; sample_flare "X1.0"]
           (@nil row) sample_wind (@nil row) (@nil row)); vm_compute; lia.
Defined.
